(** * ShopUz: cart ledger and order lifecycle

    A shallow embedding of [backend/src/services/cartService.ts]
    ([CartService] and [OrderService]) and of the handlers of
    [CartController] and [OrderController] that call them.

    - Prisma tables are lists of rows kept in creation order; [findUnique],
      [update] and [delete] act on the first row that matches.  A
      [findMany] on the cart that gives no [orderBy] returns its rows in an
      order of the database's choosing ([ScanOrder]): the services are
      verified for every such order.  Timestamps, categories, images, the
      users table and the logger are left out.
    - [await] is where another request can run: a method is one computation
      when nothing runs in between, and [createOrder_resume] is the part of
      [createOrder] after its first [await].
    - A [Float] column is taken to return the double that was written; the
      examples about stored prices use decimals of few digits, which a
      column that keeps 16 digits returns unchanged.
    - A service method is a computation in a state-and-exception monad over
      the database.  What a method wrote before it threw stays written,
      except inside [prisma.$transaction], which restores the database when
      its body throws.  A write through a transaction client can be failed by
      the database, which is how a transaction comes to throw half-way.
    - A JavaScript [number] that holds money is abstract ([JSNumber]) with two
      instances: the exact rationals, and IEEE-754 binary64, which is what
      the program runs on.  Quantities and stock are Prisma [Int]s: [Z]. *)

From Stdlib Require Import ZArith QArith Qround Qpower List Ascii String Bool.
From Stdlib Require Import Lia Lqa Permutation.
From Stdlib Require Import Floats.PrimFloat Floats.FloatOps Floats.SpecFloat.
From Stdlib Require Import Floats.FloatAxioms.
Import ListNotations.

Set Warnings "-inexact-float".
Local Open Scope Z_scope.

(* ------------------------------------------------------------------ *)
(** ** JavaScript numbers *)

(** The arithmetic the services use on prices and discounts. *)
Class JSNumber (num : Type) : Type := {
  num_of_Z : Z -> num;
  num_add : num -> num -> num;
  num_sub : num -> num -> num;
  num_mul : num -> num -> num;
  num_div : num -> num -> num;
  (** [Math.round]: the nearest integer, a tie going to the larger one. *)
  Math_round : num -> num;
  (** [x ? a : b] on a number: false for [0], [-0] and [NaN]. *)
  num_truthy : num -> bool
}.

Declare Scope js_scope.
Delimit Scope js_scope with js.
Infix "+" := num_add : js_scope.
Infix "-" := num_sub : js_scope.
Infix "*" := num_mul : js_scope.
Infix "/" := num_div : js_scope.

(** [Math.round(x * 100) / 100], the rounding of [calculateCartSummary]. *)
Definition round2 {num} `{JSNumber num} (x : num) : num :=
  (Math_round (x * num_of_Z 100) / num_of_Z 100)%js.

(** *** Exact arithmetic *)

Definition Q_round (x : Q) : Q := inject_Z (Qfloor (x + (1 # 2))).

#[export] Instance JSNumber_Q : JSNumber Q := {
  num_of_Z := inject_Z;
  num_add := Qplus;
  num_sub := Qminus;
  num_mul := Qmult;
  num_div := Qdiv;
  Math_round := Q_round;
  num_truthy := fun x => negb (Qeq_bool x 0)
}.

(** *** IEEE-754 binary64 *)

(** The integer [z] as a double (exact below [2^53], rounded to nearest even
    above). *)
Definition float_of_Z (z : Z) : float :=
  SF2Prim (binary_normalize prec emax z 0 false).

(** [Math.round] on a double.  A finite [x = (-1)^s * m * 2^e] with [e < 0]
    goes to [floor (x + 1/2)], computed on integers; the result [0] keeps the
    sign of [x].  NaN, the infinities, the zeros and the doubles that are
    integers already ([0 <= e]) are returned as they are. *)
Definition float_round (x : float) : float :=
  match Prim2SF x with
  | S754_finite s m e =>
      if 0 <=? e then x
      else
        let v := if s then Z.neg m else Z.pos m in
        let r := (2 * v + 2 ^ (- e)) / 2 ^ (- e + 1) in
        if (r =? 0) && s then PrimFloat.opp PrimFloat.zero else float_of_Z r
  | _ => x
  end.

(** The number that a double holds; [None] for NaN and the infinities. *)
Definition SF2Q (x : spec_float) : option Q :=
  match x with
  | S754_zero _ => Some 0%Q
  | S754_finite s m e =>
      Some (inject_Z (if s then Z.neg m else Z.pos m) * 2 ^ e)%Q
  | _ => None
  end.

Definition float_value (x : float) : option Q := SF2Q (Prim2SF x).

Definition float_truthy (x : float) : bool :=
  negb (PrimFloat.is_zero x || PrimFloat.is_nan x).

#[export] Instance JSNumber_float : JSNumber float := {
  num_of_Z := float_of_Z;
  num_add := PrimFloat.add;
  num_sub := PrimFloat.sub;
  num_mul := PrimFloat.mul;
  num_div := PrimFloat.div;
  Math_round := float_round;
  num_truthy := float_truthy
}.

(* ------------------------------------------------------------------ *)
(** ** Enumerations and errors *)

Inductive OrderStatus : Type :=
| PENDING | CONFIRMED | PROCESSING | SHIPPED | DELIVERED | CANCELLED | RETURNED.

Inductive PaymentStatus : Type :=
| PAY_PENDING | PAID | FAILED | REFUNDED.

Inductive PaymentMethod : Type := card | cash.

Definition OrderStatus_eqb (a b : OrderStatus) : bool :=
  match a, b with
  | PENDING, PENDING | CONFIRMED, CONFIRMED | PROCESSING, PROCESSING
  | SHIPPED, SHIPPED | DELIVERED, DELIVERED | CANCELLED, CANCELLED
  | RETURNED, RETURNED => true
  | _, _ => false
  end.

(** [Array.prototype.includes] on a list of statuses. *)
Definition includes (l : list OrderStatus) (s : OrderStatus) : bool :=
  existsb (OrderStatus_eqb s) l.

(** One entry of the [errors] array built by [validateCart]. *)
Inductive ValidationError : Type :=
| VCartIsEmpty
    (* 'Cart is empty' *)
| VOnlyAvailable (name : string) (stock requested : Z).
    (* `${name}: Only ${stock} available, but ${requested} requested` *)

(** The exceptions of the two services, one constructor per message. *)
Inductive Error : Type :=
| ProductNotFound
    (* 'Product not found' *)
| OnlyInStock (stock : Z)
    (* `Only ${stock} items available in stock` *)
| CannotAddMore (quantity more : Z)
    (* `Cannot add ${quantity} more items. Only ${more} more available` *)
| QuantityMustBePositive
    (* 'Quantity must be greater than 0' *)
| CartItemNotFound
    (* 'Cart item not found' *)
| CartValidationFailedWith (errors : list ValidationError)
    (* `Cart validation failed: ${errors.join(', ')}` *)
| CartIsEmpty
    (* 'Cart is empty' *)
| FailedToCreateOrder
    (* 'Failed to create order' *)
| OrderNotFound
    (* 'Order not found' *)
| InvalidTransition (current requested : OrderStatus)
    (* `Invalid status transition from ${current} to ${requested}` *)
| UnauthorizedToCancel
    (* 'Unauthorized to cancel this order' *)
| CannotCancel (status : OrderStatus)
    (* `Cannot cancel order with status ${status}` *)
| PrismaError.
    (* thrown by the Prisma client: record to update not found, a required
       relation missing, or the database failing a write *)

(** The error taxonomy of the specification. *)
Inductive ErrorKind : Type :=
| NotFound | InvalidArgument | InsufficientStock | CartEmpty
| CartValidationFailed | InvalidStatusTransition | Forbidden
| TransactionAborted.

Definition kind (e : Error) : ErrorKind :=
  match e with
  | ProductNotFound | CartItemNotFound | OrderNotFound => NotFound
  | OnlyInStock _ | CannotAddMore _ _ => InsufficientStock
  | QuantityMustBePositive => InvalidArgument
  | CartValidationFailedWith _ => CartValidationFailed
  | CartIsEmpty => CartEmpty
  | InvalidTransition _ _ => InvalidStatusTransition
  | UnauthorizedToCancel => Forbidden
  | CannotCancel _ => InvalidStatusTransition
  | FailedToCreateOrder | PrismaError => TransactionAborted
  end.

(** [if (userId)] on an optional string: [undefined] and [''] are falsy. *)
Definition truthy (s : option string) : bool :=
  match s with
  | Some u => negb (String.eqb u ""%string)
  | None => false
  end.

(* ------------------------------------------------------------------ *)
(** ** The database *)

Section Store.
Context {num : Type} `{JSNumber num}.

Record Product : Type := mkProduct {
  p_id : string;
  p_name : string;
  p_price : num;
  p_stock : Z;
  p_discount : option num          (* number | null *)
}.

Record CartItemRow : Type := mkCartItemRow {
  ci_id : string;
  ci_userId : string;
  ci_productId : string;
  ci_quantity : Z
}.

(** A cart row read with [include: { product }]. *)
Record CartItem : Type := mkCartItem {
  ci_row : CartItemRow;
  ci_product : Product
}.

Record ShippingAddress : Type := mkShippingAddress {
  sa_firstName : string;
  sa_lastName : string;
  sa_email : string;
  sa_phone : string;
  sa_address : string;
  sa_city : string;
  sa_postalCode : string
}.

Record CreateOrderData : Type := mkCreateOrderData {
  firstName : string;
  lastName : string;
  email : string;
  phone : string;
  address : string;
  city : string;
  postalCode : option string;
  paymentMethod : PaymentMethod
}.

Record OrderRow : Type := mkOrderRow {
  o_id : string;
  o_userId : string;
  o_status : OrderStatus;
  o_totalAmount : num;
  o_shippingAddress : ShippingAddress;   (* stored through JSON.stringify *)
  o_paymentMethod : PaymentMethod;
  o_paymentStatus : PaymentStatus
}.

Record OrderItemRow : Type := mkOrderItemRow {
  oi_id : string;
  oi_orderId : string;
  oi_productId : string;
  oi_quantity : Z;
  oi_price : num
}.

(** An order read with [include: { items }]. *)
Record Order : Type := mkOrder {
  order_row : OrderRow;
  order_items : list OrderItemRow
}.

Record DB : Type := mkDB {
  products : list Product;
  cartItems : list CartItemRow;
  orders : list OrderRow;
  orderItems : list OrderItemRow
}.

(** What the Prisma client runs against: the database, and [fault], the
    number of writes a transaction client still performs before the database
    fails one ([None]: it fails none). *)
Record World : Type := mkWorld {
  db : DB;
  fault : option nat
}.

(** *** Identifiers

    Prisma fills an [id] column with [cuid()].  The model hands out an
    identifier that occurs nowhere in the database. *)

Definition db_ids (d : DB) : list string :=
  map p_id (products d)
  ++ flat_map (fun r => [ci_id r; ci_userId r; ci_productId r]) (cartItems d)
  ++ flat_map (fun r => [o_id r; o_userId r]) (orders d)
  ++ flat_map (fun r => [oi_id r; oi_orderId r; oi_productId r]) (orderItems d).

Definition cuid (d : DB) : string :=
  String "c"%char (String.concat ""%string (db_ids d)).

(** *** Table access *)

Definition set_products (d : DB) (ps : list Product) : DB :=
  mkDB ps (cartItems d) (orders d) (orderItems d).
Definition set_cartItems (d : DB) (cs : list CartItemRow) : DB :=
  mkDB (products d) cs (orders d) (orderItems d).
Definition set_orders (d : DB) (os : list OrderRow) : DB :=
  mkDB (products d) (cartItems d) os (orderItems d).
Definition set_orderItems (d : DB) (ois : list OrderItemRow) : DB :=
  mkDB (products d) (cartItems d) (orders d) ois.

Definition find_product (d : DB) (id : string) : option Product :=
  find (fun p => String.eqb (p_id p) id) (products d).

Definition find_order (d : DB) (id : string) : option OrderRow :=
  find (fun o => String.eqb (o_id o) id) (orders d).

Definition items_of_order (d : DB) (id : string) : list OrderItemRow :=
  filter (fun i => String.eqb (oi_orderId i) id) (orderItems d).

Definition cart_rows (d : DB) (userId : string) : list CartItemRow :=
  filter (fun r => String.eqb (ci_userId r) userId) (cartItems d).

(** The product [p] with [n] more in stock. *)
Definition restock (p : Product) (n : Z) : Product :=
  mkProduct (p_id p) (p_name p) (p_price p) (p_stock p + n) (p_discount p).

(** [data: { stock: { increment: n } }] on the product [id]; [decrement] is
    the increment by [- n].  [None] when no product has that id. *)
Fixpoint increment_stock (ps : list Product) (id : string) (n : Z)
  : option (list Product) :=
  match ps with
  | [] => None
  | p :: ps' =>
      if String.eqb (p_id p) id then Some (restock p n :: ps')
      else option_map (cons p) (increment_stock ps' id n)
  end.

(** [data: { quantity }] on the cart row [id]. *)
Fixpoint set_quantity (cs : list CartItemRow) (id : string) (q : Z)
  : option (list CartItemRow) :=
  match cs with
  | [] => None
  | r :: cs' =>
      if String.eqb (ci_id r) id
      then Some (mkCartItemRow (ci_id r) (ci_userId r) (ci_productId r) q :: cs')
      else option_map (cons r) (set_quantity cs' id q)
  end.

(** [data: { status }] on the order [id]. *)
Fixpoint set_status (os : list OrderRow) (id : string) (s : OrderStatus)
  : option (list OrderRow) :=
  match os with
  | [] => None
  | o :: os' =>
      if String.eqb (o_id o) id
      then Some (mkOrderRow (o_id o) (o_userId o) s (o_totalAmount o)
                            (o_shippingAddress o) (o_paymentMethod o)
                            (o_paymentStatus o) :: os')
      else option_map (cons o) (set_status os' id s)
  end.

(** [deleteMany({ where: { userId } })] on the cart rows. *)
Definition without_user (userId : string) (cs : list CartItemRow)
  : list CartItemRow :=
  filter (fun r => negb (String.eqb (ci_userId r) userId)) cs.

(** [delete({ where: { id } })]: [None] when no row has that id. *)
Fixpoint delete_row (cs : list CartItemRow) (id : string)
  : option (list CartItemRow) :=
  match cs with
  | [] => None
  | r :: cs' =>
      if String.eqb (ci_id r) id then Some cs'
      else option_map (cons r) (delete_row cs' id)
  end.

(** [data: { paymentStatus }] on the order [id]. *)
Fixpoint set_payment_status (os : list OrderRow) (id : string)
    (s : PaymentStatus) : option (list OrderRow) :=
  match os with
  | [] => None
  | o :: os' =>
      if String.eqb (o_id o) id
      then Some (mkOrderRow (o_id o) (o_userId o) (o_status o)
                            (o_totalAmount o) (o_shippingAddress o)
                            (o_paymentMethod o) s :: os')
      else option_map (cons o) (set_payment_status os' id s)
  end.

(** [aggregate({ where: { userId }, _sum: { quantity: true } })]: the sum of
    the quantities of the user's cart rows, [null] when there is no row. *)
Definition sum_quantity (d : DB) (userId : string) : option Z :=
  match cart_rows d userId with
  | [] => None
  | rows => Some (fold_right Z.add 0 (map ci_quantity rows))
  end.

(** [skip] and [take] of [findMany]. *)
Definition paginate {A} (skip take : nat) (l : list A) : list A :=
  firstn take (skipn skip l).

End Store.

Arguments Product : clear implicits.
Arguments CartItem : clear implicits.
Arguments OrderRow : clear implicits.
Arguments OrderItemRow : clear implicits.
Arguments Order : clear implicits.
Arguments DB : clear implicits.
Arguments World : clear implicits.

(** The order in which the database returns the rows of a [findMany] that
    gives no [orderBy].  Prisma leaves it to the database: it is some
    arrangement of the rows that match, and the services are verified for
    every one. *)
Class ScanOrder : Type := {
  unordered : list CartItemRow -> list CartItemRow;
  unordered_perm : forall rows, Permutation (unordered rows) rows
}.

(** The arrangement of a table scan on a heap that has seen no deletion:
    the rows as they were created.  The examples run on it; an example
    whose cart has one row holds for every arrangement. *)
#[export] Instance creation_order : ScanOrder := {
  unordered := fun rows => rows;
  unordered_perm := @Permutation_refl CartItemRow
}.

(* ------------------------------------------------------------------ *)
(** ** Computations *)

(** A service method: it reads and writes the world and returns or throws.
    What it wrote before it threw stays written. *)
Definition M (num A : Type) : Type := World num -> (Error + A) * World num.

Section Monad.
Context {num : Type}.

Definition ret {A} (a : A) : M num A := fun w => (inr a, w).
Definition throw {A} (e : Error) : M num A := fun w => (inl e, w).
Definition bind {A B} (m : M num A) (k : A -> M num B) : M num B :=
  fun w => match m w with
           | (inl e, w') => (inl e, w')
           | (inr a, w') => k a w'
           end.

(** A read of the database. *)
Definition query {A} (f : DB num -> A) : M num A :=
  fun w => (inr (f (db w)), w).

(** A write through the [prisma] client; it throws when the database refuses
    it ([None]). *)
Definition write {A} (f : DB num -> option (A * DB num)) : M num A :=
  fun w => match f (db w) with
           | Some (a, d) => (inr a, mkWorld d (fault w))
           | None => (inl PrismaError, w)
           end.

(** A write through a transaction client [tx]: the database may fail it. *)
Definition tx_write {A} (f : DB num -> option (A * DB num)) : M num A :=
  fun w => match fault w with
           | Some O => (inl PrismaError, w)
           | Some (S k) => write f (mkWorld (db w) (Some k))
           | None => write f w
           end.

(** [prisma.$transaction(async (tx) => body)]: all of the body's writes, or
    none of them. *)
Definition transaction {A} (body : M num A) : M num A :=
  fun w => match body w with
           | (inl e, w') => (inl e, mkWorld (db w) (fault w'))
           | (inr a, w') => (inr a, w')
           end.

(** A computation that throws. *)
Definition fails {A} (m : M num A) (w : World num) : Prop :=
  exists e w', m w = (inl e, w').

End Monad.

Notation "x <- m ;; k" := (bind m (fun x => k))
  (at level 61, m at next level, right associativity).
Notation "m ;;; k" := (bind m (fun _ => k))
  (at level 61, right associativity).

Section Loops.
Context {num : Type}.

(** [for (const x of xs) { await f(x) }], and [Promise.all(xs.map(f))] on a
    transaction client, which runs its queries one after another. *)
Fixpoint for_each {A} (f : A -> M num unit) (xs : list A) : M num unit :=
  match xs with
  | [] => ret tt
  | x :: xs' => f x ;;; for_each f xs'
  end.

Fixpoint map_M {A B} (f : A -> M num B) (xs : list A) : M num (list B) :=
  match xs with
  | [] => ret []
  | x :: xs' => y <- f x ;; ys <- map_M f xs' ;; ret (y :: ys)
  end.

End Loops.

(* ------------------------------------------------------------------ *)
(** ** CartService *)

Module CartService.
Section Service.
Context {num : Type} `{JSNumber num} `{scan : ScanOrder}.

Record CartSummary : Type := mkCartSummary {
  items : list (CartItem num);
  totalItems : Z;
  subtotal : num;
  discount : num;
  total : num
}.

(** [include: { product }]: Prisma throws when the required relation is
    missing. *)
Definition include_product (r : CartItemRow) : M num (CartItem num) :=
  p <- query (fun d => find_product d (ci_productId r)) ;;
  match p with
  | Some p => ret (mkCartItem r p)
  | None => throw PrismaError
  end.

(** [prisma.cartItem.findMany({ where: { userId }, include: { product },
    orderBy })]: [orderBy] arranges the rows of the user, which the table
    holds in creation order. *)
Definition findMany (orderBy : list CartItemRow -> list CartItemRow)
    (userId : string) : M num (list (CartItem num)) :=
  rows <- query (fun d => orderBy (cart_rows d userId)) ;;
  map_M include_product rows.

(** The body of the loop of [calculateCartSummary], on the three
    accumulators [subtotal], [discount] and [totalItems]. *)
Definition summary_step (acc : num * num * Z) (item : CartItem num)
  : num * num * Z :=
  let '(subtotal, discount, totalItems) := acc in
  let itemPrice := p_price (ci_product item) in
  let itemDiscount :=
    match p_discount (ci_product item) with
    | Some d => d
    | None => num_of_Z 0
    end in
  let itemQuantity := ci_quantity (ci_row item) in
  let totalItems := totalItems + itemQuantity in
  let itemSubtotal := (itemPrice * num_of_Z itemQuantity)%js in
  let itemDiscountAmount := (itemSubtotal * itemDiscount / num_of_Z 100)%js in
  ((subtotal + itemSubtotal)%js, (discount + itemDiscountAmount)%js, totalItems).

Definition calculateCartSummary (cartItems : list (CartItem num)) : CartSummary :=
  let '(subtotal, discount, totalItems) :=
    fold_left summary_step cartItems (num_of_Z 0, num_of_Z 0, 0) in
  let total := (subtotal - discount)%js in
  {| items := cartItems;
     totalItems := totalItems;
     subtotal := round2 subtotal;
     discount := round2 discount;
     total := round2 total |}.

(** [orderBy: { createdAt: 'desc' }]: the newest row first. *)
Definition getCart (userId : string) : M num CartSummary :=
  cartItems <- findMany (@rev CartItemRow) userId ;;
  ret (calculateCartSummary cartItems).

(** The unique key [userId_productId] of a cart row. *)
Definition userId_productId (userId productId : string) (r : CartItemRow)
  : bool :=
  String.eqb (ci_userId r) userId && String.eqb (ci_productId r) productId.

Definition addToCart (userId productId : string) (quantity : Z)
  : M num (CartItem num) :=
  product <- query (fun d => find_product d productId) ;;
  match product with
  | None => throw ProductNotFound
  | Some product =>
      if p_stock product <? quantity then throw (OnlyInStock (p_stock product))
      else
        existingCartItem <-
          query (fun d => find (userId_productId userId productId)
                               (cartItems d)) ;;
        match existingCartItem with
        | Some existing =>
            let newQuantity := ci_quantity existing + quantity in
            if newQuantity >? p_stock product
            then throw (CannotAddMore quantity
                          (p_stock product - ci_quantity existing))
            else
              row <- write (fun d =>
                       option_map
                         (fun cs => (mkCartItemRow (ci_id existing)
                                       (ci_userId existing)
                                       (ci_productId existing) newQuantity,
                                     set_cartItems d cs))
                         (set_quantity (cartItems d) (ci_id existing)
                                       newQuantity)) ;;
              include_product row
        | None =>
            row <- write (fun d =>
                     let r := mkCartItemRow (cuid d) userId productId quantity in
                     Some (r, set_cartItems d (cartItems d ++ [r]))) ;;
            include_product row
        end
  end.

Definition updateCartItem (userId cartItemId : string) (quantity : Z)
  : M num (CartItem num) :=
  if quantity <=? 0 then throw QuantityMustBePositive
  else
    found <- query (fun d => find (fun r => String.eqb (ci_id r) cartItemId
                                           && String.eqb (ci_userId r) userId)
                                 (cartItems d)) ;;
    match found with
    | None => throw CartItemNotFound
    | Some r =>
        cartItem <- include_product r ;;
        if quantity >? p_stock (ci_product cartItem)
        then throw (OnlyInStock (p_stock (ci_product cartItem)))
        else
          row <- write (fun d =>
                   option_map
                     (fun cs => (mkCartItemRow (ci_id r) (ci_userId r)
                                   (ci_productId r) quantity,
                                 set_cartItems d cs))
                     (set_quantity (cartItems d) cartItemId quantity)) ;;
          include_product row
    end.

Definition clearCart (userId : string) : M num unit :=
  write (fun d =>
    Some (tt, set_cartItems d (without_user userId (cartItems d)))).

(** The [errors] pushed by the loop of [validateCart]. *)
Definition stock_errors (cartItems : list (CartItem num)) : list ValidationError :=
  flat_map (fun item =>
              if p_stock (ci_product item) <? ci_quantity (ci_row item)
              then [VOnlyAvailable (p_name (ci_product item))
                                   (p_stock (ci_product item))
                                   (ci_quantity (ci_row item))]
              else [])
           cartItems.

Record CartValidation : Type := mkCartValidation {
  isValid : bool;
  errors : list ValidationError;
  cart : CartSummary
}.

(** The [errors] array of [validateCart]. *)
Definition validation_errors (cartItems : list (CartItem num))
  : list ValidationError :=
  (if (List.length cartItems =? 0)%nat then [VCartIsEmpty] else [])
  ++ stock_errors cartItems.

Definition validateCart (userId : string) : M num CartValidation :=
  cartItems <- findMany unordered userId ;;
  let errors := validation_errors cartItems in
  let cart := calculateCartSummary cartItems in
  ret {| isValid := (List.length errors =? 0)%nat; errors := errors; cart := cart |}.

Record SyncResult : Type := mkSyncResult {
  removedItems : list string;           (* product names *)
  updatedItems : list (string * Z)      (* `${name} (reduced to ${stock})` *)
}.

Fixpoint sync_loop (found : list (CartItem num)) (acc : SyncResult)
  : M num SyncResult :=
  match found with
  | [] => ret acc
  | item :: rest =>
      if p_stock (ci_product item) =? 0 then
        write (fun d =>
          option_map (fun cs => (tt, set_cartItems d cs))
                     (delete_row (cartItems d) (ci_id (ci_row item)))) ;;;
        sync_loop rest
          (mkSyncResult (removedItems acc ++ [p_name (ci_product item)])
                        (updatedItems acc))
      else if ci_quantity (ci_row item) >? p_stock (ci_product item) then
        write (fun d =>
          option_map (fun cs => (tt, set_cartItems d cs))
                     (set_quantity (cartItems d) (ci_id (ci_row item))
                                   (p_stock (ci_product item)))) ;;;
        sync_loop rest
          (mkSyncResult (removedItems acc)
                        (updatedItems acc
                         ++ [(p_name (ci_product item),
                              p_stock (ci_product item))]))
      else sync_loop rest acc
  end.

Definition syncCartWithStock (userId : string) : M num SyncResult :=
  cartItems <- findMany unordered userId ;;
  sync_loop cartItems (mkSyncResult [] []).

Definition getCartForCheckout (userId : string) : M num CartSummary :=
  syncCartWithStock userId ;;;
  getCart userId.

Definition removeFromCart (userId cartItemId : string) : M num unit :=
  found <- query (fun d => find (fun r => String.eqb (ci_id r) cartItemId
                                         && String.eqb (ci_userId r) userId)
                               (cartItems d)) ;;
  match found with
  | None => throw CartItemNotFound
  | Some r =>
      include_product r ;;;
      write (fun d =>
        option_map (fun cs => (tt, set_cartItems d cs))
                   (delete_row (cartItems d) cartItemId))
  end.

Definition getCartItemCount (userId : string) : M num Z :=
  sum <- query (fun d => sum_quantity d userId) ;;
  ret (match sum with                 (* result._sum.quantity || 0 *)
       | Some n => if n =? 0 then 0 else n
       | None => 0
       end).

End Service.
Arguments CartSummary : clear implicits.
Arguments CartValidation : clear implicits.
End CartService.

(* ------------------------------------------------------------------ *)
(** ** OrderService *)

Module OrderService.
Import CartService.
Section Service.
Context {num : Type} `{JSNumber num} `{scan : ScanOrder}.

(** An order with [include: { items }]. *)
Definition with_items (d : DB num) (o : OrderRow num) : Order num :=
  mkOrder o (items_of_order d (o_id o)).

(** The [price] of an order item:
    [discount ? price * (1 - discount / 100) : price]. *)
Definition snapshot_price (cartItem : CartItem num) : num :=
  let product := ci_product cartItem in
  match p_discount product with
  | Some discount =>
      if num_truthy discount
      then (p_price product * (num_of_Z 1 - discount / num_of_Z 100))%js
      else p_price product
  | None => p_price product
  end.

Definition tx_order_create (userId : string) (totalAmount : num)
    (shippingAddress : ShippingAddress) (method : PaymentMethod)
    (status : PaymentStatus) : M num (OrderRow num) :=
  tx_write (fun d =>
    let o := mkOrderRow (cuid d) userId PENDING totalAmount shippingAddress
                        method status in
    Some (o, set_orders d (orders d ++ [o]))).

Definition tx_orderItem_create (orderId : string) (cartItem : CartItem num)
  : M num (OrderItemRow num) :=
  tx_write (fun d =>
    let i := mkOrderItemRow (cuid d) orderId
                            (ci_productId (ci_row cartItem))
                            (ci_quantity (ci_row cartItem))
                            (snapshot_price cartItem) in
    Some (i, set_orderItems d (orderItems d ++ [i]))).

(** [tx.product.update({ where: { id }, data: { stock: { increment } } })] *)
Definition tx_stock_increment (productId : string) (n : Z) : M num unit :=
  tx_write (fun d =>
    option_map (fun ps => (tt, set_products d ps))
               (increment_stock (products d) productId n)).

Definition tx_cartItem_deleteMany (userId : string) : M num unit :=
  tx_write (fun d =>
    Some (tt, set_cartItems d (without_user userId (cartItems d)))).

(** The body of the transaction of [createOrder]. *)
Definition createOrder_tx (userId : string) (orderData : CreateOrderData)
    (shippingAddress : ShippingAddress) (cart : CartSummary num)
  : M num (option (Order num)) :=
  newOrder <- tx_order_create userId (total cart) shippingAddress
                (paymentMethod orderData)
                (match paymentMethod orderData with
                 | cash => PAY_PENDING
                 | card => PAY_PENDING
                 end) ;;
  map_M (tx_orderItem_create (o_id newOrder)) (items cart) ;;;
  for_each (fun cartItem =>
              tx_stock_increment (ci_productId (ci_row cartItem))
                                 (- ci_quantity (ci_row cartItem)))
           (items cart) ;;;
  tx_cartItem_deleteMany userId ;;;
  query (fun d => option_map (with_items d) (find_order d (o_id newOrder))).

(** The shipping address that [createOrder] serialises. *)
Definition shipping_address (orderData : CreateOrderData) : ShippingAddress :=
  {| sa_firstName := firstName orderData;
     sa_lastName := lastName orderData;
     sa_email := email orderData;
     sa_phone := phone orderData;
     sa_address := address orderData;
     sa_city := city orderData;
     sa_postalCode :=
       match postalCode orderData with   (* orderData.postalCode || '' *)
       | Some c => c
       | None => ""%string
       end |}.

Definition createOrder (userId : string) (orderData : CreateOrderData)
  : M num (Order num) :=
  cartValidation <- validateCart userId ;;
  if negb (isValid cartValidation)
  then throw (CartValidationFailedWith (errors cartValidation))
  else
    let cart := cart cartValidation in
    if (List.length (items cart) =? 0)%nat then throw CartIsEmpty
    else
      let shippingAddress := shipping_address orderData in
      created <- transaction (createOrder_tx userId orderData shippingAddress cart) ;;
      match created with
      | None => throw FailedToCreateOrder
      | Some o => ret o
      end.

(** [createOrder] from the point where [await CartService.validateCart]
    has answered [cartValidation]: the rest of the method, which the event
    loop resumes after whatever other requests it served in between. *)
Definition createOrder_resume (userId : string) (orderData : CreateOrderData)
    (cartValidation : CartValidation num) : M num (Order num) :=
  if negb (isValid cartValidation)
  then throw (CartValidationFailedWith (errors cartValidation))
  else
    let cart := cart cartValidation in
    if (List.length (items cart) =? 0)%nat then throw CartIsEmpty
    else
      let shippingAddress := shipping_address orderData in
      created <- transaction (createOrder_tx userId orderData shippingAddress cart) ;;
      match created with
      | None => throw FailedToCreateOrder
      | Some o => ret o
      end.

(** [findUnique] on [{ id }], and on [{ id, userId }] when [userId] is
    truthy. *)
Definition whereClause (orderId : string) (userId : option string)
    (o : OrderRow num) : bool :=
  String.eqb (o_id o) orderId
  && (if truthy userId
      then match userId with
           | Some u => String.eqb (o_userId o) u
           | None => true
           end
      else true).

Definition getOrderById (orderId : string) (userId : option string)
  : M num (option (Order num)) :=
  query (fun d =>
    option_map (with_items d) (find (whereClause orderId userId) (orders d))).

Definition validTransitions (s : OrderStatus) : list OrderStatus :=
  match s with
  | PENDING => [CONFIRMED; CANCELLED]
  | CONFIRMED => [PROCESSING; CANCELLED]
  | PROCESSING => [SHIPPED; CANCELLED]
  | SHIPPED => [DELIVERED; RETURNED]
  | DELIVERED => [RETURNED]
  | CANCELLED => []
  | RETURNED => []
  end.

(** [order.update({ where: { id }, data: { status }, include })] through
    either client. *)
Definition order_update_status (w : (DB num -> option (Order num * DB num)) -> M num (Order num))
    (orderId : string) (status : OrderStatus) : M num (Order num) :=
  w (fun d =>
       match set_status (orders d) orderId status with
       | Some os =>
           let d' := set_orders d os in
           option_map (fun o => (with_items d' o, d')) (find_order d' orderId)
       | None => None
       end).

Definition updateOrderStatus (orderId : string) (status : OrderStatus)
    (adminUserId : option string) : M num (Order num) :=
  currentOrder <- query (fun d => find_order d orderId) ;;
  match currentOrder with
  | None => throw OrderNotFound
  | Some currentOrder =>
      let currentStatus := o_status currentOrder in
      let allowedTransitions := validTransitions currentStatus in
      if negb (includes allowedTransitions status)
      then throw (InvalidTransition currentStatus status)
      else order_update_status write orderId status
  end.

Definition cancelOrder (orderId : string) (userId : option string)
  : M num (Order num) :=
  found <- query (fun d => option_map (with_items d) (find_order d orderId)) ;;
  match found with
  | None => throw OrderNotFound
  | Some order =>
      if truthy userId
         && negb (match userId with
                  | Some u => String.eqb (o_userId (order_row order)) u
                  | None => false
                  end)
      then throw UnauthorizedToCancel
      else
        let cancellableStatuses := [PENDING; CONFIRMED] in
        if negb (includes cancellableStatuses (o_status (order_row order)))
        then throw (CannotCancel (o_status (order_row order)))
        else
          transaction (
            for_each (fun item => tx_stock_increment (oi_productId item)
                                                     (oi_quantity item))
                     (order_items order) ;;;
            order_update_status tx_write orderId CANCELLED)
  end.

Definition updatePaymentStatus (orderId : string)
    (paymentStatus : PaymentStatus) : M num (Order num) :=
  write (fun d =>
    match set_payment_status (orders d) orderId paymentStatus with
    | Some os =>
        let d' := set_orders d os in
        option_map (fun o => (with_items d' o, d')) (find_order d' orderId)
    | None => None
    end).

Record Pagination : Type := mkPagination {
  pg_page : positive;
  pg_limit : positive;
  pg_total : nat;
  pg_totalPages : nat
}.

Record OrderPage : Type := mkOrderPage {
  page_orders : list (Order num);
  pagination : Pagination
}.

(** [Math.ceil(total / limit)] for a count and a positive limit (the double
    division is exact enough for this while the count is below [2^45]). *)
Definition totalPages_of (total : nat) (limit : positive) : nat :=
  ((total + Pos.to_nat limit - 1) / Pos.to_nat limit)%nat.

(** [findMany({ where, orderBy: { createdAt: 'desc' }, skip, take })] with
    [skip = (page - 1) * limit] and [take = limit], and [count({ where })].
    [page] and [limit] are positive: the controllers pass nothing else. *)
Definition find_page (where_ : OrderRow num -> bool) (page limit : positive)
  : M num OrderPage :=
  let skip := ((Pos.to_nat page - 1) * Pos.to_nat limit)%nat in
  found <- query (fun d =>
             map (with_items d)
                 (paginate skip (Pos.to_nat limit)
                           (rev (filter where_ (orders d))))) ;;
  total <- query (fun d => List.length (filter where_ (orders d))) ;;
  ret {| page_orders := found;
         pagination := {| pg_page := page;
                          pg_limit := limit;
                          pg_total := total;
                          pg_totalPages := totalPages_of total limit |} |}.

Definition getUserOrders (userId : string) (page limit : positive)
  : M num OrderPage :=
  find_page (fun o => String.eqb (o_userId o) userId) page limit.

Definition PaymentStatus_eqb (a b : PaymentStatus) : bool :=
  match a, b with
  | PAY_PENDING, PAY_PENDING | PAID, PAID | FAILED, FAILED
  | REFUNDED, REFUNDED => true
  | _, _ => false
  end.

(** [if (status) whereClause.status = status], and the same for
    [paymentStatus]. *)
Definition getAllOrders (page limit : positive) (status : option OrderStatus)
    (paymentStatus : option PaymentStatus) : M num OrderPage :=
  find_page (fun o =>
               match status with
               | Some s => OrderStatus_eqb (o_status o) s
               | None => true
               end
               && match paymentStatus with
                  | Some s => PaymentStatus_eqb (o_paymentStatus o) s
                  | None => true
                  end)
            page limit.

End Service.
Arguments OrderPage : clear implicits.
End OrderService.

(* ------------------------------------------------------------------ *)
(** ** Controllers *)

(** A value of a JSON request body where a quantity is expected. *)
Inductive JSValue : Type :=
| JSUndefined
| JSInteger (z : Z)
| JSOther.     (* null, a string, a boolean, a number that is no integer *)

Inductive Message : Type :=
| Text (s : string)
| MessageOf (e : Error).      (* error.message *)

(** [res.status(code).json({ success, message, data })] *)
Inductive Response (A : Type) : Type :=
| Failure (status : Z) (message : Message)
| Success (status : Z) (data : A).
Arguments Failure {A}.
Arguments Success {A}.

Record AuthUser : Type := mkAuthUser {
  userId : string;
  role : string
}.

Section Catch.
Context {num : Type}.

(** [try { ... } catch (error) { ... }] *)
Definition try_catch {A} (m : M num A) (handler : Error -> M num A) : M num A :=
  fun w => match m w with
           | (inl e, w') => handler e w'
           | (inr a, w') => (inr a, w')
           end.

End Catch.

Module CartController.
Section Controller.
Context {num : Type} `{JSNumber num} `{scan : ScanOrder}.

(** [error.message.includes('stock') || error.message.includes('available')];
    a message of the Prisma client is taken to contain neither word. *)
Definition mentions_stock (e : Error) : bool :=
  match e with
  | OnlyInStock _ | CannotAddMore _ _ => true
  | _ => false
  end.

(** [quantity <= 0 || !Number.isInteger(quantity)] *)
Definition bad_quantity (quantity : JSValue) : bool :=
  match quantity with
  | JSInteger z => z <=? 0
  | JSUndefined | JSOther => true
  end.

(** POST /api/cart/items *)
Definition addToCart (user : option AuthUser) (productId : option string)
    (bodyQuantity : JSValue) : M num (Response (CartItem num)) :=
  let userId := option_map userId user in
  let quantity :=
    match bodyQuantity with
    | JSUndefined => JSInteger 1          (* const { quantity = 1 } = req.body *)
    | q => q
    end in
  try_catch
    (if negb (truthy userId) then ret (Failure 401 (Text "Authentication required"))
     else if negb (truthy productId) then ret (Failure 400 (Text "Product ID is required"))
     else if bad_quantity quantity
     then ret (Failure 400 (Text "Quantity must be a positive integer"))
     else
       match userId, productId, quantity with
       | Some u, Some p, JSInteger q =>
           cartItem <- CartService.addToCart u p q ;;
           ret (Success 201 cartItem)
       | _, _, _ => throw PrismaError      (* excluded by the three guards *)
       end)
    (fun error =>
       match error with
       | ProductNotFound => ret (Failure 404 (Text "Product not found"))
       | _ =>
           if mentions_stock error then ret (Failure 400 (MessageOf error))
           else ret (Failure 500 (Text "Failed to add item to cart"))
       end).

(** GET /api/cart *)
Definition getCart (user : option AuthUser)
  : M num (Response (CartService.CartSummary num)) :=
  let userId := option_map userId user in
  try_catch
    (if negb (truthy userId) then ret (Failure 401 (Text "Authentication required"))
     else
       match userId with
       | Some u => cart <- CartService.getCart u ;; ret (Success 200 cart)
       | None => throw PrismaError
       end)
    (fun _ => ret (Failure 500 (Text "Failed to get cart"))).

(** PUT /api/cart/items/:id; the guard is
    [!quantity || quantity <= 0 || !Number.isInteger(quantity)]. *)
Definition updateCartItem (user : option AuthUser) (id : string)
    (quantity : JSValue) : M num (Response (CartItem num)) :=
  let userId := option_map userId user in
  try_catch
    (if negb (truthy userId) then ret (Failure 401 (Text "Authentication required"))
     else if bad_quantity quantity
     then ret (Failure 400 (Text "Quantity must be a positive integer"))
     else
       match userId, quantity with
       | Some u, JSInteger q =>
           cartItem <- CartService.updateCartItem u id q ;;
           ret (Success 200 cartItem)
       | _, _ => throw PrismaError
       end)
    (fun error =>
       match error with
       | CartItemNotFound => ret (Failure 404 (Text "Cart item not found"))
       | _ =>
           if mentions_stock error then ret (Failure 400 (MessageOf error))
           else ret (Failure 500 (Text "Failed to update cart item"))
       end).

(** DELETE /api/cart/items/:id *)
Definition removeFromCart (user : option AuthUser) (id : string)
  : M num (Response unit) :=
  let userId := option_map userId user in
  try_catch
    (if negb (truthy userId) then ret (Failure 401 (Text "Authentication required"))
     else
       match userId with
       | Some u => CartService.removeFromCart u id ;;; ret (Success 200 tt)
       | None => throw PrismaError
       end)
    (fun error =>
       match error with
       | CartItemNotFound => ret (Failure 404 (Text "Cart item not found"))
       | _ => ret (Failure 500 (Text "Failed to remove item from cart"))
       end).

(** DELETE /api/cart *)
Definition clearCart (user : option AuthUser) : M num (Response unit) :=
  let userId := option_map userId user in
  try_catch
    (if negb (truthy userId) then ret (Failure 401 (Text "Authentication required"))
     else
       match userId with
       | Some u => CartService.clearCart u ;;; ret (Success 200 tt)
       | None => throw PrismaError
       end)
    (fun _ => ret (Failure 500 (Text "Failed to clear cart"))).

(** GET /api/cart/count *)
Definition getCartCount (user : option AuthUser) : M num (Response Z) :=
  let userId := option_map userId user in
  try_catch
    (if negb (truthy userId) then ret (Failure 401 (Text "Authentication required"))
     else
       match userId with
       | Some u => count <- CartService.getCartItemCount u ;; ret (Success 200 count)
       | None => throw PrismaError
       end)
    (fun _ => ret (Failure 500 (Text "Failed to get cart count"))).

(** GET /api/cart/validate *)
Definition validateCart (user : option AuthUser)
  : M num (Response (CartService.CartValidation num)) :=
  let userId := option_map userId user in
  try_catch
    (if negb (truthy userId) then ret (Failure 401 (Text "Authentication required"))
     else
       match userId with
       | Some u =>
           validation <- CartService.validateCart u ;; ret (Success 200 validation)
       | None => throw PrismaError
       end)
    (fun _ => ret (Failure 500 (Text "Failed to validate cart"))).

(** POST /api/cart/sync *)
Definition syncCart (user : option AuthUser)
  : M num (Response (CartService.SyncResult * CartService.CartSummary num)) :=
  let userId := option_map userId user in
  try_catch
    (if negb (truthy userId) then ret (Failure 401 (Text "Authentication required"))
     else
       match userId with
       | Some u =>
           syncResult <- CartService.syncCartWithStock u ;;
           cart <- CartService.getCart u ;;
           ret (Success 200 (syncResult, cart))
       | None => throw PrismaError
       end)
    (fun _ => ret (Failure 500 (Text "Failed to sync cart"))).

End Controller.
End CartController.

Module OrderController.
Section Controller.
Context {num : Type} `{JSNumber num} `{scan : ScanOrder}.

(** GET /api/orders/:id *)
Definition getOrder (user : option AuthUser) (id : string)
  : M num (Response (Order num)) :=
  let userId := option_map userId user in
  let isAdmin :=
    match user with
    | Some u => String.eqb (role u) "ADMIN"
    | None => false
    end in
  try_catch
    (if negb (truthy userId) then ret (Failure 401 (Text "Authentication required"))
     else
       order <- OrderService.getOrderById id (if isAdmin then None else userId) ;;
       match order with
       | None => ret (Failure 404 (Text "Order not found"))
       | Some order => ret (Success 200 order)
       end)
    (fun _ => ret (Failure 500 (Text "Failed to get order"))).

Definition is_admin (user : option AuthUser) : bool :=
  match user with
  | Some u => String.eqb (role u) "ADMIN"
  | None => false
  end.

(** PUT /api/orders/:id/status; [status] is [None] when the body has no
    status or one that is no member of [OrderStatus]. *)
Definition updateOrderStatus (user : option AuthUser) (id : string)
    (status : option OrderStatus) : M num (Response (Order num)) :=
  let userId := option_map userId user in
  let isAdmin := is_admin user in
  try_catch
    (if negb (truthy userId) then ret (Failure 401 (Text "Authentication required"))
     else if negb isAdmin then ret (Failure 403 (Text "Admin access required"))
     else
       match status with
       | None => ret (Failure 400 (Text "Invalid order status"))
       | Some status =>
           order <- OrderService.updateOrderStatus id status userId ;;
           ret (Success 200 order)
       end)
    (fun error =>
       match error with
       | OrderNotFound => ret (Failure 404 (Text "Order not found"))
       | InvalidTransition _ _ => ret (Failure 400 (MessageOf error))
       | _ => ret (Failure 500 (Text "Failed to update order status"))
       end).

(** PUT /api/orders/:id/cancel *)
Definition cancelOrder (user : option AuthUser) (id : string)
  : M num (Response (Order num)) :=
  let userId := option_map userId user in
  let isAdmin := is_admin user in
  try_catch
    (if negb (truthy userId) then ret (Failure 401 (Text "Authentication required"))
     else
       order <- OrderService.cancelOrder id (if isAdmin then None else userId) ;;
       ret (Success 200 order))
    (fun error =>
       match error with
       | OrderNotFound => ret (Failure 404 (Text "Order not found"))
       | UnauthorizedToCancel =>
           ret (Failure 403 (Text "You can only cancel your own orders"))
       | CannotCancel _ => ret (Failure 400 (MessageOf error))
       | _ => ret (Failure 500 (Text "Failed to cancel order"))
       end).

(** [parseInt(req.query.x as string) || fallback]; the query value is [None]
    when [parseInt] gives [NaN]. *)
Definition or_default (parsed : option Z) (fallback : Z) : Z :=
  match parsed with
  | Some n => if n =? 0 then fallback else n
  | None => fallback
  end.

(** GET /api/orders *)
Definition getUserOrders (user : option AuthUser) (queryPage queryLimit : option Z)
  : M num (Response (OrderService.OrderPage num)) :=
  let userId := option_map userId user in
  try_catch
    (if negb (truthy userId) then ret (Failure 401 (Text "Authentication required"))
     else
       let page := or_default queryPage 1 in
       let limit := or_default queryLimit 10 in
       if (page <? 1) || (limit <? 1) || (limit >? 100)
       then ret (Failure 400 (Text "Invalid pagination parameters"))
       else
         match userId with
         | Some u =>
             result <- OrderService.getUserOrders u (Z.to_pos page) (Z.to_pos limit) ;;
             ret (Success 200 result)
         | None => throw PrismaError
         end)
    (fun _ => ret (Failure 500 (Text "Failed to get orders"))).

End Controller.
End OrderController.

(* ------------------------------------------------------------------ *)
(** ** The specification's words *)

(** The transition table of the order lifecycle, as the specification lists
    it. *)
Inductive transition : OrderStatus -> OrderStatus -> Prop :=
| pending_confirmed : transition PENDING CONFIRMED
| pending_cancelled : transition PENDING CANCELLED
| confirmed_processing : transition CONFIRMED PROCESSING
| confirmed_cancelled : transition CONFIRMED CANCELLED
| processing_shipped : transition PROCESSING SHIPPED
| processing_cancelled : transition PROCESSING CANCELLED
| shipped_delivered : transition SHIPPED DELIVERED
| shipped_returned : transition SHIPPED RETURNED
| delivered_returned : transition DELIVERED RETURNED.

(** The quantity of product [p] that the cart of user [u] holds: that of the
    row [(u, p)], and [0] when there is none. *)
Definition cart_quantity {num} (d : DB num) (u p : string) : Z :=
  match find (CartService.userId_productId u p) (cartItems d) with
  | Some r => ci_quantity r
  | None => 0
  end.

(** The order row [o] with another status. *)
Definition with_status {num} (o : OrderRow num) (s : OrderStatus) : OrderRow num :=
  mkOrderRow (o_id o) (o_userId o) s (o_totalAmount o) (o_shippingAddress o)
             (o_paymentMethod o) (o_paymentStatus o).

Section Words.
Context {num : Type} `{JSNumber num} `{scan : ScanOrder}.

(** [Σ f] over a list, summed from the left starting at [0], the way a
    JavaScript loop accumulates. *)
Definition sum_over {A} (f : A -> num) (l : list A) : num :=
  fold_left (fun acc a => (acc + f a)%js) l (num_of_Z 0).

Definition sum_Z (l : list Z) : Z := fold_right Z.add 0 l.

Definition quantity_of (i : CartItem num) : Z := ci_quantity (ci_row i).

(** price × qty *)
Definition line_subtotal (i : CartItem num) : num :=
  (p_price (ci_product i) * num_of_Z (quantity_of i))%js.

(** The discount percentage of a line, [0] when the product has none. *)
Definition discount_pct (i : CartItem num) : num :=
  match p_discount (ci_product i) with
  | Some d => d
  | None => num_of_Z 0
  end.

(** price × qty × discountPct / 100 *)
Definition line_discount (i : CartItem num) : num :=
  (line_subtotal i * discount_pct i / num_of_Z 100)%js.

(** The price of a product reduced by its discount percentage. *)
Definition reduced_price (p : Product num) : num :=
  match p_discount p with
  | Some d => (p_price p * (num_of_Z 1 - d / num_of_Z 100))%js
  | None => p_price p
  end.

(** unit price × quantity of an order item *)
Definition line_total (i : OrderItemRow num) : num :=
  (oi_price i * num_of_Z (oi_quantity i))%js.

(** The rows [rows] with their products; [None] when a product is missing. *)
Fixpoint join_products (d : DB num) (rows : list CartItemRow)
  : option (list (CartItem num)) :=
  match rows with
  | [] => Some []
  | r :: rows' =>
      match find_product d (ci_productId r), join_products d rows' with
      | Some p, Some l => Some (mkCartItem r p :: l)
      | _, _ => None
      end
  end.

(** The fault counter after [n] writes of a transaction client, [None] when
    the database fails one of them. *)
Fixpoint after_writes (f : option nat) (n : nat) : option (option nat) :=
  match n with
  | O => Some f
  | S n' =>
      match f with
      | Some O => None
      | Some (S k) => after_writes (Some k) n'
      | None => after_writes None n'
      end
  end.

(** The order items that [createOrder] writes for the cart items [l], the
    first into the database [d]. *)
Fixpoint new_order_items (orderId : string) (d : DB num)
    (l : list (CartItem num)) : list (OrderItemRow num) :=
  match l with
  | [] => []
  | c :: l' =>
      let i := mkOrderItemRow (cuid d) orderId (ci_productId (ci_row c))
                              (ci_quantity (ci_row c))
                              (OrderService.snapshot_price c) in
      i :: new_order_items orderId (set_orderItems d (orderItems d ++ [i])) l'
  end.

(** The products after the stock of [id] moved by [n], for each [(id, n)] of
    [moves]; [None] when a product is missing. *)
Fixpoint move_stock (ps : list (Product num)) (moves : list (string * Z))
  : option (list (Product num)) :=
  match moves with
  | [] => Some ps
  | (id, n) :: moves' =>
      match increment_stock ps id n with
      | Some ps' => move_stock ps' moves'
      | None => None
      end
  end.

(** The quantity that [moves] adds to the stock of product [id]. *)
Definition moved (moves : list (string * Z)) (id : string) : Z :=
  sum_Z (map snd (filter (fun m => String.eqb (fst m) id) moves)).

(** The quantity of product [id] in the cart items [l]. *)
Definition ordered (l : list (CartItem num)) (id : string) : Z :=
  sum_Z (map quantity_of
             (filter (fun c => String.eqb (ci_productId (ci_row c)) id) l)).

(** What [createOrder] takes from the stock, and what [cancelOrder] returns
    to it. *)
Definition cart_moves (l : list (CartItem num)) : list (string * Z) :=
  map (fun c => (ci_productId (ci_row c), - ci_quantity (ci_row c))) l.
Definition order_moves (l : list (OrderItemRow num)) : list (string * Z) :=
  map (fun i => (oi_productId i, oi_quantity i)) l.

(** The stock of product [id], [None] when there is no such product. *)
Definition stock_of (d : DB num) (id : string) : option Z :=
  option_map p_stock (find_product d id).

(** The post-condition of a checkout of the cart items [l] by user [u] that
    leads from the database [d] to [d'] and returns the order [o]. *)
Definition checked_out (d d' : DB num) (u : string) (l : list (CartItem num))
    (o : Order num) : Prop :=
  o_userId (order_row o) = u
  /\ o_status (order_row o) = PENDING
  /\ o_paymentStatus (order_row o) = PAY_PENDING
  /\ orders d' = orders d ++ [order_row o]
  /\ orderItems d' = orderItems d ++ order_items o
  /\ Forall2 (fun c i => oi_orderId i = o_id (order_row o)
                         /\ oi_productId i = ci_productId (ci_row c)
                         /\ oi_quantity i = ci_quantity (ci_row c)
                         /\ oi_price i = OrderService.snapshot_price c)
             l (order_items o)
  /\ map p_id (products d') = map p_id (products d)
  /\ (forall id, stock_of d' id
                 = option_map (fun s => s - ordered l id) (stock_of d id))
  /\ cart_rows d' u = []
  /\ (forall u', u' <> u -> cart_rows d' u' = cart_rows d u').

(** The caller [userId] of [cancelOrder] passes the ownership check on the
    order [o]: no user id was supplied, or it is the order's. *)
Definition passes_ownership (userId : option string) (o : OrderRow num) : Prop :=
  truthy userId = false \/ userId = Some (o_userId o).

(** The post-condition of cancelling the order [o], whose items are [its],
    leading from the database [d] to [d'] and returning [r]. *)
Definition cancelled (d d' : DB num) (o : OrderRow num)
    (its : list (OrderItemRow num)) (r : Order num) : Prop :=
  order_row r = with_status o CANCELLED
  /\ order_items r = its
  /\ find_order d' (o_id o) = Some (with_status o CANCELLED)
  /\ set_status (orders d) (o_id o) CANCELLED = Some (orders d')
  /\ map p_id (products d') = map p_id (products d)
  /\ (forall id, stock_of d' id
                 = option_map (fun s => s + moved (order_moves its) id)
                              (stock_of d id))
  /\ cartItems d' = cartItems d
  /\ orderItems d' = orderItems d.

End Words.

(** [y] is [x] rounded to two decimals, a tie going up: [y = k / 100] for
    the integer [k] with [k - 1/2 <= 100 x < k + 1/2]. *)
Definition rounds_half_up (x y : Q) : Prop :=
  exists k : Z,
    (y == inject_Z k / 100
     /\ inject_Z k - (1 # 2) <= x * 100
     /\ x * 100 < inject_Z k + (1 # 2))%Q.


(* ------------------------------------------------------------------ *)
(** ** Invariants and reference behaviour *)

Section Invariants.
Context {num : Type} `{JSNumber num} `{scan : ScanOrder}.

(** The cart row [r] with the quantity [q]. *)
Definition with_quantity (r : CartItemRow) (q : Z) : CartItemRow :=
  mkCartItemRow (ci_id r) (ci_userId r) (ci_productId r) q.

(** What a sync of the cart of user [u] makes of one cart row: a row of [u]
    is dropped when its product is out of stock and cut down to the stock
    when it holds more; every other row stays. *)
Definition sync_row (d : DB num) (u : string) (r : CartItemRow)
  : list CartItemRow :=
  if String.eqb (ci_userId r) u then
    match find_product d (ci_productId r) with
    | Some p =>
        if p_stock p =? 0 then []
        else if ci_quantity r >? p_stock p then [with_quantity r (p_stock p)]
        else [r]
    | None => [r]
    end
  else [r].

Definition sync_rows (d : DB num) (u : string) (cs : list CartItemRow)
  : list CartItemRow :=
  flat_map (sync_row d u) cs.

(** What a sync reports for the lines [found]. *)
Definition sync_report (found : list (CartItem num)) : CartService.SyncResult :=
  CartService.mkSyncResult
    (map (fun c => p_name (ci_product c))
         (filter (fun c => p_stock (ci_product c) =? 0) found))
    (map (fun c => (p_name (ci_product c), p_stock (ci_product c)))
         (filter (fun c => negb (p_stock (ci_product c) =? 0)
                           && (ci_quantity (ci_row c) >? p_stock (ci_product c)))
                 found)).

(** The row [r] holds at least one and at most the stock of its product. *)
Definition within_stock (d : DB num) (r : CartItemRow) : Prop :=
  exists p, find_product d (ci_productId r) = Some p
            /\ 1 <= ci_quantity r <= p_stock p.

(** The cart table as the data model wants it: row ids are distinct, a user
    has at most one row per product, and every row is within stock. *)
Definition cart_invariant (d : DB num) : Prop :=
  NoDup (map ci_id (cartItems d))
  /\ NoDup (map (fun r => (ci_userId r, ci_productId r)) (cartItems d))
  /\ Forall (within_stock d) (cartItems d).

(** A request to the cart endpoints. *)
Inductive CartRequest : Type :=
| GetCart (user : option AuthUser)
| AddItem (user : option AuthUser) (productId : option string)
          (quantity : JSValue)
| UpdateItem (user : option AuthUser) (id : string) (quantity : JSValue)
| RemoveItem (user : option AuthUser) (id : string)
| ClearCart (user : option AuthUser)
| CartCount (user : option AuthUser)
| ValidateCart (user : option AuthUser)
| SyncCart (user : option AuthUser).

(** The world after the request [r] was served. *)
Definition serve (r : CartRequest) (w : World num) : World num :=
  match r with
  | GetCart user => snd (CartController.getCart user w)
  | AddItem user productId quantity =>
      snd (CartController.addToCart user productId quantity w)
  | UpdateItem user id quantity =>
      snd (CartController.updateCartItem user id quantity w)
  | RemoveItem user id => snd (CartController.removeFromCart user id w)
  | ClearCart user => snd (CartController.clearCart user w)
  | CartCount user => snd (CartController.getCartCount user w)
  | ValidateCart user => snd (CartController.validateCart user w)
  | SyncCart user => snd (CartController.syncCart user w)
  end.

Definition serve_all (rs : list CartRequest) (w : World num) : World num :=
  fold_left (fun w r => serve r w) rs w.

(** [req.user] of the request. *)
Definition request_user (r : CartRequest) : option AuthUser :=
  match r with
  | GetCart user | AddItem user _ _ | UpdateItem user _ _ | RemoveItem user _
  | ClearCart user | CartCount user | ValidateCart user | SyncCart user => user
  end.

(** How far an order has come; no transition of the lifecycle goes back. *)
Definition rank (s : OrderStatus) : nat :=
  match s with
  | PENDING => 0
  | CONFIRMED => 1
  | PROCESSING => 2
  | SHIPPED => 3
  | DELIVERED => 4
  | CANCELLED => 5
  | RETURNED => 5
  end.

(** The order row [o] with another payment status. *)
Definition with_payment_status (o : OrderRow num) (s : PaymentStatus)
  : OrderRow num :=
  mkOrderRow (o_id o) (o_userId o) (o_status o) (o_totalAmount o)
             (o_shippingAddress o) (o_paymentMethod o) s.

(** The orders of [userId], newest first. *)
Definition orders_of (d : DB num) (userId : string) : list (OrderRow num) :=
  rev (filter (fun o => String.eqb (o_userId o) userId) (orders d)).

End Invariants.

(* ------------------------------------------------------------------ *)
(** ** A small shop *)

Section Samples.
Context {num : Type} `{JSNumber num} `{scan : ScanOrder}.

(** A price or a percentage written with two decimals. *)
Definition cents (c : Z) : num := (num_of_Z c / num_of_Z 100)%js.

Definition widget : Product num :=
  mkProduct "A" "Widget" (cents 10000) 5 None.
Definition gadget : Product num :=
  mkProduct "B" "Gadget" (cents 25) 3 (Some (cents 5000)).

Definition lamp : Product num :=
  mkProduct "C" "Lamp" (cents 4500) 0 None.

Definition alice_address : ShippingAddress :=
  mkShippingAddress "Alice" "Doe" "alice@shop.uz" "+998900000000"
                    "1 Amir Temur street" "Tashkent" "".

Definition alice_data : CreateOrderData :=
  mkCreateOrderData "Alice" "Doe" "alice@shop.uz" "+998900000000"
                    "1 Amir Temur street" "Tashkent" None cash.

(** Alice holds three widgets in her cart and has one confirmed order of
    three widgets. *)
Definition shop : DB num :=
  mkDB [widget; gadget]
       [mkCartItemRow "c1" "alice" "A" 3]
       [mkOrderRow "o1" "alice" CONFIRMED (cents 30000) alice_address cash
                   PAY_PENDING]
       [mkOrderItemRow "i1" "o1" "A" 3 (cents 10000)].

Definition shop_world : World num := mkWorld shop None.

(** Bob put five gadgets in his cart when there were that many; three are
    left. *)
Definition stale_world : World num :=
  mkWorld (mkDB [widget; gadget] [mkCartItemRow "c2" "bob" "B" 5] [] []) None.

(** Dave put two lamps in his cart; none is left. *)
Definition sold_out_world : World num :=
  mkWorld (mkDB [widget; gadget; lamp] [mkCartItemRow "c3" "dave" "C" 2] [] [])
          None.

(** Carol holds two gadgets (0.25 each, 50% off). *)
Definition gadget_world : World num :=
  mkWorld (mkDB [widget; gadget] [mkCartItemRow "c4" "carol" "B" 2] [] []) None.

(** Hana holds one sticker (0.29, 50% off). *)
Definition sticker_world : World num :=
  mkWorld (mkDB [mkProduct "S" "Sticker" (cents 29) 10 (Some (cents 5000))]
                [mkCartItemRow "c30" "hana" "S" 1] [] []) None.

(** Gina holds five rolls of tape (0.18 each, 15% off). *)
Definition tape : Product num :=
  mkProduct "T" "Tape" (cents 18) 30 (Some (cents 1500)).
Definition tape_world : World num :=
  mkWorld (mkDB [tape] [mkCartItemRow "c5" "gina" "T" 5] [] []) None.

(** Dave holds two widgets, five gadgets of which three are left and a lamp
    of which none is left; Erin holds four gadgets. *)
Definition mixed_world : World num :=
  mkWorld (mkDB [widget; gadget; lamp]
                [mkCartItemRow "c6" "dave" "A" 2;
                 mkCartItemRow "c7" "dave" "B" 5;
                 mkCartItemRow "c8" "dave" "C" 1;
                 mkCartItemRow "c9" "erin" "B" 4] [] []) None.

(** Alice and Bob each hold three widgets; five are left.  Frank holds five
    notebooks (12.81, 5% off), one folder (22.05, 25% off) and five binders
    (80.64, 15% off), put in the cart in this order. *)
Definition rush_world : World num :=
  mkWorld (mkDB [widget] [mkCartItemRow "c20" "alice" "A" 3;
                          mkCartItemRow "c21" "bob" "A" 3] [] []) None.

(** Frank's basket. *)
Definition basket_world : World num :=
  mkWorld (mkDB [mkProduct "E" "Notebook" (cents 1281) 20 (Some (cents 500));
                 mkProduct "F" "Folder" (cents 2205) 20 (Some (cents 2500));
                 mkProduct "G" "Binder" (cents 8064) 20 (Some (cents 1500))]
                [mkCartItemRow "c10" "frank" "E" 5;
                 mkCartItemRow "c11" "frank" "F" 1;
                 mkCartItemRow "c12" "frank" "G" 5] [] []) None.

End Samples.

(* ------------------------------------------------------------------ *)
(** ** Tables *)

Section TableFacts.
Context {num : Type}.

Lemma OrderStatus_eqb_eq (a b : OrderStatus) :
  OrderStatus_eqb a b = true <-> a = b.
Proof. destruct a, b; simpl; split; intro E; (reflexivity || discriminate). Qed.

Lemma includes_validTransitions (a b : OrderStatus) :
  includes (OrderService.validTransitions a) b = true <-> transition a b.
Proof.
  split.
  - destruct a, b; simpl; intro E; (discriminate || constructor).
  - intros []; reflexivity.
Qed.

Lemma set_status_found (os : list (OrderRow num)) id s o :
  find (fun o => String.eqb (o_id o) id) os = Some o ->
  exists os',
    set_status os id s = Some os'
    /\ find (fun o => String.eqb (o_id o) id) os' = Some (with_status o s).
Proof.
  induction os as [|x os IH]; simpl; [discriminate|].
  destruct (String.eqb (o_id x) id) eqn:E.
  - intros [= ->]. eexists. split; [reflexivity|].
    simpl. rewrite E. reflexivity.
  - intros F. destruct (IH F) as (os' & -> & F'). eexists. split; [reflexivity|].
    simpl. rewrite E. exact F'.
Qed.

Lemma find_order_id (d : DB num) id o :
  find_order d id = Some o -> o_id o = id.
Proof.
  unfold find_order. intros F. apply find_some in F as [_ E].
  now apply String.eqb_eq.
Qed.

End TableFacts.

(* ------------------------------------------------------------------ *)
(** ** The order state machine *)

Section StateMachine.
Context {num : Type} `{JSNumber num} `{scan : ScanOrder}.
Import OrderService.

Lemma updateOrderStatus_missing (w : World num) id s admin :
  find_order (db w) id = None ->
  updateOrderStatus id s admin w = (inl OrderNotFound, w).
Proof.
  intros F. unfold updateOrderStatus, bind, query. rewrite F. reflexivity.
Qed.

Lemma updateOrderStatus_allowed (w : World num) id s admin o :
  find_order (db w) id = Some o ->
  includes (validTransitions (o_status o)) s = true ->
  exists os',
    set_status (orders (db w)) id s = Some os'
    /\ updateOrderStatus id s admin w
       = (inr (with_items (set_orders (db w) os') (with_status o s)),
          mkWorld (set_orders (db w) os') (fault w))
    /\ find_order (set_orders (db w) os') id = Some (with_status o s).
Proof.
  intros F A.
  destruct (set_status_found (orders (db w)) id s o F) as (os' & S & F').
  exists os'. split; [exact S|]. split; [|exact F'].
  unfold updateOrderStatus, bind, query. rewrite F, A. simpl.
  unfold order_update_status, write. rewrite S.
  unfold find_order at 1. simpl. rewrite F'. reflexivity.
Qed.

Lemma updateOrderStatus_refused (w : World num) id s admin o :
  find_order (db w) id = Some o ->
  includes (validTransitions (o_status o)) s = false ->
  updateOrderStatus id s admin w = (inl (InvalidTransition (o_status o) s), w).
Proof.
  intros F A. unfold updateOrderStatus, bind, query. rewrite F, A. reflexivity.
Qed.

(** C3. For an order that exists, [updateOrderStatus] succeeds exactly when
    the pair (current status, requested status) is in the transition table
    of the specification, and then the order carries the requested status;
    any other request throws [InvalidTransition] naming the current and the
    requested status and leaves the world as it was; [CANCELLED] and
    [RETURNED] have no outgoing transition. *)
Theorem updateOrderStatus_follows_table
    (w : World num) (id : string) (s : OrderStatus) (admin : option string)
    (o : OrderRow num) (Hfound : find_order (db w) id = Some o) :
  (transition (o_status o) s ->
     exists r w',
       updateOrderStatus id s admin w = (inr r, w')
       /\ order_row r = with_status o s
       /\ find_order (db w') id = Some (with_status o s))
  /\ (~ transition (o_status o) s ->
        updateOrderStatus id s admin w
        = (inl (InvalidTransition (o_status o) s), w)
        /\ kind (InvalidTransition (o_status o) s) = InvalidStatusTransition)
  /\ ((exists r w', updateOrderStatus id s admin w = (inr r, w'))
        <-> transition (o_status o) s)
  /\ (o_status o = CANCELLED \/ o_status o = RETURNED ->
        ~ transition (o_status o) s).
Proof.
  assert (Hyes : transition (o_status o) s ->
                 exists r w',
                   updateOrderStatus id s admin w = (inr r, w')
                   /\ order_row r = with_status o s
                   /\ find_order (db w') id = Some (with_status o s)).
  { intros T. apply includes_validTransitions in T.
    destruct (updateOrderStatus_allowed w id s admin o Hfound T)
      as (os' & _ & R & F').
    eexists _, _. split; [exact R|]. split; [reflexivity|exact F']. }
  assert (Hno : ~ transition (o_status o) s ->
                updateOrderStatus id s admin w
                = (inl (InvalidTransition (o_status o) s), w)).
  { intros T. apply updateOrderStatus_refused; [exact Hfound|].
    destruct (includes (validTransitions (o_status o)) s) eqn:E; [|reflexivity].
    apply includes_validTransitions in E. contradiction. }
  repeat split.
  - exact Hyes.
  - now apply Hno.
  - intros (r & w' & R).
    destruct (includes (validTransitions (o_status o)) s) eqn:E.
    + now apply includes_validTransitions.
    + rewrite (updateOrderStatus_refused w id s admin o Hfound E) in R.
      discriminate.
  - intros T. destruct (Hyes T) as (r & w' & R & _). eauto.
  - intros [E|E] T; rewrite E in T; inversion T.
Qed.

End StateMachine.

Lemma updateOrderStatus_follows_table_witness :
  find_order (db (@shop_world float _)) "o1"
  = Some (mkOrderRow "o1" "alice" CONFIRMED (cents 30000) alice_address cash
                     PAY_PENDING)
  /\ exists r w',
       OrderService.updateOrderStatus "o1" PROCESSING (Some "root"%string)
         (@shop_world float _) = (inr r, w')
       /\ o_status (order_row r) = PROCESSING.
Proof.
  split; [reflexivity|].
  destruct (updateOrderStatus_follows_table (@shop_world float _) "o1"
              PROCESSING (Some "root"%string) _ eq_refl)
    as (Hyes & _).
  destruct (Hyes confirmed_processing) as (r & w' & R & E & _).
  exists r, w'. split; [exact R|]. rewrite E. reflexivity.
Defined.

(* ------------------------------------------------------------------ *)
(** ** Reading an order *)

Section OrderLookup.
Context {num : Type} `{JSNumber num} `{scan : ScanOrder}.
Import OrderService.

Lemma find_scoped_absent (os : list (OrderRow num)) id u :
  find (fun o => String.eqb (o_id o) id) os = None ->
  find (whereClause id (Some u)) os = None.
Proof.
  induction os as [|x os IH]; simpl; [reflexivity|].
  unfold whereClause at 1.
  destruct (String.eqb (o_id x) id); [discriminate|]. simpl. exact IH.
Qed.

Lemma find_none_of_fresh_id (os : list (OrderRow num)) id :
  ~ In id (map o_id os) ->
  find (fun o => String.eqb (o_id o) id) os = None.
Proof.
  induction os as [|x os IH]; simpl; [reflexivity|]. intros N.
  destruct (String.eqb_spec (o_id x) id) as [E|E]; [tauto|].
  apply IH. tauto.
Qed.

Lemma find_scoped_foreign (os : list (OrderRow num)) id u o :
  NoDup (map o_id os) ->
  find (fun o => String.eqb (o_id o) id) os = Some o ->
  o_userId o <> u ->
  u <> ""%string ->
  find (whereClause id (Some u)) os = None.
Proof.
  intros D F Hother Hu.
  induction os as [|x os IH]; simpl in *; [discriminate|].
  inversion D as [|? ? Hx D']; subst.
  unfold whereClause at 1. simpl.
  destruct (String.eqb_spec u ""); [contradiction|]. simpl.
  destruct (String.eqb_spec (o_id x) id) as [E|E]; simpl.
  - injection F as ->.
    destruct (String.eqb_spec (o_userId o) u); [contradiction|].
    apply find_scoped_absent, find_none_of_fresh_id. now rewrite <- E.
  - now apply IH.
Qed.

Lemma getOrderById_run (w : World num) id scope :
  getOrderById id scope w
  = (inr (option_map (with_items (db w))
                     (find (whereClause id scope) (orders (db w)))), w).
Proof. reflexivity. Qed.

(** C8. An order that exists but belongs to another user is reported to a
    scoped caller exactly as an id that no order has: [getOrderById] returns
    [null] for both and writes nothing, and [OrderController.getOrder]
    answers a caller who is no administrator with the same response for
    both, which is a failure that is not 403 (and is 404 'Order not found'
    for an authenticated caller), never the order. *)
Theorem getOrderById_hides_foreign_orders
    (w : World num) (id absent : string) (u role : string) (o : OrderRow num)
    (Hunique : NoDup (map o_id (orders (db w))))
    (Hfound : find_order (db w) id = Some o)
    (Hother : o_userId o <> u)
    (Habsent : find_order (db w) absent = None)
    (Huser : role <> "ADMIN"%string) :
  (u <> ""%string ->
     getOrderById id (Some u) w = (inr None, w)
     /\ getOrderById absent (Some u) w = (inr None, w)
     /\ OrderController.getOrder (Some (mkAuthUser u role)) id w
        = (inr (Failure 404 (Text "Order not found")), w))
  /\ OrderController.getOrder (Some (mkAuthUser u role)) id w
     = OrderController.getOrder (Some (mkAuthUser u role)) absent w
  /\ exists status message,
       OrderController.getOrder (Some (mkAuthUser u role)) id w
       = (inr (Failure status message), w)
       /\ status <> 403.
Proof.
  assert (Hrole : String.eqb role "ADMIN" = false).
  { now apply String.eqb_neq. }
  assert (Hscoped : u <> ""%string ->
            getOrderById id (Some u) w = (inr None, w)
            /\ getOrderById absent (Some u) w = (inr None, w)).
  { intros Hu. rewrite !getOrderById_run.
    rewrite (find_scoped_foreign _ id u o Hunique Hfound Hother Hu).
    rewrite (find_scoped_absent _ absent u Habsent). split; reflexivity. }
  assert (Hctl : forall i,
            OrderController.getOrder (Some (mkAuthUser u role)) i w
            = if String.eqb u ""
              then (inr (Failure 401 (Text "Authentication required")), w)
              else match getOrderById i (Some u) w with
                   | (inr None, w') =>
                       (inr (Failure 404 (Text "Order not found")), w')
                   | (inr (Some r), w') => (inr (Success 200 r), w')
                   | (inl _, w') =>
                       (inr (Failure 500 (Text "Failed to get order")), w')
                   end).
  { intros i. rewrite getOrderById_run.
    unfold OrderController.getOrder, try_catch, bind, ret. simpl.
    rewrite Hrole. destruct (String.eqb u ""); simpl; [reflexivity|].
    destruct (find (whereClause i (Some u)) (orders (db w))); reflexivity. }
  split; [|split].
  - intros Hu. destruct (Hscoped Hu) as [R1 R2]. repeat split; trivial.
    rewrite Hctl, R1. destruct (String.eqb_spec u ""); [contradiction|reflexivity].
  - rewrite !Hctl. destruct (String.eqb_spec u "") as [E|E]; [reflexivity|].
    destruct (Hscoped E) as [-> ->]. reflexivity.
  - rewrite Hctl. destruct (String.eqb_spec u "") as [E|E].
    + eexists _, _. split; [reflexivity|discriminate].
    + destruct (Hscoped E) as [-> _]. eexists _, _.
      split; [reflexivity|discriminate].
Qed.

End OrderLookup.

Lemma getOrderById_hides_foreign_orders_witness :
  OrderService.getOrderById "o1" (Some "bob"%string) (@shop_world float _)
  = (inr None, shop_world)
  /\ OrderController.getOrder (Some (mkAuthUser "bob" "USER")) "o1"
       (@shop_world float _)
     = OrderController.getOrder (Some (mkAuthUser "bob" "USER")) "o9"
         shop_world.
Proof.
  assert (D : NoDup (map o_id (orders (db (@shop_world float _))))).
  { simpl. constructor; [simpl; tauto|constructor]. }
  destruct (getOrderById_hides_foreign_orders (@shop_world float _)
              "o1" "o9" "bob" "USER" _ D eq_refl
              ltac:(simpl; discriminate) eq_refl ltac:(discriminate))
    as (Hsvc & Hsame & _).
  split; [|exact Hsame].
  apply Hsvc. discriminate.
Defined.

(* ------------------------------------------------------------------ *)
(** ** Adding to the cart *)

Section AddToCart.
Context {num : Type} `{JSNumber num} `{scan : ScanOrder}.
Import CartService.

Lemma in_nodup_map_eq {A B} (f : A -> B) (l : list A) a b :
  NoDup (map f l) -> In a l -> In b l -> f a = f b -> a = b.
Proof.
  induction l as [|x l IH]; simpl; [tauto|].
  intros D Ha Hb E. inversion D as [|? ? Hx D']; subst.
  destruct Ha as [->|Ha], Hb as [->|Hb]; trivial.
  - exfalso. apply Hx. rewrite E. now apply in_map.
  - exfalso. apply Hx. rewrite <- E. now apply in_map.
  - now apply IH.
Qed.

Lemma set_quantity_found (cs : list CartItemRow) u p r n :
  NoDup (map ci_id cs) ->
  find (userId_productId u p) cs = Some r ->
  exists cs',
    set_quantity cs (ci_id r) n = Some cs'
    /\ find (userId_productId u p) cs'
       = Some (mkCartItemRow (ci_id r) (ci_userId r) (ci_productId r) n)
    /\ map ci_id cs' = map ci_id cs
    /\ List.length cs' = List.length cs.
Proof.
  induction cs as [|x cs IH]; simpl; [discriminate|].
  intros D F. inversion D as [|? ? Hx D']; subst.
  destruct (userId_productId u p x) eqn:E.
  - injection F as ->. rewrite String.eqb_refl. eexists. split; [reflexivity|].
    simpl. unfold userId_productId in *. simpl. rewrite E. repeat split.
  - destruct (String.eqb_spec (ci_id x) (ci_id r)) as [I|I].
    + exfalso. apply Hx. rewrite I. apply in_map.
      now apply find_some in F as [F _].
    + destruct (IH D' F) as (cs' & -> & F' & Ids & L). eexists.
      split; [reflexivity|]. simpl. rewrite E, Ids, L. repeat split. exact F'.
Qed.

(** What [addToCart] does, by cases on the product, on the stock and on the
    row the cart already holds. *)
Lemma addToCart_run (w : World num) u p q :
  addToCart u p q w =
  match find_product (db w) p with
  | None => (inl ProductNotFound, w)
  | Some product =>
      if p_stock product <? q then (inl (OnlyInStock (p_stock product)), w)
      else
        match find (userId_productId u p) (cartItems (db w)) with
        | Some existing =>
            if ci_quantity existing + q >? p_stock product
            then (inl (CannotAddMore q (p_stock product - ci_quantity existing)), w)
            else
              match set_quantity (cartItems (db w)) (ci_id existing)
                                 (ci_quantity existing + q) with
              | Some cs =>
                  (inr (mkCartItem
                          (mkCartItemRow (ci_id existing) (ci_userId existing)
                             (ci_productId existing) (ci_quantity existing + q))
                          product),
                   mkWorld (set_cartItems (db w) cs) (fault w))
              | None => (inl PrismaError, w)
              end
        | None =>
            (inr (mkCartItem (mkCartItemRow (cuid (db w)) u p q) product),
             mkWorld (set_cartItems (db w)
                        (cartItems (db w)
                         ++ [mkCartItemRow (cuid (db w)) u p q]))
                     (fault w))
        end
  end.
Proof.
  unfold addToCart, bind, query.
  destruct (find_product (db w) p) as [product|] eqn:P; [|reflexivity].
  destruct (p_stock product <? q); [reflexivity|].
  destruct (find _ (cartItems (db w))) as [existing|] eqn:F.
  - destruct (ci_quantity existing + q >? p_stock product); [reflexivity|].
    unfold write.
    destruct (set_quantity _ _ _) as [cs|]; simpl; [|reflexivity].
    unfold include_product, bind, query, find_product in *. simpl.
    destruct (find_some _ _ F) as [_ E].
    apply andb_true_iff in E as [_ E]. apply String.eqb_eq in E.
    rewrite E, P. reflexivity.
  - unfold write, include_product, bind, query, find_product in *. simpl.
    rewrite P. reflexivity.
Qed.

Lemma find_app_none {A} (f : A -> bool) (l : list A) (a : A) :
  find f l = None -> f a = true -> find f (l ++ [a]) = Some a.
Proof.
  induction l as [|x l IH]; simpl; intros F T.
  - now rewrite T.
  - destruct (f x); [discriminate|]. now apply IH.
Qed.


End AddToCart.


(* ------------------------------------------------------------------ *)
(** ** Quantities that are not positive *)

Section NonPositive.
Context {num : Type} `{JSNumber num} `{scan : ScanOrder}.
Import CartService.

Lemma addToCart_never_invalid_argument (w w' : World num) u p q e :
  addToCart u p q w = (inl e, w') -> kind e <> InvalidArgument.
Proof.
  rewrite addToCart_run.
  destruct (find_product (db w) p) as [product|].
  2:{ intros [= <- _]. discriminate. }
  destruct (p_stock product <? q).
  { intros [= <- _]. discriminate. }
  destruct (find _ (cartItems (db w))) as [existing|]; [|discriminate].
  destruct (ci_quantity existing + q >? p_stock product).
  { intros [= <- _]. discriminate. }
  destruct (set_quantity _ _ _); [discriminate|].
  intros [= <- _]. discriminate.
Qed.

(** C10 (as the code has it). [CartService.addToCart] never throws an
    invalid-argument error.  For a product in stock ([0 <= stock]) and a
    quantity [q <= 0]: when the user has no row for the product, it succeeds
    and appends a row that holds [q]; when a row exists, it stores the sum of
    the row's quantity and [q] if that is at most the stock, and throws
    [CannotAddMore] otherwise.  [CartController.addToCart] answers such a
    quantity with 400 without calling the service. *)
Theorem addToCart_accepts_nonpositive
    (w : World num) (u p : string) (q : Z) (product : Product num)
    (Hids : NoDup (map ci_id (cartItems (db w))))
    (Hproduct : find_product (db w) p = Some product)
    (Hstock : 0 <= p_stock product)
    (Hq : q <= 0) :
  (forall e w', addToCart u p q w = (inl e, w') -> kind e <> InvalidArgument)
  /\ (find (userId_productId u p) (cartItems (db w)) = None ->
        addToCart u p q w
        = (inr (mkCartItem (mkCartItemRow (cuid (db w)) u p q) product),
           mkWorld (set_cartItems (db w)
                      (cartItems (db w) ++ [mkCartItemRow (cuid (db w)) u p q]))
                   (fault w)))
  /\ (forall existing,
        find (userId_productId u p) (cartItems (db w)) = Some existing ->
        (ci_quantity existing + q <= p_stock product ->
           exists cartItem w',
             addToCart u p q w = (inr cartItem, w')
             /\ cart_quantity (db w') u p = ci_quantity existing + q)
        /\ (p_stock product < ci_quantity existing + q ->
             addToCart u p q w
             = (inl (CannotAddMore q (p_stock product - ci_quantity existing)),
                w)))
  /\ (forall user,
        truthy (option_map userId user) = true -> truthy (Some p) = true ->
        CartController.addToCart user (Some p) (JSInteger q) w
        = (inr (Failure 400 (Text "Quantity must be a positive integer")), w)).
Proof.
  assert (Hlt : (p_stock product <? q) = false) by (apply Z.ltb_ge; lia).
  split; [|split; [|split]].
  - intros e w'. apply addToCart_never_invalid_argument.
  - intros F. rewrite addToCart_run, Hproduct, Hlt, F. reflexivity.
  - intros existing F. rewrite addToCart_run, Hproduct, Hlt, F.
    destruct (set_quantity_found _ u p existing (ci_quantity existing + q)
                Hids F) as (cs' & S & F' & _ & _).
    split; intros L.
    + destruct (Z.gtb_spec (ci_quantity existing + q) (p_stock product));
        [lia|].
      rewrite S. eexists _, _. split; [reflexivity|].
      unfold cart_quantity. simpl. rewrite F'. reflexivity.
    + destruct (Z.gtb_spec (ci_quantity existing + q) (p_stock product));
        [reflexivity|lia].
  - intros user T Tp. unfold CartController.addToCart, try_catch, ret.
    assert (B : (q <=? 0) = true) by (apply Z.leb_le; lia).
    rewrite T, Tp. simpl. rewrite B. reflexivity.
Qed.

End NonPositive.

Lemma addToCart_accepts_nonpositive_witness :
  exists w',
    CartService.addToCart "bob" "A" (-2) (@shop_world float _)
    = (inr (mkCartItem (mkCartItemRow (cuid shop) "bob" "A" (-2)) widget), w')
    /\ cart_quantity (db w') "bob" "A" = -2.
Proof.
  assert (D : NoDup (map ci_id (cartItems (db (@shop_world float _))))).
  { simpl. constructor; [simpl; tauto|constructor]. }
  destruct (addToCart_accepts_nonpositive (@shop_world float _) "bob" "A" (-2)
              widget D eq_refl ltac:(simpl; lia) ltac:(lia))
    as (_ & Hnew & _).
  eexists. split; [apply Hnew; reflexivity|]. reflexivity.
Defined.

(** C10, as stated, fails: gadgets are in stock (3), Bob's cart row holds 5,
    and adding the quantity 0 throws instead of succeeding. *)
Lemma addToCart_zero_on_stale_row :
  find_product (db (@stale_world float _)) "B" = Some gadget
  /\ 0 <= p_stock (@gadget float _)
  /\ CartService.addToCart "bob" "B" 0 (@stale_world float _)
     = (inl (CannotAddMore 0 (-2)), stale_world).
Proof. repeat split; vm_compute; congruence. Qed.

(* ------------------------------------------------------------------ *)
(** ** The cart summary *)

Section Summary.
Context {num : Type} `{JSNumber num} `{scan : ScanOrder}.
Import CartService.

Lemma map_M_include_product (w : World num) rows :
  map_M include_product rows w
  = match join_products (db w) rows with
    | Some l => (inr l, w)
    | None => (inl PrismaError, w)
    end.
Proof.
  induction rows as [|r rows IH]; simpl; [reflexivity|].
  unfold bind at 1. unfold include_product at 1. unfold bind, query.
  destruct (find_product (db w) (ci_productId r)) as [p|]; simpl; [|reflexivity].
  unfold ret at 1. unfold bind. rewrite IH.
  destruct (join_products (db w) rows); reflexivity.
Qed.

Lemma findMany_run (w : World num) orderBy u :
  findMany orderBy u w
  = match join_products (db w) (orderBy (cart_rows (db w) u)) with
    | Some l => (inr l, w)
    | None => (inl PrismaError, w)
    end.
Proof.
  unfold findMany, bind, query. apply map_M_include_product.
Qed.

Lemma unordered_nil : unordered [] = [].
Proof. apply Permutation_nil, Permutation_sym, unordered_perm. Qed.

Lemma unordered_one (r : CartItemRow) : unordered [r] = [r].
Proof. apply Permutation_length_1_inv, Permutation_sym, unordered_perm. Qed.

Lemma join_products_app (d : DB num) (a b : list CartItemRow) :
  join_products d (a ++ b)
  = match join_products d a, join_products d b with
    | Some x, Some y => Some (x ++ y)
    | _, _ => None
    end.
Proof.
  induction a as [|r a IH]; simpl.
  - now destruct (join_products d b).
  - destruct (find_product d (ci_productId r)) as [p|]; [|reflexivity].
    rewrite IH. destruct (join_products d a), (join_products d b); reflexivity.
Qed.

Lemma join_products_rev (d : DB num) (rows : list CartItemRow) :
  join_products d (rev rows) = option_map (@rev _) (join_products d rows).
Proof.
  induction rows as [|r rows IH]; simpl; [reflexivity|].
  rewrite join_products_app, IH. simpl.
  destruct (find_product d (ci_productId r)) as [p|];
    destruct (join_products d rows); reflexivity.
Qed.

(** The lines of the same rows in another order are the same lines in
    another order. *)
Lemma join_products_perm (d : DB num) (rows rows' : list CartItemRow) :
  Permutation rows rows' ->
  forall l, join_products d rows = Some l ->
  exists l', join_products d rows' = Some l' /\ Permutation l l'.
Proof.
  induction 1 as [|r rows rows' _ IH|a b rows|rows rows1 rows2 _ IH1 _ IH2];
    intros l J.
  - exists l. split; [exact J|reflexivity].
  - simpl in *. destruct (find_product d (ci_productId r)) as [p|]; [|discriminate].
    destruct (join_products d rows) as [l0|]; [|discriminate].
    injection J as <-. destruct (IH l0 eq_refl) as (l' & -> & P).
    eexists. split; [reflexivity|]. now constructor.
  - simpl in *.
    destruct (find_product d (ci_productId a)) as [pa|];
      destruct (find_product d (ci_productId b)) as [pb|];
      try discriminate;
      destruct (join_products d rows) as [l0|]; try discriminate.
    injection J as <-. eexists. split; [reflexivity|]. constructor.
  - destruct (IH1 l J) as (l1 & J1 & P1). destruct (IH2 l1 J1) as (l2 & J2 & P2).
    exists l2. split; [exact J2|]. now transitivity l1.
Qed.

Lemma join_products_rows (d : DB num) rows l :
  join_products d rows = Some l ->
  map ci_row l = rows
  /\ Forall (fun i => find_product d (ci_productId (ci_row i))
                      = Some (ci_product i)) l.
Proof.
  revert l. induction rows as [|r rows IH]; simpl; intros l.
  - intros [= <-]. split; [reflexivity|constructor].
  - destruct (find_product d (ci_productId r)) as [p|] eqn:P; [|discriminate].
    destruct (join_products d rows) as [l'|]; [|discriminate].
    intros [= <-]. destruct (IH l' eq_refl) as [R F].
    split; [simpl; now rewrite R|]. constructor; [exact P|exact F].
Qed.

(** The loop of [calculateCartSummary] runs three independent sums. *)
Lemma summary_loop (l : list (CartItem num)) (s d : num) (n : Z) :
  fold_left summary_step l (s, d, n)
  = (fold_left (fun acc i => (acc + line_subtotal i)%js) l s,
     fold_left (fun acc i => (acc + line_discount i)%js) l d,
     n + sum_Z (map quantity_of l)).
Proof.
  revert s d n. induction l as [|i l IH]; intros s d n; simpl.
  - now rewrite Z.add_0_r.
  - rewrite IH. f_equal. unfold quantity_of. lia.
Qed.

Lemma calculateCartSummary_fields (l : list (CartItem num)) :
  calculateCartSummary l
  = {| items := l;
       totalItems := sum_Z (map quantity_of l);
       subtotal := round2 (sum_over line_subtotal l);
       discount := round2 (sum_over line_discount l);
       total := round2 (sum_over line_subtotal l - sum_over line_discount l)%js |}.
Proof.
  unfold calculateCartSummary. rewrite summary_loop. reflexivity.
Qed.

Lemma items_calculateCartSummary (l : list (CartItem num)) :
  items (calculateCartSummary l) = l.
Proof. now rewrite calculateCartSummary_fields. Qed.

Lemma getCart_run (w : World num) u :
  getCart u w
  = match join_products (db w) (cart_rows (db w) u) with
    | Some l => (inr (calculateCartSummary (rev l)), w)
    | None => (inl PrismaError, w)
    end.
Proof.
  unfold getCart, bind. rewrite findMany_run, join_products_rev.
  destruct (join_products _ _); reflexivity.
Qed.

End Summary.

Lemma round2_rounds_half_up (x : Q) : rounds_half_up x (round2 x).
Proof.
  exists (Qfloor (x * 100 + (1 # 2))).
  unfold round2, Math_round, num_mul, num_div, num_of_Z, JSNumber_Q, Q_round.
  change (inject_Z 100) with 100%Q.
  pose proof (Qfloor_le (x * 100 + (1 # 2))) as Lo.
  pose proof (Qlt_floor (x * 100 + (1 # 2))) as Hi.
  rewrite inject_Z_plus in Hi. change (inject_Z 1) with 1%Q in Hi.
  set (k := inject_Z (Qfloor (x * 100 + (1 # 2)))) in *.
  split; [|split].
  - reflexivity.
  - lra.
  - lra.
Qed.

(* ------------------------------------------------------------------ *)
(** ** [Math.round] on doubles *)

Section Doubles.

Lemma digits2_pos_bounds (m : positive) :
  2 ^ (Z.pos (digits2_pos m) - 1) <= Z.pos m < 2 ^ Z.pos (digits2_pos m).
Proof.
  induction m as [m IH|m IH|]; cbn [digits2_pos].
  - rewrite Pos2Z.inj_succ, Z.pow_succ_r by lia.
    replace (Z.succ (Z.pos (digits2_pos m)) - 1) with (Z.succ (Z.pos (digits2_pos m) - 1)) by lia.
    rewrite Z.pow_succ_r by lia. lia.
  - rewrite Pos2Z.inj_succ, Z.pow_succ_r by lia.
    replace (Z.succ (Z.pos (digits2_pos m)) - 1) with (Z.succ (Z.pos (digits2_pos m) - 1)) by lia.
    rewrite Z.pow_succ_r by lia. lia.
  - simpl. lia.
Qed.

Lemma digits2_pos_shift (m n : positive) :
  digits2_pos (Pos.iter xO m n) = (digits2_pos m + n)%positive.
Proof.
  induction n as [|n IH] using Pos.peano_ind.
  - simpl. lia.
  - rewrite Pos.iter_succ. cbn [digits2_pos]. rewrite IH. lia.
Qed.

Lemma iter_xO_value (m n : positive) :
  Z.pos (Pos.iter xO m n) = Z.pos m * 2 ^ Z.pos n.
Proof.
  induction n as [|n IH] using Pos.peano_ind.
  - simpl. lia.
  - rewrite Pos.iter_succ, Pos2Z.inj_succ, Z.pow_succ_r by lia.
    rewrite Pos2Z.inj_xO, IH. lia.
Qed.

Lemma binary_round_aux_canonical (sx : bool) (m : positive) (e : Z) :
  digits2_pos m = 53%positive -> -1074 <= e <= 971 ->
  binary_round_aux prec emax sx (Z.pos m) e loc_Exact = S754_finite sx m e.
Proof.
  intros D E. unfold binary_round_aux, shr_fexp, Zdigits2, fexp, emin.
  rewrite D. change prec with 53. change emax with 1024.
  replace (Z.max (53 + e - 53) (3 - 1024 - 53)) with e by lia.
  rewrite Z.sub_diag. cbn [shr shr_record_of_loc shr_m loc_of_shr_record round_nearest_even].
  unfold Zdigits2. rewrite D.
  replace (Z.max (53 + e - 53) (3 - 1024 - 53)) with e by lia.
  rewrite Z.sub_diag. cbn [shr shr_record_of_loc shr_m].
  destruct (Z.leb_spec e (1024 - 53)); [reflexivity|lia].
Qed.

Lemma binary_round_small (sx : bool) (m : positive) :
  Z.pos m < 2 ^ 53 ->
  exists m' k,
    binary_round prec emax sx m 0 = S754_finite sx m' (- k)
    /\ digits2_pos m' = 53%positive
    /\ 0 <= k <= 52
    /\ Z.pos m' = Z.pos m * 2 ^ k.
Proof.
  intros B. pose proof (digits2_pos_bounds m) as [Lo Hi].
  assert (D : Z.pos (digits2_pos m) <= 53).
  { destruct (Z.le_gt_cases (Z.pos (digits2_pos m)) 53) as [L|G]; [exact L|].
    exfalso. assert (2 ^ 53 <= 2 ^ (Z.pos (digits2_pos m) - 1)).
    { apply Z.pow_le_mono_r; lia. }
    lia. }
  unfold binary_round, shl_align, fexp, emin.
  change prec with 53. change emax with 1024.
  replace (Z.max (Z.pos (digits2_pos m) + 0 - 53) (3 - 1024 - 53))
    with (Z.pos (digits2_pos m) - 53) by lia.
  rewrite Z.sub_0_r.
  destruct (Z.pos (digits2_pos m) - 53) as [|p|p] eqn:E.
  - exists m, 0. assert (E' : digits2_pos m = 53%positive) by lia.
    rewrite binary_round_aux_canonical by (trivial; lia).
    repeat split; trivial; lia.
  - lia.
  - exists (Pos.iter xO m p), (Z.pos p).
    assert (E' : digits2_pos (Pos.iter xO m p) = 53%positive).
    { rewrite digits2_pos_shift. lia. }
    rewrite binary_round_aux_canonical by (trivial; lia).
    change (- Z.pos p) with (Z.neg p).
    repeat split; trivial; try lia. apply iter_xO_value.
Qed.

Lemma Qpower_2_neg (k : Z) : 0 <= k -> (2 ^ (- k) == 1 / inject_Z (2 ^ k))%Q.
Proof.
  intros K. rewrite Qpower_opp, (Zpower_Qpower 2 k K).
  change (inject_Z 2) with 2%Q. field.
  apply Qpower_not_0. discriminate.
Qed.

(** [float_of_Z] is exact below [2^53]. *)
Lemma float_of_Z_exact (r : Z) :
  Z.abs r < 2 ^ 53 ->
  exists q, float_value (float_of_Z r) = Some q /\ (q == inject_Z r)%Q.
Proof.
  intros B. unfold float_value, float_of_Z, binary_normalize.
  destruct r as [|m|m].
  - rewrite Prim2SF_SF2Prim by reflexivity. exists 0%Q. split; reflexivity.
  - destruct (binary_round_small false m B) as (m' & k & R & D & K & V).
    rewrite R, Prim2SF_SF2Prim.
    + eexists. split; [reflexivity|]. rewrite V, inject_Z_mult, Qpower_2_neg by lia.
      field. apply Qnot_eq_sym, Qlt_not_eq.
      change 0%Q with (inject_Z 0). rewrite <- Zlt_Qlt. apply Z.pow_pos_nonneg; lia.
    + unfold valid_binary, bounded, canonical_mantissa, fexp, emin.
      rewrite D. change prec with 53. change emax with 1024.
      apply andb_true_iff. split; [apply Z.eqb_eq|apply Z.leb_le]; lia.
  - destruct (binary_round_small true m B) as (m' & k & R & D & K & V).
    rewrite R, Prim2SF_SF2Prim.
    + eexists. split; [reflexivity|].
      change (Z.neg m') with (- Z.pos m'). change (Z.neg m) with (- Z.pos m).
      rewrite V, !inject_Z_opp, inject_Z_mult, Qpower_2_neg by lia.
      field. apply Qnot_eq_sym, Qlt_not_eq.
      change 0%Q with (inject_Z 0). rewrite <- Zlt_Qlt. apply Z.pow_pos_nonneg; lia.
    + unfold valid_binary, bounded, canonical_mantissa, fexp, emin.
      rewrite D. change prec with 53. change emax with 1024.
      apply andb_true_iff. split; [apply Z.eqb_eq|apply Z.leb_le]; lia.
Qed.

Lemma valid_mantissa (m : positive) (e : Z) :
  bounded prec emax m e = true -> Z.pos m < 2 ^ 53.
Proof.
  unfold bounded, canonical_mantissa, fexp, emin.
  change prec with 53. change emax with 1024.
  intros B. apply andb_true_iff in B as [C _]. apply Z.eqb_eq in C.
  pose proof (digits2_pos_bounds m) as [_ Hi].
  assert (D : Z.pos (digits2_pos m) <= 53) by lia.
  assert (2 ^ Z.pos (digits2_pos m) <= 2 ^ 53) by (apply Z.pow_le_mono_r; lia).
  lia.
Qed.

(** [Math.round] on doubles is exact: for a finite double that holds [q] it
    returns a double that holds the integer [k] with
    [k - 1/2 <= q < k + 1/2]. *)
Lemma float_round_spec (x : float) (q : Q) :
  float_value x = Some q ->
  exists (k : Z) (q' : Q),
    float_value (float_round x) = Some q'
    /\ (q' == inject_Z k)%Q
    /\ (inject_Z k - (1 # 2) <= q)%Q
    /\ (q < inject_Z k + (1 # 2))%Q.
Proof.
  unfold float_value, float_round. pose proof (Prim2SF_valid x) as V.
  destruct (Prim2SF x) as [s|s| |s m e] eqn:E; try discriminate.
  - intros [= <-]. exists 0, 0%Q. rewrite E. repeat split; try reflexivity.
    + change (inject_Z 0) with 0%Q. lra.
  - intros [= <-]. set (v := if s then Z.neg m else Z.pos m).
    destruct (Z.leb_spec 0 e) as [P|N].
    + exists (v * 2 ^ e), (inject_Z v * 2 ^ e)%Q. rewrite E.
      assert (Q1 : (inject_Z v * 2 ^ e == inject_Z (v * 2 ^ e))%Q).
      { rewrite inject_Z_mult, (Zpower_Qpower 2 e P). reflexivity. }
      split; [reflexivity|]. split; [exact Q1|]. rewrite Q1. lra.
    + simpl in V. pose proof (valid_mantissa m e V) as B.
      set (n := - e). assert (Hn : 1 <= n) by (unfold n; lia).
      set (P := 2 ^ n). assert (HP : 2 <= P).
      { unfold P. change 2 with (2 ^ 1) at 1. apply Z.pow_le_mono_r; lia. }
      assert (ED : 2 ^ (n + 1) = 2 * P).
      { unfold P. rewrite Z.pow_add_r by lia. lia. }
      rewrite ED. set (r := (2 * v + P) / (2 * P)).
      assert (Dv : 2 * P * r <= 2 * v + P < 2 * P * r + 2 * P).
      { pose proof (Z.mul_div_le (2 * v + P) (2 * P) ltac:(lia)).
        pose proof (Z.mul_succ_div_gt (2 * v + P) (2 * P) ltac:(lia)).
        fold r in H, H0. lia. }
      assert (Bv : - 2 ^ 53 < v < 2 ^ 53) by (unfold v; destruct s; lia).
      assert (Br : Z.abs r < 2 ^ 53) by nia.
      assert (Qv : (inject_Z v * 2 ^ e
                    == inject_Z v / inject_Z P)%Q).
      { replace e with (- n) by (unfold n; lia).
        rewrite Qpower_2_neg by lia. fold P. field.
        apply Qnot_eq_sym, Qlt_not_eq. change 0%Q with (inject_Z 0).
        rewrite <- Zlt_Qlt. lia. }
      assert (PQ : (0 < inject_Z P)%Q).
      { change 0%Q with (inject_Z 0). rewrite <- Zlt_Qlt. lia. }
      assert (Lo : (inject_Z r - (1 # 2) <= inject_Z v * 2 ^ e)%Q).
      { rewrite Qv. apply Qle_shift_div_l; [exact PQ|].
        assert (L : 2 * (r * P) <= 2 * v + P) by lia.
        rewrite Zle_Qle in L.
        rewrite inject_Z_plus, !inject_Z_mult in L.
        change (inject_Z 2) with 2%Q in L.
        setoid_replace ((inject_Z r - (1 # 2)) * inject_Z P)%Q
          with ((2 * (inject_Z r * inject_Z P) - inject_Z P) / 2)%Q by field.
        apply Qle_shift_div_r; [reflexivity|].
        set (X := (inject_Z r * inject_Z P)%Q) in *. lra. }
      assert (Hi : (inject_Z v * 2 ^ e < inject_Z r + (1 # 2))%Q).
      { rewrite Qv. apply Qlt_shift_div_r; [exact PQ|].
        assert (L : 2 * v < 2 * (r * P) + P) by lia.
        rewrite Zlt_Qlt in L.
        rewrite inject_Z_plus, !inject_Z_mult in L.
        change (inject_Z 2) with 2%Q in L.
        setoid_replace ((inject_Z r + (1 # 2)) * inject_Z P)%Q
          with ((2 * (inject_Z r * inject_Z P) + inject_Z P) / 2)%Q by field.
        apply Qlt_shift_div_l; [reflexivity|].
        set (X := (inject_Z r * inject_Z P)%Q) in *. lra. }
      destruct ((r =? 0) && s) eqn:Zs.
      * apply andb_true_iff in Zs as [Zr _]. apply Z.eqb_eq in Zr.
        exists r, 0%Q. split; [reflexivity|]. split; [now rewrite Zr|].
        split; assumption.
      * destruct (float_of_Z_exact r Br) as (q' & Fq & Eq).
        exists r, q'. unfold float_value in Fq. split; [exact Fq|].
        split; [exact Eq|]. split; assumption.
Qed.

End Doubles.

(** C4 (as the code has it). [getCart] returns the summary of the rows of
    the user's cart, newest first, and for every list of cart items the
    summary has [totalItems = Σ quantity], [subtotal = round2 (Σ price×qty)],
    [discount = round2 (Σ price×qty×discountPct/100)] and
    [total = round2 (Σ price×qty − Σ price×qty×discountPct/100)]: the sums
    are taken over unrounded lines and each of the three aggregates is
    rounded once, on its own.  [round2 x] is [Math.round (x * 100) / 100].
    On exact numbers that is rounding to two decimals with a tie going up.
    On doubles [Math.round] is exact, it returns the integer [k] with
    [k - 1/2 <= y < k + 1/2] for the double [y] it is given, but the
    product [x * 100] and the quotient by 100 are rounded by the
    machine. *)
Theorem getCart_summary :
  (forall num (J : JSNumber num) (w : World num) (u : string),
     CartService.getCart u w
     = match join_products (db w) (cart_rows (db w) u) with
       | Some l => (inr (CartService.calculateCartSummary (rev l)), w)
       | None => (inl PrismaError, w)
       end)
  /\ (forall num (J : JSNumber num) (l : list (CartItem num)),
        let s := CartService.calculateCartSummary l in
        CartService.items s = l
        /\ CartService.totalItems s = sum_Z (map quantity_of l)
        /\ CartService.subtotal s = round2 (sum_over line_subtotal l)
        /\ CartService.discount s = round2 (sum_over line_discount l)
        /\ CartService.total s
           = round2 (sum_over line_subtotal l - sum_over line_discount l)%js)
  /\ (forall x : Q, rounds_half_up x (round2 x))
  /\ (forall (x : float) (q : Q),
        float_value x = Some q ->
        exists (k : Z) (q' : Q),
          float_value (Math_round x) = Some q'
          /\ (q' == inject_Z k)%Q
          /\ (inject_Z k - (1 # 2) <= q)%Q
          /\ (q < inject_Z k + (1 # 2))%Q)
  /\ (forall x : float,
        round2 x = PrimFloat.div (Math_round (PrimFloat.mul x (float_of_Z 100)))
                                 (float_of_Z 100)).
Proof.
  split; [|split; [|split; [|split]]].
  - intros. apply getCart_run.
  - intros num J l s. subst s. rewrite calculateCartSummary_fields.
    repeat split.
  - exact round2_rounds_half_up.
  - exact float_round_spec.
  - reflexivity.
Qed.

Lemma getCart_summary_witness :
  exists (k : Z) (q' : Q),
    float_value
      (Math_round (PrimFloat.mul
                     (PrimFloat.div (PrimFloat.mul (cents 29) (float_of_Z 50))
                                    (float_of_Z 100))
                     (float_of_Z 100)))
    = Some q'
    /\ (q' == inject_Z k)%Q
    /\ k = 14.
Proof.
  destruct (proj1 (proj2 (proj2 (proj2 getCart_summary)))
              (PrimFloat.mul
                 (PrimFloat.div
                    (PrimFloat.mul (@cents float JSNumber_float 29)
                                   (float_of_Z 50))
                    (float_of_Z 100))
                 (float_of_Z 100))
              (inject_Z 8162774324609023 * 2 ^ (-49))%Q eq_refl)
    as (k & q' & V & E & Lo & Hi).
  exists k, q'. split; [exact V|]. split; [exact E|].
  assert (L1 : (inject_Z k < inject_Z 15)%Q).
  { apply Qle_lt_trans
      with (inject_Z 8162774324609023 * 2 ^ (-49) + (1 # 2))%Q; [lra|].
    vm_compute. reflexivity. }
  assert (L2 : (inject_Z 13 < inject_Z k)%Q).
  { apply Qlt_le_trans
      with (inject_Z 8162774324609023 * 2 ^ (-49) - (1 # 2))%Q;
      [vm_compute; reflexivity|lra]. }
  rewrite <- Zlt_Qlt in L1, L2. lia.
Defined.

(** C4, as stated, fails.  One sticker at 0.29 with 50% off: the discount
    is 0.145, which rounds half-up to 0.15, and this is what the summary
    has in exact arithmetic, where its total 0.15 is not its subtotal less
    its discount, 0.29 - 0.15.  On the doubles of the program 0.145 * 100
    is 14.499999999999998, so the summary has the discount 0.14, and its
    total 0.14 is not the rounding of its subtotal less its discount,
    0.15. *)
Lemma getCart_summary_not_half_up :
  (exists s,
     CartService.getCart "hana" (@sticker_world float _)
     = (inr s, sticker_world)
     /\ CartService.subtotal s = cents 29
     /\ CartService.discount s = cents 14
     /\ CartService.total s = cents 14
     /\ round2 (CartService.subtotal s - CartService.discount s)%js = cents 15)
  /\ (exists s,
        CartService.getCart "hana" (@sticker_world Q _) = (inr s, sticker_world)
        /\ (CartService.subtotal s == 29 # 100)%Q
        /\ (CartService.discount s == 15 # 100)%Q
        /\ (CartService.total s == 15 # 100)%Q
        /\ (CartService.subtotal s - CartService.discount s == 14 # 100)%Q).
Proof.
  split; eexists; (split; [vm_compute; reflexivity|]);
    repeat split; vm_compute; reflexivity.
Qed.

(** The three aggregates are rounded independently of one another: one pen
    at 0.10 with 5% off has subtotal 0.10, discount 0.01 (0.005 rounded up)
    and total 0.10 (0.095 rounded up), on doubles and on exact numbers. *)
Example summary_rounds_each_aggregate :
  let pen {num} `{JSNumber num} : CartItem num :=
    mkCartItem (mkCartItemRow "c9" "zoe" "P" 1)
               (mkProduct "P" "Pen" (cents 10) 40 (Some (cents 500))) in
  (CartService.subtotal (CartService.calculateCartSummary [@pen float _])
   = cents 10
   /\ CartService.discount (CartService.calculateCartSummary [@pen float _])
      = cents 1
   /\ CartService.total (CartService.calculateCartSummary [@pen float _])
      = cents 10)
  /\ (CartService.subtotal (CartService.calculateCartSummary [@pen Q _])
      == 10 # 100
      /\ CartService.discount (CartService.calculateCartSummary [@pen Q _])
         == 1 # 100
      /\ CartService.total (CartService.calculateCartSummary [@pen Q _])
         == 10 # 100)%Q.
Proof. repeat split; vm_compute; reflexivity. Qed.

(* ------------------------------------------------------------------ *)
(** ** Writes of a transaction client *)

Section TxWrites.
Context {num : Type} `{JSNumber num} `{scan : ScanOrder}.
Import OrderService.

Lemma after_writes_none n : after_writes None n = Some None.
Proof. induction n; simpl; trivial. Qed.

Lemma after_writes_some k n :
  after_writes (Some k) n
  = if (n <=? k)%nat then Some (Some (k - n)%nat) else None.
Proof.
  revert k. induction n as [|n IH]; intros k; simpl.
  - now rewrite Nat.sub_0_r.
  - destruct k as [|k]; [reflexivity|]. rewrite IH. reflexivity.
Qed.

Lemma after_writes_add f n m :
  after_writes f (n + m)
  = match after_writes f n with
    | Some f' => after_writes f' m
    | None => None
    end.
Proof.
  revert f. induction n as [|n IH]; intros f; simpl; [reflexivity|].
  destruct f as [[|k]|]; trivial.
Qed.

(** One write: it goes through when the fault counter allows it and the
    database accepts it. *)
Lemma tx_write_run {A} (f : DB num -> option (A * DB num)) (d : DB num) k :
  tx_write f (mkWorld d k)
  = match after_writes k 1, f d with
    | Some k', Some (a, d') => (inr a, mkWorld d' k')
    | Some k', None => (inl PrismaError, mkWorld d k')
    | None, _ => (inl PrismaError, mkWorld d k)
    end.
Proof.
  unfold tx_write, write. simpl.
  destruct k as [[|k]|]; simpl; destruct (f d) as [[a d']|]; reflexivity.
Qed.

Lemma map_M_create_ok oid (l : list (CartItem num)) (d : DB num) k k' :
  after_writes k (List.length l) = Some k' ->
  map_M (tx_orderItem_create oid) l (mkWorld d k)
  = (inr (new_order_items oid d l),
     mkWorld (set_orderItems d (orderItems d ++ new_order_items oid d l)) k').
Proof.
  revert d k. induction l as [|c l IH]; intros d k A.
  - simpl in *. injection A as <-. unfold ret, set_orderItems.
    rewrite app_nil_r. now destruct d.
  - change (List.length (c :: l)) with (1 + List.length l)%nat in A.
    rewrite after_writes_add in A.
    destruct (after_writes k 1) as [k1|] eqn:A1; [|discriminate].
    simpl map_M. unfold bind at 1. unfold tx_orderItem_create at 1.
    rewrite tx_write_run, A1. unfold bind at 1.
    rewrite (IH _ _ A). unfold ret. simpl. rewrite <- app_assoc. reflexivity.
Qed.

Lemma map_M_create_fail oid (l : list (CartItem num)) (d : DB num) k :
  after_writes k (List.length l) = None ->
  fails (map_M (tx_orderItem_create oid) l) (mkWorld d k).
Proof.
  revert d k. induction l as [|c l IH]; intros d k A; [discriminate|].
  change (List.length (c :: l)) with (1 + List.length l)%nat in A.
  rewrite after_writes_add in A.
  simpl map_M. unfold fails, bind at 1. unfold tx_orderItem_create at 1.
  rewrite tx_write_run.
  destruct (after_writes k 1) as [k1|]; [|eauto].
  simpl. unfold bind at 1.
  edestruct IH as (e & w' & R); [exact A|]. rewrite R. eauto.
Qed.

Section Stock.
Context {A : Type} (id_of : A -> string) (n_of : A -> Z).

Lemma stock_loop_ok (l : list A) (d : DB num) k k' ps' :
  after_writes k (List.length l) = Some k' ->
  move_stock (products d) (map (fun a => (id_of a, n_of a)) l) = Some ps' ->
  for_each (fun a => tx_stock_increment (id_of a) (n_of a)) l (mkWorld d k)
  = (inr tt, mkWorld (set_products d ps') k').
Proof.
  revert d k. induction l as [|a l IH]; intros d k W S.
  - simpl in *. injection W as <-. injection S as <-.
    unfold ret, set_products. now destruct d.
  - change (List.length (a :: l)) with (1 + List.length l)%nat in W.
    rewrite after_writes_add in W.
    destruct (after_writes k 1) as [k1|] eqn:W1; [|discriminate].
    simpl in S.
    destruct (increment_stock (products d) (id_of a) (n_of a)) as [ps1|] eqn:I;
      [|discriminate].
    simpl for_each. unfold bind at 1.
    unfold tx_stock_increment at 1. rewrite tx_write_run, W1, I. simpl.
    apply (IH (set_products d ps1) k1 W S).
Qed.

Lemma stock_loop_fail (l : list A) (d : DB num) k :
  after_writes k (List.length l) = None
  \/ move_stock (products d) (map (fun a => (id_of a, n_of a)) l) = None ->
  fails (for_each (fun a => tx_stock_increment (id_of a) (n_of a)) l)
        (mkWorld d k).
Proof.
  revert d k. induction l as [|a l IH]; intros d k F.
  - destruct F; discriminate.
  - change (List.length (a :: l)) with (1 + List.length l)%nat in F.
    rewrite after_writes_add in F. simpl move_stock in F.
    unfold fails. simpl for_each. unfold bind at 1.
    unfold tx_stock_increment at 1. rewrite tx_write_run.
    destruct (after_writes k 1) as [k1|]; [|eauto].
    destruct (increment_stock (products d) (id_of a) (n_of a)) as [ps1|];
      simpl; [|eauto].
    apply (IH (set_products d ps1) k1). exact F.
Qed.

End Stock.

(** *** Stock *)

Lemma restock_0 (p : Product num) : restock p 0 = p.
Proof. destruct p. unfold restock. simpl. now rewrite Z.add_0_r. Qed.

Lemma restock_restock (p : Product num) a b :
  restock (restock p a) b = restock p (a + b).
Proof. unfold restock. simpl. now rewrite Z.add_assoc. Qed.

Lemma increment_stock_find (ps ps' : list (Product num)) id n :
  increment_stock ps id n = Some ps' ->
  map p_id ps' = map p_id ps
  /\ forall i,
       find (fun p => String.eqb (p_id p) i) ps'
       = option_map (fun p => restock p (if String.eqb id i then n else 0))
                    (find (fun p => String.eqb (p_id p) i) ps).
Proof.
  revert ps'. induction ps as [|x ps IH]; simpl; intros ps'; [discriminate|].
  destruct (String.eqb_spec (p_id x) id) as [E|E].
  - intros [= <-]. split; [reflexivity|]. intros i. simpl.
    destruct (String.eqb_spec (p_id x) i) as [Ei|Ei]; simpl.
    + rewrite <- E, <- Ei, String.eqb_refl. reflexivity.
    + destruct (find _ ps) as [y|]; simpl; [|reflexivity].
      rewrite <- E. destruct (String.eqb_spec (p_id x) i); [contradiction|].
      now rewrite restock_0.
  - destruct (increment_stock ps id n) as [ps1|]; [|discriminate].
    intros [= <-]. destruct (IH ps1 eq_refl) as [Ids F].
    split; [simpl; now rewrite Ids|]. intros i. simpl.
    destruct (String.eqb_spec (p_id x) i) as [Ei|Ei]; simpl; [|apply F].
    destruct (String.eqb_spec id i) as [Ej|Ej]; [congruence|].
    now rewrite restock_0.
Qed.

Lemma increment_stock_total (ps : list (Product num)) id n :
  In id (map p_id ps) -> exists ps', increment_stock ps id n = Some ps'.
Proof.
  induction ps as [|x ps IH]; simpl; [tauto|].
  destruct (String.eqb_spec (p_id x) id) as [E|E]; [eauto|].
  intros [I|I]; [contradiction|].
  destruct (IH I) as (ps' & ->). simpl. eauto.
Qed.

Lemma moved_cons id n moves i :
  moved ((id, n) :: moves) i
  = (if String.eqb id i then n else 0) + moved moves i.
Proof.
  unfold moved. simpl. destruct (String.eqb id i); reflexivity.
Qed.

(** The stock after a list of moves: every product has moved by the sum of
    the moves that name it. *)
Lemma move_stock_find (moves : list (string * Z)) (ps ps' : list (Product num)) :
  move_stock ps moves = Some ps' ->
  map p_id ps' = map p_id ps
  /\ forall i,
       find (fun p => String.eqb (p_id p) i) ps'
       = option_map (fun p => restock p (moved moves i))
                    (find (fun p => String.eqb (p_id p) i) ps).
Proof.
  revert ps. induction moves as [|[id n] moves IH]; simpl; intros ps.
  - intros [= <-]. split; [reflexivity|]. intros i.
    destruct (find _ ps); simpl; [|reflexivity].
    unfold moved. simpl. now rewrite restock_0.
  - destruct (increment_stock ps id n) as [ps1|] eqn:I; [|discriminate].
    intros S. destruct (increment_stock_find _ _ _ _ I) as [Ids1 F1].
    destruct (IH _ S) as [Ids F]. split; [congruence|]. intros i.
    rewrite F, F1, moved_cons. destruct (find _ ps); simpl; [|reflexivity].
    now rewrite restock_restock.
Qed.

Lemma move_stock_total (moves : list (string * Z)) (ps : list (Product num)) :
  Forall (fun m => In (fst m) (map p_id ps)) moves ->
  exists ps', move_stock ps moves = Some ps'.
Proof.
  revert ps. induction moves as [|[id n] moves IH]; simpl; intros ps F.
  - eauto.
  - inversion F as [|? ? I F']; subst. simpl in I.
    destruct (increment_stock_total ps id n I) as (ps1 & E). rewrite E.
    apply IH. destruct (increment_stock_find _ _ _ _ E) as [-> _]. exact F'.
Qed.

End TxWrites.

(* ------------------------------------------------------------------ *)
(** ** Fresh identifiers *)

Section Fresh.
Context {num : Type}.

Lemma length_append (a b : string) :
  String.length (a ++ b) = (String.length a + String.length b)%nat.
Proof. induction a as [|c a IH]; simpl; [reflexivity|now rewrite IH]. Qed.

Lemma length_concat_ge (l : list string) (s : string) :
  In s l -> (String.length s <= String.length (String.concat "" l))%nat.
Proof.
  induction l as [|x l IH]; simpl; [tauto|].
  intros I. destruct l as [|y l].
  - destruct I as [->|[]]. lia.
  - rewrite length_append. simpl String.append.
    destruct I as [->|I]; [lia|]. specialize (IH I). lia.
Qed.

Lemma cuid_fresh (d : DB num) : ~ In (cuid d) (db_ids d).
Proof.
  intros I. apply length_concat_ge in I. unfold cuid in I. simpl in I. lia.
Qed.

Lemma cuid_not_order_id (d : DB num) : ~ In (cuid d) (map o_id (orders d)).
Proof.
  intros I. apply (cuid_fresh d). unfold db_ids.
  apply in_or_app. right. apply in_or_app. right. apply in_or_app. left.
  apply in_map_iff in I as (o & E & I). apply in_flat_map.
  exists o. split; [exact I|]. simpl. tauto.
Qed.

Lemma cuid_not_item_order (d : DB num) :
  Forall (fun i => String.eqb (oi_orderId i) (cuid d) = false) (orderItems d).
Proof.
  apply Forall_forall. intros i I. apply String.eqb_neq. intros E.
  apply (cuid_fresh d). unfold db_ids.
  apply in_or_app. right. apply in_or_app. right. apply in_or_app. right.
  apply in_flat_map. exists i. split; [exact I|]. simpl. tauto.
Qed.

Lemma filter_none {A} (f : A -> bool) (l : list A) :
  Forall (fun a => f a = false) l -> filter f l = [].
Proof.
  induction 1 as [|a l E _ IH]; simpl; [reflexivity|]. now rewrite E.
Qed.

Lemma filter_all {A} (f : A -> bool) (l : list A) :
  Forall (fun a => f a = true) l -> filter f l = l.
Proof.
  induction 1 as [|a l E _ IH]; simpl; [reflexivity|]. now rewrite E, IH.
Qed.

End Fresh.

(* ------------------------------------------------------------------ *)
(** ** Creating an order *)

Section CreateOrder.
Context {num : Type} `{JSNumber num} `{scan : ScanOrder}.
Import CartService OrderService.

Lemma new_order_items_lines oid (l : list (CartItem num)) (d : DB num) :
  Forall2 (fun c i => oi_orderId i = oid
                      /\ oi_productId i = ci_productId (ci_row c)
                      /\ oi_quantity i = ci_quantity (ci_row c)
                      /\ oi_price i = snapshot_price c)
          l (new_order_items oid d l).
Proof.
  revert d. induction l as [|c l IH]; intros d; simpl; constructor.
  - simpl. repeat split.
  - apply IH.
Qed.

Lemma new_order_items_order oid (l : list (CartItem num)) (d : DB num) :
  Forall (fun i => String.eqb (oi_orderId i) oid = true)
         (new_order_items oid d l).
Proof.
  revert d. induction l as [|c l IH]; intros d; simpl; constructor.
  - simpl. apply String.eqb_refl.
  - apply IH.
Qed.

(** The transaction of [createOrder] when the database fails none of its
    [2 n + 2] writes. *)
Lemma createOrder_tx_ok (d : DB num) k k' ps' u data addr
    (l : list (CartItem num)) :
  after_writes k (2 * List.length l + 2) = Some k' ->
  move_stock (products d) (cart_moves l) = Some ps' ->
  let o := mkOrderRow (cuid d) u PENDING (total (calculateCartSummary l)) addr
                      (paymentMethod data) PAY_PENDING in
  let its := new_order_items (cuid d) (set_orders d (orders d ++ [o])) l in
  createOrder_tx u data addr (calculateCartSummary l) (mkWorld d k)
  = (inr (Some (mkOrder o its)),
     mkWorld (mkDB ps' (without_user u (cartItems d)) (orders d ++ [o])
                   (orderItems d ++ its)) k').
Proof.
  intros W S o its.
  replace (2 * List.length l + 2)%nat
    with (1 + (List.length l + (List.length l + 1)))%nat in W by lia.
  rewrite after_writes_add in W.
  destruct (after_writes k 1) as [k1|] eqn:W1; [|discriminate].
  rewrite after_writes_add in W.
  destruct (after_writes k1 (List.length l)) as [k2|] eqn:W2; [|discriminate].
  rewrite after_writes_add in W.
  destruct (after_writes k2 (List.length l)) as [k3|] eqn:W3; [|discriminate].
  unfold createOrder_tx. unfold bind at 1. unfold tx_order_create.
  rewrite tx_write_run, W1.
  replace (match paymentMethod data with cash | _ => PAY_PENDING end)
    with PAY_PENDING by now destruct (paymentMethod data).
  fold o. rewrite !items_calculateCartSummary.
  unfold bind at 1. simpl o_id.
  rewrite (map_M_create_ok _ _ _ _ _ W2). fold its.
  unfold bind at 1.
  erewrite (stock_loop_ok (fun c : CartItem num => ci_productId (ci_row c))
              (fun c => - ci_quantity (ci_row c)) l _ k2 k3 ps');
    [|exact W3|exact S].
  unfold bind at 1. unfold tx_cartItem_deleteMany. rewrite tx_write_run, W.
  unfold query, find_order, with_items, items_of_order, set_cartItems,
    set_products, set_orderItems, set_orders.
  cbn [db products cartItems orders orderItems].
  rewrite (find_app_none _ _ o);
    [|apply find_none_of_fresh_id, cuid_not_order_id|apply String.eqb_refl].
  cbn [option_map]. subst its o. cbn [o_id].
  rewrite filter_app, (filter_none _ _ (cuid_not_item_order d)).
  rewrite (filter_all _ _ (new_order_items_order _ _ _)). reflexivity.
Qed.

(** The transaction throws when the database fails one of the writes. *)
Lemma createOrder_tx_fail (d : DB num) k u data addr (l : list (CartItem num)) :
  after_writes k (2 * List.length l + 2) = None
  \/ move_stock (products d) (cart_moves l) = None ->
  fails (createOrder_tx u data addr (calculateCartSummary l)) (mkWorld d k).
Proof.
  intros F.
  replace (2 * List.length l + 2)%nat
    with (1 + (List.length l + (List.length l + 1)))%nat in F by lia.
  unfold fails, createOrder_tx. unfold bind at 1. unfold tx_order_create.
  rewrite tx_write_run. rewrite after_writes_add in F.
  destruct (after_writes k 1) as [k1|]; [|eauto].
  rewrite !items_calculateCartSummary. unfold bind at 1. simpl o_id.
  rewrite after_writes_add in F.
  destruct (after_writes k1 (List.length l)) as [k2|] eqn:W2.
  2:{ edestruct map_M_create_fail as (e & w' & R); [exact W2|].
      rewrite R. eauto. }
  rewrite (map_M_create_ok _ _ _ _ _ W2). unfold bind at 1.
  rewrite after_writes_add in F.
  destruct (after_writes k2 (List.length l)) as [k3|] eqn:W3.
  2:{ edestruct (stock_loop_fail (num:=num)
                   (fun c : CartItem num => ci_productId (ci_row c))
                   (fun c => - ci_quantity (ci_row c)) l) as (e & w' & R);
        [left; exact W3|].
      rewrite R. eauto. }
  destruct (move_stock (products d) (cart_moves l)) as [ps'|] eqn:S.
  2:{ match goal with
      | |- context [for_each _ l (mkWorld ?d1 _)] =>
          destruct (stock_loop_fail (num:=num)
                      (fun c : CartItem num => ci_productId (ci_row c))
                      (fun c => - ci_quantity (ci_row c)) l d1 k2)
            as (e & w' & R); [right; exact S|]
      end.
      rewrite R. eauto. }
  erewrite (stock_loop_ok (fun c : CartItem num => ci_productId (ci_row c))
              (fun c => - ci_quantity (ci_row c)) l _ k2 k3 ps');
    [|exact W3|exact S].
  unfold bind at 1. unfold tx_cartItem_deleteMany. rewrite tx_write_run.
  destruct F as [F|F]; [|discriminate]. rewrite F. eauto.
Qed.

Lemma validateCart_run (w : World num) u :
  validateCart u w
  = match join_products (db w) (unordered (cart_rows (db w) u)) with
    | Some l =>
        (inr {| isValid := (List.length (validation_errors l) =? 0)%nat;
                errors := validation_errors l;
                cart := calculateCartSummary l |}, w)
    | None => (inl PrismaError, w)
    end.
Proof.
  unfold validateCart, bind. rewrite findMany_run.
  destruct (join_products _ _); reflexivity.
Qed.

Lemma validation_errors_nil (l : list (CartItem num)) :
  validation_errors l = [] -> l <> [] /\ stock_errors l = [].
Proof.
  unfold validation_errors. destruct l as [|c l]; simpl; [discriminate|].
  intros E. split; [discriminate|exact E].
Qed.

(** [createOrder], step by step. *)
Lemma createOrder_run (w : World num) u data :
  createOrder u data w
  = match join_products (db w) (unordered (cart_rows (db w) u)) with
    | None => (inl PrismaError, w)
    | Some l =>
        match validation_errors l with
        | _ :: _ => (inl (CartValidationFailedWith (validation_errors l)), w)
        | [] =>
            match transaction (createOrder_tx u data (shipping_address data)
                                 (calculateCartSummary l)) w with
            | (inl e, w') => (inl e, w')
            | (inr (Some o), w') => (inr o, w')
            | (inr None, w') => (inl FailedToCreateOrder, w')
            end
        end
    end.
Proof.
  unfold createOrder. unfold bind at 1. rewrite validateCart_run.
  destruct (join_products _ _) as [l|]; [|reflexivity].
  cbn [isValid errors cart].
  destruct (validation_errors l) as [|e es] eqn:V; simpl; [|reflexivity].
  destruct (validation_errors_nil l V) as [N _].
  rewrite items_calculateCartSummary.
  destruct l as [|c l]; [contradiction|]. simpl. unfold bind.
  destruct (transaction _ w) as [[e|[o|]] w']; reflexivity.
Qed.

Lemma sum_Z_opp (l : list Z) : sum_Z (map Z.opp l) = - sum_Z l.
Proof. induction l as [|x l IH]; simpl; [reflexivity|]. rewrite IH. lia. Qed.

Lemma moved_cart_moves (l : list (CartItem num)) id :
  moved (cart_moves l) id = - ordered l id.
Proof.
  unfold moved, ordered, cart_moves. rewrite <- sum_Z_opp. f_equal.
  induction l as [|c l IH]; simpl; [reflexivity|].
  destruct (String.eqb (ci_productId (ci_row c)) id); simpl; now rewrite IH.
Qed.

Lemma ordered_absent (l : list (CartItem num)) id :
  ~ In id (map (fun c => ci_productId (ci_row c)) l) -> ordered l id = 0.
Proof.
  unfold ordered. induction l as [|c l IH]; simpl; [reflexivity|]. intros N.
  destruct (String.eqb_spec (ci_productId (ci_row c)) id); [tauto|].
  apply IH. tauto.
Qed.

(** A product that the cart holds once is ordered in the quantity of its
    line. *)
Lemma ordered_unique (l : list (CartItem num)) c :
  NoDup (map (fun c => ci_productId (ci_row c)) l) -> In c l ->
  ordered l (ci_productId (ci_row c)) = quantity_of c.
Proof.
  induction l as [|x l IH]; simpl; [tauto|]. intros D I.
  inversion D as [|? ? Hx D']; subst.
  assert (U : forall y, ordered (x :: l) y
              = (if String.eqb (ci_productId (ci_row x)) y
                 then quantity_of x else 0) + ordered l y).
  { intros y. unfold ordered. simpl.
    destruct (String.eqb (ci_productId (ci_row x)) y); reflexivity. }
  rewrite U. destruct I as [->|I].
  - rewrite String.eqb_refl, (ordered_absent l _ Hx). lia.
  - destruct (String.eqb_spec (ci_productId (ci_row x)) (ci_productId (ci_row c)))
      as [E|E].
    + exfalso. apply Hx. rewrite E.
      now apply (in_map (fun c => ci_productId (ci_row c))).
    + now rewrite (IH D' I).
Qed.

Lemma cart_rows_without_user (d : DB num) u cs :
  cart_rows (set_cartItems d (without_user u cs)) u = [].
Proof.
  unfold cart_rows, without_user. simpl. apply filter_none, Forall_forall.
  intros r I. apply filter_In in I as [_ N].
  now destruct (String.eqb (ci_userId r) u).
Qed.

Lemma cart_rows_without_other (d : DB num) u u' :
  u' <> u ->
  cart_rows (set_cartItems d (without_user u (cartItems d))) u'
  = cart_rows d u'.
Proof.
  intros N. unfold cart_rows, without_user. simpl.
  induction (cartItems d) as [|r cs IH]; simpl; [reflexivity|].
  destruct (String.eqb_spec (ci_userId r) u) as [E|E]; simpl.
  - destruct (String.eqb_spec (ci_userId r) u'); [congruence|exact IH].
  - destruct (String.eqb (ci_userId r) u'); [now rewrite IH|exact IH].
Qed.

Lemma joined_products_exist (d : DB num) rows l :
  join_products d rows = Some l ->
  Forall (fun m => In (fst m) (map p_id (products d))) (cart_moves l).
Proof.
  intros J. apply join_products_rows in J as [_ F]. unfold cart_moves.
  apply Forall_map. apply (Forall_impl _ (P := fun i =>
    find_product d (ci_productId (ci_row i)) = Some (ci_product i))); [|exact F].
  intros c P. simpl. unfold find_product in P. apply find_some in P as [I E].
  apply String.eqb_eq in E. rewrite <- E. now apply in_map.
Qed.

Lemma validated_cart (w : World num) u v :
  validateCart u w = (inr v, w) -> isValid v = true ->
  exists l,
    join_products (db w) (unordered (cart_rows (db w) u)) = Some l
    /\ validation_errors l = []
    /\ cart v = calculateCartSummary l.
Proof.
  rewrite validateCart_run.
  destruct (join_products _ _) as [l|]; [|discriminate].
  intros [= <-]. simpl. intros V. exists l. repeat split.
  destruct (validation_errors l); [reflexivity|discriminate].
Qed.

Lemma createOrder_commits (w : World num) u data l k' :
  join_products (db w) (unordered (cart_rows (db w) u)) = Some l ->
  validation_errors l = [] ->
  after_writes (fault w) (2 * List.length l + 2) = Some k' ->
  exists o d',
    createOrder u data w = (inr o, mkWorld d' k')
    /\ checked_out (db w) d' u l o
    /\ o_totalAmount (order_row o) = total (calculateCartSummary l).
Proof.
  intros J V W.
  destruct (move_stock_total _ _ (joined_products_exist _ _ _ J)) as (ps' & S).
  rewrite createOrder_run, J, V. unfold transaction.
  destruct w as [d k]. simpl in *.
  rewrite (createOrder_tx_ok d k k' ps' u data _ l W S).
  eexists _, _. split; [reflexivity|]. split; [|reflexivity].
  destruct (move_stock_find _ _ _ S) as [Ids F].
  unfold checked_out. cbn [order_row order_items o_userId o_status
                           o_paymentStatus o_id orders orderItems products].
  repeat split.
  - apply new_order_items_lines.
  - exact Ids.
  - intros id. unfold stock_of, find_product. cbn [products].
    rewrite F, moved_cart_moves.
    destruct (find _ (products d)); reflexivity.
  - apply (cart_rows_without_user d).
  - intros u' N. apply (cart_rows_without_other d u u' N).
Qed.

Lemma createOrder_rolls_back (w : World num) u data l :
  join_products (db w) (unordered (cart_rows (db w) u)) = Some l ->
  validation_errors l = [] ->
  after_writes (fault w) (2 * List.length l + 2) = None ->
  exists e w', createOrder u data w = (inl e, w') /\ db w' = db w.
Proof.
  intros J V W. rewrite createOrder_run, J, V. unfold transaction.
  destruct w as [d k]. simpl in *.
  destruct (createOrder_tx_fail d k u data (shipping_address data) l
              (or_introl W)) as (e & w' & R).
  rewrite R. eexists _, _. split; reflexivity.
Qed.


End CreateOrder.


(* ------------------------------------------------------------------ *)
(** ** Validation before checkout *)

Section Validation.
Context {num : Type} `{JSNumber num} `{scan : ScanOrder}.
Import CartService OrderService.

Lemma stock_errors_in (l : list (CartItem num)) name s q :
  In (VOnlyAvailable name s q) (stock_errors l)
  <-> exists c, In c l
                /\ name = p_name (ci_product c)
                /\ s = p_stock (ci_product c)
                /\ q = ci_quantity (ci_row c)
                /\ s < q.
Proof.
  unfold stock_errors. rewrite in_flat_map. split.
  - intros (c & I & E). exists c. split; [exact I|].
    destruct (Z.ltb_spec (p_stock (ci_product c)) (ci_quantity (ci_row c)));
      [|destruct E].
    destruct E as [[= <- <- <-]|[]]. repeat split. assumption.
  - intros (c & I & -> & -> & -> & L). exists c. split; [exact I|].
    destruct (Z.ltb_spec (p_stock (ci_product c)) (ci_quantity (ci_row c)));
      [left; reflexivity|lia].
Qed.

(** C1 (as the code has it). [createOrder] does not run
    [syncCartWithStock]: it validates the cart rows as they are stored.
    With the user's rows [l] read from the database, the call throws
    'Cart validation failed' listing 'Cart is empty' when there is no row,
    and listing the lines whose quantity exceeds the stock of their product
    (those and no others) when there is one; in both cases the world, and
    so the orders table, is the one before the call. *)
Theorem createOrder_validates_stored_cart
    (w : World num) (u : string) (data : CreateOrderData)
    (l : list (CartItem num))
    (Hrows : join_products (db w) (unordered (cart_rows (db w) u)) = Some l) :
  validateCart u w
  = (inr {| isValid := (List.length (validation_errors l) =? 0)%nat;
            errors := validation_errors l;
            cart := calculateCartSummary l |}, w)
  /\ (l = [] ->
       createOrder u data w = (inl (CartValidationFailedWith [VCartIsEmpty]), w))
  /\ ((exists c, In c l /\ p_stock (ci_product c) < ci_quantity (ci_row c)) ->
       createOrder u data w
       = (inl (CartValidationFailedWith (stock_errors l)), w))
  /\ (forall name s q,
        In (VOnlyAvailable name s q) (stock_errors l)
        <-> exists c, In c l
                      /\ name = p_name (ci_product c)
                      /\ s = p_stock (ci_product c)
                      /\ q = ci_quantity (ci_row c)
                      /\ s < q)
  /\ (forall es, kind (CartValidationFailedWith es) = CartValidationFailed).
Proof.
  split; [|split; [|split; [|split]]].
  - rewrite validateCart_run, Hrows. reflexivity.
  - intros ->. rewrite createOrder_run, Hrows. reflexivity.
  - intros (c & I & L). rewrite createOrder_run, Hrows.
    assert (E : In (VOnlyAvailable (p_name (ci_product c))
                      (p_stock (ci_product c)) (ci_quantity (ci_row c)))
                   (stock_errors l)).
    { apply stock_errors_in. exists c. repeat split; assumption. }
    destruct l as [|x l]; [destruct I|].
    change (validation_errors (x :: l)) with (stock_errors (x :: l)).
    destruct (stock_errors (x :: l)); [destruct E|reflexivity].
  - apply stock_errors_in.
  - reflexivity.
Qed.

End Validation.

Lemma createOrder_validates_stored_cart_witness :
  join_products (db (@sold_out_world float _)) (unordered (cart_rows (db sold_out_world) "dave"))
  = Some [mkCartItem (mkCartItemRow "c3" "dave" "C" 2) lamp]
  /\ OrderService.createOrder "dave" alice_data (@sold_out_world float _)
     = (inl (CartValidationFailedWith [VOnlyAvailable "Lamp" 0 2]),
        sold_out_world).
Proof.
  split; [reflexivity|].
  destruct (createOrder_validates_stored_cart (scan:=creation_order)
              (@sold_out_world float _) "dave" alice_data _ eq_refl)
    as (_ & _ & Hstock & _).
  apply Hstock. eexists. split; [left; reflexivity|]. simpl. lia.
Defined.

(** C1, as stated, fails.  Dave's only cart line is a product that is out
    of stock: a sync would remove it and leave no items, yet [createOrder]
    throws the validation error about the stock, not 'Cart is empty', and
    the line is still in the cart afterwards. *)
Lemma createOrder_does_not_sync :
  (exists r w',
     CartService.syncCartWithStock "dave" (@sold_out_world float _) = (inr r, w')
     /\ cart_rows (db w') "dave" = [])
  /\ (exists e w',
        OrderService.createOrder "dave" alice_data (@sold_out_world float _)
        = (inl e, w')
        /\ kind e = CartValidationFailed
        /\ kind e <> CartEmpty
        /\ cart_rows (db w') "dave" = [mkCartItemRow "c3" "dave" "C" 2]).
Proof.
  split.
  - eexists _, _. split; [vm_compute; reflexivity|reflexivity].
  - eexists _, _. split; [vm_compute; reflexivity|].
    repeat split. discriminate.
Qed.

(* ------------------------------------------------------------------ *)
(** ** The prices of an order *)

Section Prices.
Context {num : Type} `{JSNumber num} `{scan : ScanOrder}.
Import CartService OrderService.

(** An order that [createOrder] returned was checked out of the rows the
    user's cart held. *)
Lemma createOrder_returned (w w' : World num) u data o :
  createOrder u data w = (inr o, w') ->
  exists l,
    join_products (db w) (unordered (cart_rows (db w) u)) = Some l
    /\ validation_errors l = []
    /\ checked_out (db w) (db w') u l o
    /\ o_totalAmount (order_row o) = total (calculateCartSummary l).
Proof.
  intros R. pose proof R as R0. rewrite createOrder_run in R.
  destruct (join_products _ _) as [l|] eqn:J; [|discriminate].
  destruct (validation_errors l) eqn:V; [|discriminate]. clear R.
  exists l. split; [reflexivity|]. split; [exact V|].
  destruct (after_writes (fault w) (2 * List.length l + 2)) as [k'|] eqn:W.
  - destruct (createOrder_commits w u data l k' J V W) as (o1 & d' & R1 & C & T).
    rewrite R1 in R0. injection R0 as <- <-. split; assumption.
  - destruct (createOrder_rolls_back w u data l J V W) as (e & w1 & R1 & _).
    rewrite R1 in R0. discriminate.
Qed.

Lemma snapshot_price_reduced (c : CartItem num) :
  match p_discount (ci_product c) with
  | Some d => num_truthy d = true
  | None => True
  end ->
  snapshot_price c = reduced_price (ci_product c).
Proof.
  unfold snapshot_price, reduced_price.
  destruct (p_discount (ci_product c)) as [d|]; [|reflexivity].
  now intros ->.
Qed.

(** C5 (as the code has it). Every order item that [createOrder] stores
    carries, unrounded, the price of the product as the database has it at
    the call, reduced by the product's discount percentage:
    [price * (1 - discount / 100)], and the price itself when the discount
    is null or zero. *)
Theorem createOrder_snapshots_reduced_price
    (w w' : World num) (u : string) (data : CreateOrderData) (o : Order num)
    (Hreturned : createOrder u data w = (inr o, w')) :
  exists l,
    join_products (db w) (unordered (cart_rows (db w) u)) = Some l
    /\ Forall2 (fun c i =>
                  find_product (db w) (oi_productId i) = Some (ci_product c)
                  /\ oi_price i
                     = match p_discount (ci_product c) with
                       | Some discount =>
                           if num_truthy discount
                           then (p_price (ci_product c)
                                 * (num_of_Z 1 - discount / num_of_Z 100))%js
                           else p_price (ci_product c)
                       | None => p_price (ci_product c)
                       end)
               l (order_items o).
Proof.
  destruct (createOrder_returned w w' u data o Hreturned) as (l & J & _ & C & _).
  exists l. split; [exact J|].
  destruct C as (_ & _ & _ & _ & _ & L & _).
  destruct (join_products_rows _ _ _ J) as [_ P]. clear J Hreturned.
  revert P. induction L as [|c i l its (_ & Ep & _ & Epr) L IH]; intros P.
  - constructor.
  - inversion P as [|? ? Pc P']; subst. constructor; [|now apply IH].
    split; [now rewrite Ep|exact Epr].
Qed.

End Prices.

Lemma createOrder_snapshots_reduced_price_witness :
  exists o w' i,
    OrderService.createOrder "carol" alice_data (@gadget_world float _)
    = (inr o, w')
    /\ order_items o = [i]
    /\ oi_price i = 0.125%float.
Proof.
  assert (R : exists o w',
            OrderService.createOrder "carol" alice_data (@gadget_world float _)
            = (inr o, w')).
  { eexists _, _. vm_compute. reflexivity. }
  destruct R as (o & w' & R).
  destruct (createOrder_snapshots_reduced_price _ _ _ _ _ R) as (l & J & L).
  injection J as <-.
  inversion L as [|c i l1 l2 (_ & Ep) L' E1 E2]; subst.
  inversion L'; subst.
  exists o, w', i. split; [exact R|]. split; [congruence|].
  rewrite Ep. vm_compute. reflexivity.
Defined.

(** C5, as stated, fails: a gadget costs 0.25 with 50% off; the order item
    stores 0.125, which rounded to two decimals is 0.13. *)
Lemma createOrder_price_not_rounded :
  exists o w' i,
    OrderService.createOrder "carol" alice_data (@gadget_world float _)
    = (inr o, w')
    /\ order_items o = [i]
    /\ oi_price i = 0.125%float
    /\ round2 (reduced_price (@gadget float _)) = cents 13
    /\ PrimFloat.eqb (oi_price i) (round2 (reduced_price (@gadget float _)))
       = false.
Proof.
  eexists _, _, _. split; [vm_compute; reflexivity|].
  split; [reflexivity|]. repeat split; vm_compute; reflexivity.
Qed.

(* ------------------------------------------------------------------ *)
(** ** The frozen total *)

Section ExactTotals.
Import CartService OrderService.
Local Open Scope Q_scope.

Lemma round2_comp (x y : Q) : x == y -> round2 x == round2 y.
Proof.
  intros E. unfold round2, Math_round, num_mul, num_div, num_of_Z, JSNumber_Q,
    Q_round. now rewrite E.
Qed.

(** In exact arithmetic the line total of an order item is the line's
    subtotal less the line's discount. *)
Lemma line_total_exact (c : CartItem Q) (i : OrderItemRow Q) :
  oi_price i = snapshot_price c ->
  oi_quantity i = ci_quantity (ci_row c) ->
  line_total i == line_subtotal c - line_discount c.
Proof.
  unfold line_total, line_discount, line_subtotal, discount_pct, quantity_of,
    snapshot_price.
  intros -> ->. cbn [num_mul num_sub num_div num_of_Z num_truthy JSNumber_Q].
  change (inject_Z 100) with 100. change (inject_Z 1) with 1.
  change (inject_Z 0) with 0.
  destruct (p_discount (ci_product c)) as [d|].
  - destruct (Qeq_bool d 0) eqn:Z; simpl negb; cbv iota.
    + apply Qeq_bool_eq in Z. rewrite Z. field.
    + field.
  - field.
Qed.

Lemma line_totals_exact (l : list (CartItem Q)) (its : list (OrderItemRow Q)) :
  Forall2 (fun c i => oi_price i = snapshot_price c
                      /\ oi_quantity i = ci_quantity (ci_row c)) l its ->
  forall a b c : Q,
    a == b - c ->
    fold_left (fun acc i => (acc + line_total i)%js) its a
    == fold_left (fun acc i => (acc + line_subtotal i)%js) l b
       - fold_left (fun acc i => (acc + line_discount i)%js) l c.
Proof.
  induction 1 as [|x i l its [Ep Eq] _ IH]; intros a b c E; simpl.
  - exact E.
  - apply IH.
    change (a + line_total i
            == (b + line_subtotal x) - (c + line_discount x)).
    rewrite E, (line_total_exact x i Ep Eq). ring.
Qed.

End ExactTotals.

(** C9 (as the code has it). The [totalAmount] of an order that
    [createOrder] returns is the total of the cart summary:
    [round2 (Σ price×qty − Σ price×qty×discountPct/100)] over the cart lines
    it was made of, summed in the order in which the database returned
    them.  In exact arithmetic this is [round2] of the sum of the line
    totals (unit price × quantity) of its own order items. *)
Theorem createOrder_total_amount :
  (forall num (J : JSNumber num) (scan : ScanOrder) (w w' : World num)
          (u : string) (data : CreateOrderData) (o : Order num),
     OrderService.createOrder u data w = (inr o, w') ->
     exists l,
       join_products (db w) (unordered (cart_rows (db w) u)) = Some l
       /\ o_totalAmount (order_row o)
          = round2 (sum_over line_subtotal l - sum_over line_discount l)%js)
  /\ (forall (scan : ScanOrder) (w w' : World Q) (u : string)
             (data : CreateOrderData) (o : Order Q),
        OrderService.createOrder u data w = (inr o, w') ->
        (o_totalAmount (order_row o)
         == round2 (sum_over line_total (order_items o)))%Q).
Proof.
  split.
  - intros num J scan w w' u data o R.
    destruct (createOrder_returned w w' u data o R) as (l & Jn & _ & _ & T).
    exists l. split; [exact Jn|]. rewrite T, calculateCartSummary_fields.
    reflexivity.
  - intros scan w w' u data o R.
    destruct (createOrder_returned w w' u data o R) as (l & _ & _ & C & T).
    rewrite T, calculateCartSummary_fields. cbn [CartService.total].
    apply round2_comp. symmetry. unfold sum_over.
    destruct C as (_ & _ & _ & _ & _ & L & _).
    apply line_totals_exact.
    + revert L. apply Forall2_impl. intros c i (_ & _ & Eq & Ep). now split.
    + cbn [num_of_Z num_sub JSNumber_Q]. reflexivity.
Qed.

Lemma createOrder_total_amount_witness :
  exists o w',
    OrderService.createOrder "alice" alice_data (@shop_world Q _) = (inr o, w')
    /\ (o_totalAmount (order_row o)
        == round2 (sum_over line_total (order_items o)))%Q
    /\ (o_totalAmount (order_row o) == 300)%Q.
Proof.
  assert (R : exists o w',
            OrderService.createOrder "alice" alice_data (@shop_world Q _)
            = (inr o, w')
            /\ (o_totalAmount (order_row o) == 300)%Q).
  { eexists _, _. split; vm_compute; reflexivity. }
  destruct R as (o & w' & R & T). exists o, w'.
  split; [exact R|]. split; [|exact T].
  exact (proj2 createOrder_total_amount _ _ _ _ _ _ R).
Defined.

(** A cart of one row is read the same in every order, so what
    [createOrder] does with it does not depend on the order in which the
    database returns rows. *)
Lemma createOrder_one_row {num} `{JSNumber num} (scan : ScanOrder)
    (w : World num) (u : string) (data : CreateOrderData) (r : CartItemRow) :
  cart_rows (db w) u = [r] ->
  OrderService.createOrder (scan:=scan) u data w
  = OrderService.createOrder (scan:=creation_order) u data w.
Proof.
  intros E. rewrite !createOrder_run, E, !unordered_one. reflexivity.
Qed.

(** C9, as stated, fails on the doubles the program computes with: five
    rolls of tape at 0.18 with 15% off are frozen at 0.76, while the line
    total of the order item, rounded to two decimals, is 0.77.  The unit
    price of the item is the double nearest to 0.153, a decimal of three
    digits that a database column returns as it was stored, and the cart
    has one row, so the order of a scan plays no part. *)
Lemma createOrder_total_differs_from_lines :
  exists o w',
    OrderService.createOrder (scan:=creation_order) "gina" alice_data
      (@tape_world float _)
    = (inr o, w')
    /\ map oi_price (order_items o) = [(num_of_Z 153 / num_of_Z 1000)%js]
    /\ map oi_quantity (order_items o) = [5]
    /\ o_totalAmount (order_row o) = cents 76
    /\ round2 (sum_over line_total (order_items o)) = cents 77
    /\ PrimFloat.eqb (o_totalAmount (order_row o))
                     (round2 (sum_over line_total (order_items o))) = false.
Proof.
  eexists _, _. split; [vm_compute; reflexivity|].
  repeat split; vm_compute; reflexivity.
Qed.

(* ------------------------------------------------------------------ *)
(** ** Cancelling an order *)

Section CancelOrder.
Context {num : Type} `{JSNumber num} `{scan : ScanOrder}.
Import OrderService.

(** The body of the transaction of [cancelOrder]. *)
Lemma cancel_tx_ok (d : DB num) k k' ps' id o (its : list (OrderItemRow num)) :
  find_order d id = Some o ->
  after_writes k (List.length its + 1) = Some k' ->
  move_stock (products d) (order_moves its) = Some ps' ->
  exists os',
    set_status (orders d) id CANCELLED = Some os'
    /\ find (fun o => String.eqb (o_id o) id) os' = Some (with_status o CANCELLED)
    /\ (for_each (fun item => tx_stock_increment (oi_productId item)
                                                 (oi_quantity item)) its ;;;
        order_update_status tx_write id CANCELLED) (mkWorld d k)
       = (inr (mkOrder (with_status o CANCELLED) (items_of_order d (o_id o))),
          mkWorld (mkDB ps' (cartItems d) os' (orderItems d)) k').
Proof.
  intros F W S.
  destruct (set_status_found (orders d) id CANCELLED o F) as (os' & St & F').
  exists os'. split; [exact St|]. split; [exact F'|].
  rewrite after_writes_add in W.
  destruct (after_writes k (List.length its)) as [k1|] eqn:W1; [|discriminate].
  unfold bind.
  rewrite (stock_loop_ok oi_productId oi_quantity its d k k1 ps' W1 S).
  unfold order_update_status. rewrite tx_write_run, W.
  cbn [orders set_products]. rewrite St.
  unfold find_order, set_orders. cbn [orders]. rewrite F'.
  reflexivity.
Qed.

Lemma cancel_tx_fail (d : DB num) k id (its : list (OrderItemRow num)) :
  after_writes k (List.length its + 1) = None
  \/ move_stock (products d) (order_moves its) = None ->
  fails (for_each (fun item => tx_stock_increment (oi_productId item)
                                                  (oi_quantity item)) its ;;;
         order_update_status tx_write id CANCELLED) (mkWorld d k).
Proof.
  intros F. rewrite after_writes_add in F. unfold fails, bind.
  destruct (after_writes k (List.length its)) as [k1|] eqn:W1.
  2:{ destruct (stock_loop_fail oi_productId oi_quantity its d k
                  (or_introl W1)) as (e & w' & R).
      rewrite R. eauto. }
  destruct (move_stock (products d) (order_moves its)) as [ps'|] eqn:S.
  2:{ destruct (stock_loop_fail oi_productId oi_quantity its d k
                  (or_intror S)) as (e & w' & R).
      rewrite R. eauto. }
  rewrite (stock_loop_ok oi_productId oi_quantity its d k k1 ps' W1 S).
  unfold order_update_status. rewrite tx_write_run.
  destruct F as [F|F]; [|discriminate]. rewrite F. eauto.
Qed.

(** [cancelOrder] up to its transaction. *)
Lemma cancelOrder_run (w : World num) id uid :
  cancelOrder id uid w
  = match find_order (db w) id with
    | None => (inl OrderNotFound, w)
    | Some o =>
        if truthy uid
           && negb (match uid with
                    | Some u => String.eqb (o_userId o) u
                    | None => false
                    end)
        then (inl UnauthorizedToCancel, w)
        else if negb (includes [PENDING; CONFIRMED] (o_status o))
        then (inl (CannotCancel (o_status o)), w)
        else
          transaction
            (for_each (fun item => tx_stock_increment (oi_productId item)
                                                      (oi_quantity item))
                      (items_of_order (db w) (o_id o)) ;;;
             order_update_status tx_write id CANCELLED) w
    end.
Proof.
  unfold cancelOrder. unfold bind at 1. unfold query.
  destruct (find_order (db w) id) as [o|]; [|reflexivity]. simpl.
  destruct (truthy uid && _); [reflexivity|].
  destruct (negb _); reflexivity.
Qed.

Lemma passes_ownership_check (uid : option string) (o : OrderRow num) :
  truthy uid
  && negb (match uid with
           | Some u => String.eqb (o_userId o) u
           | None => false
           end) = false
  <-> passes_ownership uid o.
Proof.
  unfold passes_ownership. destruct uid as [u|]; simpl.
  - destruct (String.eqb_spec u ""); simpl.
    + split; [now left|reflexivity].
    + destruct (String.eqb_spec (o_userId o) u) as [E|E]; simpl.
      * split; [right; now rewrite E|reflexivity].
      * split; [discriminate|]. intros [D|[= D]]; [discriminate|congruence].
  - split; [now left|reflexivity].
Qed.

Lemma cancellable (s : OrderStatus) :
  negb (includes [PENDING; CONFIRMED] s) = false
  <-> s = PENDING \/ s = CONFIRMED.
Proof.
  destruct s; simpl; split; intros E; try reflexivity; try discriminate;
    try (now left); try (now right); destruct E; discriminate.
Qed.

Lemma cancelOrder_commits (w : World num) id uid o k' ps' :
  find_order (db w) id = Some o ->
  passes_ownership uid o ->
  o_status o = PENDING \/ o_status o = CONFIRMED ->
  after_writes (fault w) (List.length (items_of_order (db w) (o_id o)) + 1)
  = Some k' ->
  move_stock (products (db w)) (order_moves (items_of_order (db w) (o_id o)))
  = Some ps' ->
  exists r d',
    cancelOrder id uid w = (inr r, mkWorld d' k')
    /\ cancelled (db w) d' o (items_of_order (db w) (o_id o)) r.
Proof.
  intros F O C W S. rewrite cancelOrder_run, F.
  rewrite (proj2 (passes_ownership_check uid o) O).
  rewrite (proj2 (cancellable (o_status o)) C).
  unfold transaction. destruct w as [d k]. simpl in *.
  destruct (cancel_tx_ok d k k' ps' id o _ F W S) as (os' & St & F' & R).
  rewrite R. eexists _, _. split; [reflexivity|].
  pose proof (find_order_id _ _ _ F) as Id.
  destruct (move_stock_find _ _ _ S) as [Ids Fp].
  unfold cancelled. cbn [order_row order_items orders products cartItems
                           orderItems].
  repeat split; trivial.
  - unfold find_order. cbn [orders]. now rewrite Id.
  - now rewrite Id.
  - intros i. unfold stock_of, find_product. cbn [products]. rewrite Fp.
    destruct (find _ (products d)); reflexivity.
Qed.

Lemma cancelOrder_rolls_back (w : World num) id uid o :
  find_order (db w) id = Some o ->
  passes_ownership uid o ->
  o_status o = PENDING \/ o_status o = CONFIRMED ->
  after_writes (fault w) (List.length (items_of_order (db w) (o_id o)) + 1)
  = None
  \/ move_stock (products (db w)) (order_moves (items_of_order (db w) (o_id o)))
     = None ->
  exists e w', cancelOrder id uid w = (inl e, w') /\ db w' = db w.
Proof.
  intros F O C Fl. rewrite cancelOrder_run, F.
  rewrite (proj2 (passes_ownership_check uid o) O).
  rewrite (proj2 (cancellable (o_status o)) C).
  unfold transaction. destruct w as [d k]. simpl in *.
  destruct (cancel_tx_fail d k id _ Fl) as (e & w' & R).
  rewrite R. eexists _, _. split; reflexivity.
Qed.

(** C6. For an order that exists: [cancelOrder] throws 'Unauthorized to
    cancel this order' when a user id is supplied that is not the order's;
    it throws when the status is neither [PENDING] nor [CONFIRMED]; from
    those two statuses, when the database fails none of the writes of the
    transaction, it returns the order as [CANCELLED], the order row carries
    [CANCELLED], and the stock of every product has risen by the quantities
    of the order items of that product (by exactly 3 for one item of
    quantity 3); when the database fails a write, the call throws and stock
    and status are the ones before the call.  It returns in no other
    case. *)
Theorem cancelOrder_restores_stock
    (w : World num) (id : string) (uid : option string) (o : OrderRow num)
    (Hfound : find_order (db w) id = Some o) :
  let its := items_of_order (db w) (o_id o) in
  (~ passes_ownership uid o ->
     cancelOrder id uid w = (inl UnauthorizedToCancel, w)
     /\ kind UnauthorizedToCancel = Forbidden)
  /\ (passes_ownership uid o ->
       o_status o <> PENDING -> o_status o <> CONFIRMED ->
       cancelOrder id uid w = (inl (CannotCancel (o_status o)), w))
  /\ (passes_ownership uid o ->
       o_status o = PENDING \/ o_status o = CONFIRMED ->
       (forall k',
          after_writes (fault w) (List.length its + 1) = Some k' ->
          Forall (fun i => In (oi_productId i) (map p_id (products (db w))))
                 its ->
          exists r d',
            cancelOrder id uid w = (inr r, mkWorld d' k')
            /\ cancelled (db w) d' o its r)
       /\ (after_writes (fault w) (List.length its + 1) = None ->
            exists e w', cancelOrder id uid w = (inl e, w') /\ db w' = db w))
  /\ (forall r w',
        cancelOrder id uid w = (inr r, w') ->
        passes_ownership uid o
        /\ (o_status o = PENDING \/ o_status o = CONFIRMED)
        /\ cancelled (db w) (db w') o its r).
Proof.
  intros its. split; [|split; [|split]].
  - intros N. rewrite cancelOrder_run, Hfound.
    destruct (truthy uid && _) eqn:E; [split; reflexivity|].
    apply passes_ownership_check in E. contradiction.
  - intros O N1 N2. rewrite cancelOrder_run, Hfound.
    rewrite (proj2 (passes_ownership_check uid o) O).
    destruct (negb (includes [PENDING; CONFIRMED] (o_status o))) eqn:E;
      [reflexivity|].
    apply cancellable in E. tauto.
  - intros O C. split.
    + intros k' W P.
      destruct (move_stock_total (order_moves its) (products (db w)))
        as (ps' & S).
      { unfold order_moves. apply Forall_map. exact P. }
      exact (cancelOrder_commits w id uid o k' ps' Hfound O C W S).
    + intros W. apply (cancelOrder_rolls_back w id uid o Hfound O C).
      now left.
  - intros r w' R. pose proof R as R0. rewrite cancelOrder_run, Hfound in R.
    destruct (truthy uid && _) eqn:E; [discriminate|].
    apply passes_ownership_check in E.
    destruct (negb (includes [PENDING; CONFIRMED] (o_status o))) eqn:C;
      [discriminate|].
    apply cancellable in C. clear R. split; [exact E|]. split; [exact C|].
    destruct (after_writes (fault w) (List.length its + 1)) as [k'|] eqn:W.
    2:{ destruct (cancelOrder_rolls_back w id uid o Hfound E C (or_introl W))
          as (e & w1 & R1 & _). rewrite R1 in R0. discriminate. }
    destruct (move_stock (products (db w)) (order_moves its)) as [ps'|] eqn:S.
    2:{ destruct (cancelOrder_rolls_back w id uid o Hfound E C (or_intror S))
          as (e & w1 & R1 & _). rewrite R1 in R0. discriminate. }
    destruct (cancelOrder_commits w id uid o k' ps' Hfound E C W S)
      as (r1 & d' & R1 & Cd).
    rewrite R1 in R0. injection R0 as <- <-. exact Cd.
Qed.

End CancelOrder.

Lemma cancelOrder_restores_stock_witness :
  stock_of (db (@shop_world float _)) "A" = Some 5
  /\ exists r w',
       OrderService.cancelOrder "o1" (Some "alice"%string) (@shop_world float _)
       = (inr r, w')
       /\ o_status (order_row r) = CANCELLED
       /\ stock_of (db w') "A" = Some 8.
Proof.
  split; [reflexivity|].
  destruct (cancelOrder_restores_stock (@shop_world float _) "o1"
              (Some "alice"%string) _ eq_refl) as (_ & _ & Hok & _).
  destruct (Hok (or_intror eq_refl) (or_intror eq_refl)) as (Hyes & _).
  destruct (Hyes None eq_refl) as (r & d' & R & C).
  { constructor; [simpl; tauto|constructor]. }
  destruct C as (Er & _ & _ & _ & _ & St & _).
  exists r, (mkWorld d' None). split; [exact R|]. split.
  - now rewrite Er.
  - simpl db. rewrite St. reflexivity.
Defined.

(* ------------------------------------------------------------------ *)
(** ** Syncing the cart with the stock *)

Section RowWrites.

Lemma nodup_map_filter {A B} (f : A -> B) (g : A -> bool) (l : list A) :
  NoDup (map f l) -> NoDup (map f (filter g l)).
Proof.
  induction l as [|x l IH]; simpl; intros D; [constructor|].
  inversion D as [|? ? Hx D']; subst.
  destruct (g x); simpl; [|now apply IH]. constructor; [|now apply IH].
  intros I. apply Hx. apply in_map_iff in I as (y & E & I).
  apply filter_In in I as [I _]. rewrite <- E. now apply in_map.
Qed.

Lemma map_id_absent {A} (f g : A -> A) (test : A -> bool) (l : list A) :
  Forall (fun a => test a = false) l ->
  map (fun a => if test a then f a else g a) l = map g l.
Proof.
  induction 1 as [|a l E _ IH]; simpl; [reflexivity|]. now rewrite E, IH.
Qed.

Lemma no_row_with_id (cs : list CartItemRow) id :
  ~ In id (map ci_id cs) ->
  Forall (fun r => String.eqb (ci_id r) id = false) cs.
Proof.
  intros N. apply Forall_forall. intros r I. apply String.eqb_neq.
  intros E. apply N. rewrite <- E. now apply in_map.
Qed.

(** With distinct row ids, [update] by id rewrites the row of that id and no
    other. *)
Lemma set_quantity_map (cs cs' : list CartItemRow) id q :
  NoDup (map ci_id cs) ->
  set_quantity cs id q = Some cs' ->
  cs' = map (fun r => if String.eqb (ci_id r) id then with_quantity r q else r)
            cs.
Proof.
  revert cs'. induction cs as [|x cs IH]; simpl; intros cs' D S; [discriminate|].
  inversion D as [|? ? Hx D']; subst.
  destruct (String.eqb_spec (ci_id x) id) as [E|E].
  - injection S as <-. f_equal. subst id.
    rewrite (map_id_absent _ (fun r => r) _ cs (no_row_with_id cs _ Hx)).
    now rewrite map_id.
  - destruct (set_quantity cs id q) as [cs1|]; [|discriminate].
    injection S as <-. f_equal. now apply IH.
Qed.

(** With distinct row ids, [delete] by id removes the row of that id and no
    other. *)
Lemma delete_row_filter (cs cs' : list CartItemRow) id :
  NoDup (map ci_id cs) ->
  delete_row cs id = Some cs' ->
  cs' = filter (fun r => negb (String.eqb (ci_id r) id)) cs.
Proof.
  revert cs'. induction cs as [|x cs IH]; simpl; intros cs' D S; [discriminate|].
  inversion D as [|? ? Hx D']; subst.
  destruct (String.eqb_spec (ci_id x) id) as [E|E]; simpl.
  - injection S as <-. subst id. symmetry. apply filter_all.
    generalize (no_row_with_id cs _ Hx). apply Forall_impl.
    now intros r ->.
  - destruct (delete_row cs id) as [cs1|]; [|discriminate].
    injection S as <-. f_equal. now apply IH.
Qed.

Lemma set_quantity_some (cs : list CartItemRow) id q :
  In id (map ci_id cs) -> exists cs', set_quantity cs id q = Some cs'.
Proof.
  induction cs as [|x cs IH]; simpl; [tauto|].
  destruct (String.eqb_spec (ci_id x) id) as [E|E]; [eauto|].
  intros [I|I]; [contradiction|]. destruct (IH I) as (cs' & ->). simpl. eauto.
Qed.

Lemma delete_row_some (cs : list CartItemRow) id :
  In id (map ci_id cs) -> exists cs', delete_row cs id = Some cs'.
Proof.
  induction cs as [|x cs IH]; simpl; [tauto|].
  destruct (String.eqb_spec (ci_id x) id) as [E|E]; [eauto|].
  intros [I|I]; [contradiction|]. destruct (IH I) as (cs' & ->). simpl. eauto.
Qed.

Lemma flat_map_filter {A B} (f : A -> list B) (t : A -> bool) (l : list A) :
  flat_map f (filter t l) = flat_map (fun x => if t x then f x else []) l.
Proof.
  induction l as [|x l IH]; simpl; [reflexivity|].
  destruct (t x); simpl; now rewrite IH.
Qed.

Lemma flat_map_map {A B C} (f : B -> list C) (h : A -> B) (l : list A) :
  flat_map f (map h l) = flat_map (fun x => f (h x)) l.
Proof. induction l as [|x l IH]; simpl; [reflexivity|]. now rewrite IH. Qed.

Lemma flat_map_ext_in {A B} (f g : A -> list B) (l : list A) :
  (forall x, In x l -> f x = g x) -> flat_map f l = flat_map g l.
Proof.
  induction l as [|x l IH]; simpl; intros E; [reflexivity|].
  rewrite (E x (or_introl eq_refl)), IH; [reflexivity|].
  intros y I. apply E. now right.
Qed.

Lemma flat_map_singleton {A} (l : list A) : flat_map (fun x => [x]) l = l.
Proof. induction l as [|x l IH]; simpl; [reflexivity|]. now rewrite IH. Qed.

End RowWrites.

Section Sync.
Context {num : Type} `{JSNumber num} `{scan : ScanOrder}.
Import CartService.

Lemma join_products_set_cartItems (d : DB num) cs rows :
  join_products (set_cartItems d cs) rows = join_products d rows.
Proof.
  induction rows as [|r rows IH]; simpl; [reflexivity|].
  rewrite IH. reflexivity.
Qed.

Lemma no_line_with_id (found : list (CartItem num)) id :
  ~ In id (map (fun c => ci_id (ci_row c)) found) ->
  existsb (fun c => String.eqb (ci_id (ci_row c)) id) found = false.
Proof.
  induction found as [|c found IH]; simpl; intros N; [reflexivity|].
  rewrite IH by tauto.
  destruct (String.eqb_spec (ci_id (ci_row c)) id); [tauto|reflexivity].
Qed.

(** The loop of [syncCartWithStock] over the lines [found], in whatever
    order they come: each is a row of [u] in the table [cs], no two are the
    same row.  The rows that [found] names end up as [sync_row] has them and
    the others stay. *)
Lemma sync_loop_run u (found : list (CartItem num)) :
  forall acc (d : DB num) k (cs : list CartItemRow),
    NoDup (map ci_id cs) ->
    NoDup (map (fun c => ci_id (ci_row c)) found) ->
    Forall (fun c => In (ci_row c) cs
                     /\ ci_userId (ci_row c) = u
                     /\ find_product d (ci_productId (ci_row c))
                        = Some (ci_product c)) found ->
    sync_loop found acc (mkWorld (set_cartItems d cs) k)
    = (inr (mkSyncResult
              (removedItems acc ++ removedItems (sync_report found))
              (updatedItems acc ++ updatedItems (sync_report found))),
       mkWorld (set_cartItems d
                  (flat_map
                     (fun r =>
                        if existsb (fun c => String.eqb (ci_id (ci_row c))
                                                        (ci_id r)) found
                        then sync_row d u r else [r]) cs)) k).
Proof.
  induction found as [|c found IH]; intros acc d k cs D Df F.
  - simpl. rewrite !app_nil_r, flat_map_singleton. unfold ret. now destruct acc.
  - simpl in Df. apply NoDup_cons_iff in Df as [Nc Df'].
    pose proof (Forall_inv F) as (I & U & P).
    pose proof (Forall_inv_tail F) as F'.
    assert (Only : forall r, In r cs -> ci_id r = ci_id (ci_row c) ->
                             r = ci_row c).
    { intros r Ir E. now apply (in_nodup_map_eq ci_id cs). }
    assert (Rest : existsb (fun c0 => String.eqb (ci_id (ci_row c0))
                                                 (ci_id (ci_row c))) found
                   = false).
    { now apply no_line_with_id. }
    assert (Other : forall c0, In c0 found ->
                               ci_id (ci_row c0) <> ci_id (ci_row c)).
    { intros c0 I0 E. apply Nc. rewrite <- E.
      now apply (in_map (fun c => ci_id (ci_row c))). }
    simpl sync_loop. unfold sync_report. simpl filter.
    destruct (p_stock (ci_product c) =? 0) eqn:Z0.
    + unfold bind at 1. unfold write. cbn [db cartItems set_cartItems].
      destruct (delete_row_some cs (ci_id (ci_row c))) as (cs1 & S);
        [now apply in_map|].
      rewrite S. cbn [option_map].
      change (set_cartItems (set_cartItems d cs) cs1) with (set_cartItems d cs1).
      rewrite (delete_row_filter _ _ _ D S) in *.
      cbn [fault]. rewrite IH.
      * cbn [removedItems updatedItems map negb andb]. rewrite <- app_assoc.
        do 3 f_equal. rewrite flat_map_filter. apply flat_map_ext_in.
        intros r Ir. cbn [existsb].
        destruct (String.eqb_spec (ci_id r) (ci_id (ci_row c))) as [E|E].
        -- rewrite (Only r Ir E), String.eqb_refl. simpl. unfold sync_row.
           rewrite U, String.eqb_refl, P, Z0. reflexivity.
        -- simpl. destruct (String.eqb_spec (ci_id (ci_row c)) (ci_id r));
             [congruence|reflexivity].
      * now apply nodup_map_filter.
      * exact Df'.
      * apply Forall_forall. intros c0 I0.
        destruct (proj1 (Forall_forall _ _) F' c0 I0) as (I1 & U1 & P1).
        split; [|now split]. apply filter_In. split; [exact I1|].
        apply negb_true_iff, String.eqb_neq. now apply Other.
    + cbn [negb andb].
      destruct (ci_quantity (ci_row c) >? p_stock (ci_product c)) eqn:G.
      * unfold bind at 1. unfold write. cbn [db cartItems set_cartItems].
        destruct (set_quantity_some cs (ci_id (ci_row c))
                    (p_stock (ci_product c))) as (cs1 & S);
          [now apply in_map|].
        rewrite S. cbn [option_map].
        change (set_cartItems (set_cartItems d cs) cs1)
          with (set_cartItems d cs1).
        rewrite (set_quantity_map _ _ _ _ D S) in *.
        cbn [fault]. rewrite IH.
        -- cbn [removedItems updatedItems map]. rewrite <- !app_assoc.
           do 3 f_equal. rewrite flat_map_map. apply flat_map_ext_in.
           intros r Ir. cbn [existsb].
           destruct (String.eqb_spec (ci_id r) (ci_id (ci_row c))) as [E|E].
           ++ rewrite (Only r Ir E), String.eqb_refl. simpl.
              change (ci_id (with_quantity (ci_row c) (p_stock (ci_product c))))
                with (ci_id (ci_row c)).
              rewrite Rest. unfold sync_row.
              rewrite U, String.eqb_refl, P, Z0, G. reflexivity.
           ++ destruct (String.eqb_spec (ci_id (ci_row c)) (ci_id r));
                [congruence|reflexivity].
        -- rewrite map_map.
           rewrite (map_ext _ ci_id); [exact D|].
           intros r. now destruct (String.eqb (ci_id r) (ci_id (ci_row c))).
        -- exact Df'.
        -- apply Forall_forall. intros c0 I0.
           destruct (proj1 (Forall_forall _ _) F' c0 I0) as (I1 & U1 & P1).
           split; [|now split]. apply in_map_iff. exists (ci_row c0).
           split; [|exact I1].
           destruct (String.eqb_spec (ci_id (ci_row c0)) (ci_id (ci_row c)))
             as [E|E]; [|reflexivity].
           now destruct (Other c0 I0).
      * rewrite IH by assumption.
        do 3 f_equal. apply flat_map_ext_in.
        intros r Ir. cbn [existsb].
        destruct (String.eqb_spec (ci_id (ci_row c)) (ci_id r)) as [E|E];
          [|reflexivity].
        rewrite (Only r Ir (eq_sym E)), Rest. simpl. unfold sync_row.
        rewrite U, String.eqb_refl, P, Z0, G. reflexivity.
Qed.

End Sync.

Section SyncFacts.
Context {num : Type} `{JSNumber num} `{scan : ScanOrder}.
Import CartService.

Lemma set_cartItems_same (d : DB num) : set_cartItems d (cartItems d) = d.
Proof. now destruct d. Qed.

(** [syncCartWithStock] on a cart table with distinct row ids. *)
Lemma syncCartWithStock_run (w : World num) u :
  NoDup (map ci_id (cartItems (db w))) ->
  syncCartWithStock u w
  = match join_products (db w) (unordered (cart_rows (db w) u)) with
    | Some found =>
        (inr (sync_report found),
         mkWorld (set_cartItems (db w) (sync_rows (db w) u (cartItems (db w))))
                 (fault w))
    | None => (inl PrismaError, w)
    end.
Proof.
  intros D. unfold syncCartWithStock, bind. rewrite findMany_run.
  destruct (join_products _ _) as [found|] eqn:J; [|reflexivity].
  destruct w as [d k]. cbn [db fault] in *.
  destruct (join_products_rows _ _ _ J) as [Rows Prods].
  pose proof (unordered_perm (cart_rows d u)) as Perm.
  assert (Mine : forall r, In r (map ci_row found) <->
                           In r (cartItems d) /\ ci_userId r = u).
  { intros r. rewrite Rows. split.
    - intros I. apply (Permutation_in _ Perm) in I.
      apply filter_In in I as [I E]. now apply String.eqb_eq in E.
    - intros [I E]. apply (Permutation_in _ (Permutation_sym Perm)).
      apply filter_In. split; [exact I|]. now apply String.eqb_eq. }
  pose proof (sync_loop_run u found (mkSyncResult [] []) d k (cartItems d) D)
    as R.
  rewrite set_cartItems_same in R. rewrite R; clear R.
  - cbn [app removedItems updatedItems].
    assert (Eta : forall r : SyncResult,
              mkSyncResult (removedItems r) (updatedItems r) = r)
      by now intros [].
    rewrite Eta. do 3 f_equal. unfold sync_rows. apply flat_map_ext_in.
    intros r Ir.
    destruct (existsb _ found) eqn:X; [reflexivity|].
    unfold sync_row. destruct (String.eqb_spec (ci_userId r) u) as [E|E];
      [|reflexivity].
    assert (I : In r (map ci_row found)) by (apply Mine; now split).
    apply in_map_iff in I as (c & <- & Ic).
    assert (T : existsb (fun c0 => String.eqb (ci_id (ci_row c0))
                                              (ci_id (ci_row c))) found = true).
    { apply existsb_exists. exists c. split; [exact Ic|apply String.eqb_refl]. }
    congruence.
  - rewrite <- (map_map ci_row ci_id), Rows.
    apply (Permutation_NoDup (Permutation_map ci_id (Permutation_sym Perm))).
    now apply nodup_map_filter.
  - apply Forall_forall. intros c Ic.
    assert (I : In (ci_row c) (map ci_row found)) by now apply in_map.
    apply Mine in I as [I E]. split; [exact I|]. split; [exact E|].
    exact (proj1 (Forall_forall _ _) Prods c Ic).
Qed.

Lemma sync_row_other (d : DB num) u u' x :
  u' <> u ->
  filter (fun r => String.eqb (ci_userId r) u') (sync_row d u x)
  = filter (fun r => String.eqb (ci_userId r) u') [x].
Proof.
  intros N. unfold sync_row.
  destruct (String.eqb_spec (ci_userId x) u) as [E|E]; [|reflexivity].
  assert (X : String.eqb (ci_userId x) u' = false).
  { apply String.eqb_neq. congruence. }
  destruct (find_product d (ci_productId x)) as [p|]; [|reflexivity].
  destruct (p_stock p =? 0); [simpl; now rewrite X|].
  destruct (ci_quantity x >? p_stock p); simpl; now rewrite X.
Qed.

Lemma sync_rows_other (d : DB num) u u' cs :
  u' <> u ->
  filter (fun r => String.eqb (ci_userId r) u') (sync_rows d u cs)
  = filter (fun r => String.eqb (ci_userId r) u') cs.
Proof.
  intros N. induction cs as [|x cs IH]; [reflexivity|].
  unfold sync_rows in *. simpl flat_map.
  rewrite filter_app, IH, (sync_row_other d u u' x N).
  simpl. destruct (String.eqb (ci_userId x) u'); reflexivity.
Qed.

Lemma sync_rows_ids (d : DB num) u cs i :
  In i (map ci_id (sync_rows d u cs)) -> In i (map ci_id cs).
Proof.
  induction cs as [|x cs IH]; [trivial|].
  unfold sync_rows in *. simpl flat_map. rewrite map_app, in_app_iff.
  intros [I|I]; [|right; now apply IH]. left. unfold sync_row in I.
  destruct (String.eqb (ci_userId x) u); [|simpl in I; tauto].
  destruct (find_product d (ci_productId x)) as [p|]; [|simpl in I; tauto].
  destruct (p_stock p =? 0); [destruct I|].
  destruct (ci_quantity x >? p_stock p); simpl in I; tauto.
Qed.

Lemma sync_rows_nodup (d : DB num) u cs :
  NoDup (map ci_id cs) -> NoDup (map ci_id (sync_rows d u cs)).
Proof.
  induction cs as [|x cs IH]; intros D; [constructor|].
  inversion D as [|? ? Hx D']; subst. specialize (IH D').
  assert (N : ~ In (ci_id x) (map ci_id (sync_rows d u cs))).
  { intros I. apply Hx. now apply (sync_rows_ids d u). }
  unfold sync_rows in *. simpl flat_map. unfold sync_row at 1.
  destruct (String.eqb (ci_userId x) u); [|now constructor].
  destruct (find_product d (ci_productId x)) as [p|]; [|now constructor].
  destruct (p_stock p =? 0); [exact IH|].
  destruct (ci_quantity x >? p_stock p); now constructor.
Qed.

(** The lines of the user's cart after a sync: each is of a product in
    stock and holds at most the stock; as many lines are gone as the report
    names. *)
Lemma sync_rows_joined (d : DB num) u cs found :
  join_products d (filter (fun r => String.eqb (ci_userId r) u) cs) = Some found ->
  exists found',
    join_products d (filter (fun r => String.eqb (ci_userId r) u)
                            (sync_rows d u cs)) = Some found'
    /\ Forall (fun c => p_stock (ci_product c) <> 0
                        /\ ci_quantity (ci_row c) <= p_stock (ci_product c))
              found'
    /\ List.length found
       = (List.length found' + List.length (removedItems (sync_report found)))%nat.
Proof.
  revert found. induction cs as [|x cs IH]; intros found J.
  - simpl in J. injection J as <-. exists []. repeat split. constructor.
  - unfold sync_rows in *. simpl flat_map. simpl filter in J.
    unfold sync_row at 1. rewrite filter_app.
    destruct (String.eqb (ci_userId x) u) eqn:U.
    + simpl in J.
      destruct (find_product d (ci_productId x)) as [p|] eqn:P; [|discriminate].
      destruct (join_products d _) as [found0|] eqn:J0; [|discriminate].
      injection J as <-. destruct (IH found0 eq_refl) as (found' & J' & F & L).
      unfold sync_report in *. cbn [removedItems] in *. simpl filter at 2.
      cbn [ci_product ci_row].
      destruct (Z.eqb_spec (p_stock p) 0) as [Z0|Z0].
      * exists found'. split; [exact J'|]. split; [exact F|].
        simpl. rewrite L, (proj2 (Z.eqb_eq _ _) Z0). simpl. lia.
      * destruct (Z.gtb_spec (ci_quantity x) (p_stock p)) as [G|G].
        -- exists (mkCartItem (with_quantity x (p_stock p)) p :: found').
           simpl filter. rewrite U. simpl. rewrite P, J'.
           split; [reflexivity|]. split.
           ++ constructor; [simpl; split; [exact Z0|lia]|exact F].
           ++ rewrite (proj2 (Z.eqb_neq _ _) Z0). now rewrite L.
        -- exists (mkCartItem x p :: found').
           simpl filter. rewrite U. simpl. rewrite P, J'.
           split; [reflexivity|]. split.
           ++ constructor; [simpl; split; [exact Z0|lia]|exact F].
           ++ rewrite (proj2 (Z.eqb_neq _ _) Z0). now rewrite L.
    + simpl filter. rewrite U. simpl. apply IH. exact J.
Qed.

End SyncFacts.

Section SyncTheorems.
Context {num : Type} `{JSNumber num} `{scan : ScanOrder}.
Import CartService.

Lemma sync_report_clean (found : list (CartItem num)) :
  Forall (fun c => p_stock (ci_product c) <> 0
                   /\ ci_quantity (ci_row c) <= p_stock (ci_product c)) found ->
  sync_report found = mkSyncResult [] [].
Proof.
  intros F. unfold sync_report.
  rewrite (filter_none (fun c => p_stock (ci_product c) =? 0)),
          (filter_none (fun c => negb (p_stock (ci_product c) =? 0)
                                 && (ci_quantity (ci_row c)
                                     >? p_stock (ci_product c)))).
  - reflexivity.
  - revert F. apply Forall_impl. intros c [N L].
    destruct (Z.gtb_spec (ci_quantity (ci_row c)) (p_stock (ci_product c)));
      [lia|]. apply andb_false_r.
  - revert F. apply Forall_impl. intros c [N _]. now apply Z.eqb_neq.
Qed.

Lemma sync_rows_fixed (d : DB num) u cs found :
  join_products d (filter (fun r => String.eqb (ci_userId r) u) cs) = Some found ->
  Forall (fun c => p_stock (ci_product c) <> 0
                   /\ ci_quantity (ci_row c) <= p_stock (ci_product c)) found ->
  sync_rows d u cs = cs.
Proof.
  revert found. induction cs as [|x cs IH]; intros found J F; [reflexivity|].
  unfold sync_rows in *. simpl flat_map. simpl filter in J. unfold sync_row at 1.
  destruct (String.eqb (ci_userId x) u).
  - simpl in J.
    destruct (find_product d (ci_productId x)) as [p|]; [|discriminate].
    destruct (join_products d _) as [found0|]; [|discriminate].
    injection J as <-. inversion F as [|? ? [N L] F']; subst. simpl in N, L.
    rewrite (proj2 (Z.eqb_neq _ _) N).
    destruct (Z.gtb_spec (ci_quantity x) (p_stock p)); [lia|].
    simpl. f_equal. now apply (IH found0).
  - simpl. f_equal. now apply (IH found).
Qed.

Lemma sync_row_kept (d : DB num) u cs r p :
  In r cs ->
  find_product d (ci_productId r) = Some p ->
  p_stock p <> 0 ->
  ci_quantity r <= p_stock p ->
  In r (sync_rows d u cs).
Proof.
  intros I P N L. unfold sync_rows. apply in_flat_map. exists r.
  split; [exact I|]. unfold sync_row.
  destruct (String.eqb (ci_userId r) u); [|now left].
  rewrite P, (proj2 (Z.eqb_neq _ _) N).
  destruct (Z.gtb_spec (ci_quantity r) (p_stock p)); [lia|now left].
Qed.

Lemma filter_length_perm {A} (f : A -> bool) (l l' : list A) :
  Permutation l l' -> List.length (filter f l) = List.length (filter f l').
Proof.
  induction 1 as [|x l l' _ IH|x y l|l l1 l2 _ IH1 _ IH2]; simpl.
  - reflexivity.
  - destruct (f x); simpl; now rewrite IH.
  - destruct (f x), (f y); reflexivity.
  - now rewrite IH1.
Qed.

Lemma sync_row_id (d : DB num) u r x :
  In x (sync_row d u r) ->
  ci_id x = ci_id r
  /\ (x = r \/ exists p, find_product d (ci_productId r) = Some p
                        /\ p_stock p < ci_quantity r
                        /\ x = with_quantity r (p_stock p)).
Proof.
  unfold sync_row.
  destruct (String.eqb (ci_userId r) u);
    [|intros [<-|[]]; split; [reflexivity|now left]].
  destruct (find_product d (ci_productId r)) as [p|];
    [|intros [<-|[]]; split; [reflexivity|now left]].
  destruct (p_stock p =? 0); [intros []|].
  destruct (Z.gtb_spec (ci_quantity r) (p_stock p)) as [G|G];
    intros [<-|[]]; split; try reflexivity; [right|now left].
  exists p. repeat split. lia.
Qed.

(** The lines of the table order from the lines of the scan. *)
Lemma scanned_lines (d : DB num) u cs found :
  join_products d (unordered (filter (fun r => String.eqb (ci_userId r) u) cs))
  = Some found ->
  exists lines,
    join_products d (filter (fun r => String.eqb (ci_userId r) u) cs)
    = Some lines
    /\ Permutation found lines.
Proof. apply join_products_perm, unordered_perm. Qed.

Lemma lines_scanned (d : DB num) u cs lines :
  join_products d (filter (fun r => String.eqb (ci_userId r) u) cs)
  = Some lines ->
  exists found,
    join_products d (unordered (filter (fun r => String.eqb (ci_userId r) u) cs))
    = Some found
    /\ Permutation lines found.
Proof. apply join_products_perm, Permutation_sym, unordered_perm. Qed.

(** [syncCartWithStock] on a cart table with distinct row ids whose rows of
    user [u] all have a product, the database returning the lines [found] in
    whatever order.  It returns the report of [found].  A row of [u] whose
    product is out of stock is deleted, a row that holds more than the stock
    is set to the stock, and a row within the stock stays: the table is the
    old one with [sync_row] applied to every row.  It writes cart rows only,
    and of no other user; afterwards every line of [u] is of a product in
    stock and holds at most the stock, and the cart has lost as many lines as
    the report names as removed. *)
Theorem syncCartWithStock_clamps
    (w : World num) (u : string) (found : list (CartItem num))
    (Hids : NoDup (map ci_id (cartItems (db w))))
    (Hrows : join_products (db w) (unordered (cart_rows (db w) u))
             = Some found) :
  exists w',
    syncCartWithStock u w = (inr (sync_report found), w')
    /\ cartItems (db w') = sync_rows (db w) u (cartItems (db w))
    /\ (forall r p,
          In r (cart_rows (db w) u) ->
          find_product (db w) (ci_productId r) = Some p ->
          (p_stock p = 0 ->
             ~ In (ci_id r) (map ci_id (cartItems (db w'))))
          /\ (p_stock p <> 0 -> p_stock p < ci_quantity r ->
                In (with_quantity r (p_stock p)) (cart_rows (db w') u)
                /\ ~ In r (cartItems (db w')))
          /\ (p_stock p <> 0 -> ci_quantity r <= p_stock p ->
                In r (cart_rows (db w') u)))
    /\ (forall x,
          In x (cart_rows (db w') u) ->
          exists r p,
            In r (cart_rows (db w) u)
            /\ find_product (db w) (ci_productId r) = Some p
            /\ p_stock p <> 0
            /\ x = with_quantity r (Z.min (ci_quantity r) (p_stock p)))
    /\ products (db w') = products (db w)
    /\ orders (db w') = orders (db w)
    /\ orderItems (db w') = orderItems (db w)
    /\ fault w' = fault w
    /\ NoDup (map ci_id (cartItems (db w')))
    /\ (forall u', u' <> u -> cart_rows (db w') u' = cart_rows (db w) u')
    /\ (exists found',
          join_products (db w') (cart_rows (db w') u) = Some found'
          /\ Forall (fun c => p_stock (ci_product c) <> 0
                              /\ ci_quantity (ci_row c) <= p_stock (ci_product c))
                    found'
          /\ List.length found
             = (List.length found'
                + List.length (removedItems (sync_report found)))%nat).
Proof.
  destruct (scanned_lines _ _ _ _ Hrows) as (lines & Jl & Perm).
  destruct (join_products_rows _ _ _ Jl) as [Rows Prods].
  eexists. rewrite (syncCartWithStock_run w u Hids), Hrows.
  split; [reflexivity|]. cbn [db fault products orders orderItems cartItems
                             set_cartItems].
  split; [reflexivity|]. split; [|split; [|repeat split]].
  - intros r p I P. unfold cart_rows in *. cbn [cartItems].
    apply filter_In in I as [I U]. pose proof U as Uu.
    apply String.eqb_eq in Uu.
    assert (Only : forall r0, In r0 (cartItems (db w)) ->
                              ci_id r0 = ci_id r -> r0 = r).
    { intros r0 I0 E.
      now apply (in_nodup_map_eq ci_id (cartItems (db w))). }
    split; [|split].
    + intros Z0 Iid. apply in_map_iff in Iid as (x & E & Ix).
      unfold sync_rows in Ix. apply in_flat_map in Ix as (r0 & I0 & Ix).
      pose proof (sync_row_id _ _ _ _ Ix) as [Eid _].
      rewrite (Only r0 I0) in Ix by congruence.
      unfold sync_row in Ix. rewrite U, P, Z0 in Ix. exact Ix.
    + intros N G. split.
      * apply filter_In. split; [|exact U]. unfold sync_rows.
        apply in_flat_map. exists r. split; [exact I|]. unfold sync_row.
        rewrite U, P, (proj2 (Z.eqb_neq _ _) N).
        destruct (Z.gtb_spec (ci_quantity r) (p_stock p)); [now left|lia].
      * intros Ix. unfold sync_rows in Ix.
        apply in_flat_map in Ix as (r0 & I0 & Ix).
        pose proof (sync_row_id _ _ _ _ Ix) as [Eid _].
        rewrite (Only r0 I0) in Ix by congruence.
        unfold sync_row in Ix. rewrite U, P, (proj2 (Z.eqb_neq _ _) N) in Ix.
        destruct (Z.gtb_spec (ci_quantity r) (p_stock p)); [|lia].
        destruct Ix as [E|[]]. apply (f_equal ci_quantity) in E. simpl in E.
        lia.
    + intros N L. apply filter_In. split; [|exact U].
      now apply (sync_row_kept (db w) u _ r p).
  - intros x I. unfold cart_rows in *. cbn [cartItems] in I.
    apply filter_In in I as [I U]. unfold sync_rows in I.
    apply in_flat_map in I as (r & Ir & Ix).
    assert (Ur : String.eqb (ci_userId r) u = true).
    { destruct (sync_row_id _ _ _ _ Ix) as [_ [->|(p & _ & _ & ->)]];
        exact U. }
    assert (Il : In r (map ci_row lines)).
    { rewrite Rows. apply filter_In. now split. }
    apply in_map_iff in Il as (c & Ec & Ic).
    pose proof (proj1 (Forall_forall _ _) Prods c Ic) as P. cbv beta in P.
    rewrite Ec in P.
    exists r, (ci_product c). split; [apply filter_In; now split|].
    split; [exact P|]. unfold sync_row in Ix. rewrite Ur, P in Ix.
    destruct (Z.eqb_spec (p_stock (ci_product c)) 0) as [Z0|Z0];
      [destruct Ix|]. split; [exact Z0|].
    destruct (Z.gtb_spec (ci_quantity r) (p_stock (ci_product c)));
      destruct Ix as [<-|[]].
    + now rewrite Z.min_r by lia.
    + rewrite Z.min_l by lia. now destruct r.
  - now apply sync_rows_nodup.
  - intros u' N. unfold cart_rows. cbn [cartItems].
    now apply sync_rows_other.
  - unfold cart_rows in *. cbn [cartItems].
    destruct (sync_rows_joined (db w) u (cartItems (db w)) lines Jl)
      as (found' & J' & F & L).
    exists found'. rewrite join_products_set_cartItems.
    split; [exact J'|]. split; [exact F|].
    rewrite (Permutation_length Perm), L. f_equal.
    unfold sync_report. cbn [removedItems]. rewrite !length_map.
    symmetry. now apply filter_length_perm.
Qed.

(** A second sync finds nothing to do: it reports no removed and no updated
    line and leaves the world as the first sync left it. *)
Theorem syncCartWithStock_idempotent
    (w : World num) (u : string) (found : list (CartItem num))
    (Hids : NoDup (map ci_id (cartItems (db w))))
    (Hrows : join_products (db w) (unordered (cart_rows (db w) u))
             = Some found) :
  exists w',
    syncCartWithStock u w = (inr (sync_report found), w')
    /\ syncCartWithStock u w' = (inr (mkSyncResult [] []), w').
Proof.
  destruct (scanned_lines _ _ _ _ Hrows) as (lines & Jl & Perm).
  eexists. rewrite (syncCartWithStock_run w u Hids), Hrows.
  split; [reflexivity|].
  destruct (sync_rows_joined (db w) u (cartItems (db w)) lines Jl)
    as (found' & J' & F & _).
  destruct (lines_scanned _ _ _ _ J') as (found'' & J'' & Perm').
  rewrite syncCartWithStock_run;
    [|cbn [db cartItems set_cartItems]; now apply sync_rows_nodup].
  unfold cart_rows. cbn [db cartItems set_cartItems fault].
  rewrite join_products_set_cartItems, J''.
  rewrite (sync_report_clean found'' (Permutation_Forall Perm' F)).
  f_equal.
  change (set_cartItems (set_cartItems (db w) (sync_rows (db w) u (cartItems (db w))))
            (sync_rows (set_cartItems (db w) (sync_rows (db w) u (cartItems (db w))))
                       u (sync_rows (db w) u (cartItems (db w)))))
    with (set_cartItems (db w)
            (sync_rows (db w) u (sync_rows (db w) u (cartItems (db w))))).
  now rewrite (sync_rows_fixed (db w) u _ found' J' F).
Qed.

(** After a sync the validation of the cart finds no line above its stock:
    the only error it can still report is the empty cart.  So
    [getCartForCheckout] returns the summary of a cart that [validateCart]
    accepts unless it is empty; it shows the lines newest first, which
    [validateCart] reads in the order of the database. *)
Theorem sync_then_validate
    (w : World num) (u : string) (found : list (CartItem num))
    (Hids : NoDup (map ci_id (cartItems (db w))))
    (Hrows : join_products (db w) (unordered (cart_rows (db w) u))
             = Some found) :
  exists w' found' checked,
    syncCartWithStock u w = (inr (sync_report found), w')
    /\ getCartForCheckout u w = (inr (calculateCartSummary (rev found')), w')
    /\ Permutation found' checked
    /\ validateCart u w'
       = (inr {| isValid := negb (List.length checked =? 0)%nat;
                 errors := if (List.length checked =? 0)%nat
                           then [VCartIsEmpty] else [];
                 cart := calculateCartSummary checked |}, w').
Proof.
  destruct (scanned_lines _ _ _ _ Hrows) as (lines & Jl & Perm).
  destruct (sync_rows_joined (db w) u (cartItems (db w)) lines Jl)
    as (found' & J' & F & _).
  destruct (lines_scanned _ _ _ _ J') as (checked & J'' & Perm').
  eexists. exists found', checked. unfold getCartForCheckout, bind.
  rewrite (syncCartWithStock_run w u Hids), Hrows.
  split; [reflexivity|].
  rewrite getCart_run, validateCart_run. unfold cart_rows.
  cbn [db cartItems set_cartItems]. rewrite !join_products_set_cartItems, J', J''.
  split; [reflexivity|]. split; [exact Perm'|].
  assert (E : stock_errors checked = []).
  { unfold stock_errors. pose proof (Permutation_Forall Perm' F) as Fc.
    clear - Fc. induction Fc as [|c l [_ L] _ IH]; simpl; [reflexivity|].
    destruct (Z.ltb_spec (p_stock (ci_product c)) (ci_quantity (ci_row c)));
      [lia|exact IH]. }
  unfold validation_errors. rewrite E, app_nil_r.
  destruct checked; reflexivity.
Qed.

End SyncTheorems.

(* ------------------------------------------------------------------ *)
(** ** Updating and removing cart rows *)

Section CartRows.
Context {num : Type} `{JSNumber num} `{scan : ScanOrder}.
Import CartService.

(** The row of id [id] that belongs to [u]: the [where] clause of
    [updateCartItem] and [removeFromCart]. *)
Lemma find_owned (cs : list CartItemRow) id u r :
  find (fun r => String.eqb (ci_id r) id && String.eqb (ci_userId r) u) cs
  = Some r ->
  In r cs /\ ci_id r = id /\ ci_userId r = u.
Proof.
  intros F. apply find_some in F as [I E].
  apply andb_true_iff in E as [E1 E2].
  apply String.eqb_eq in E1, E2. auto.
Qed.

Lemma updateCartItem_run (w : World num) u id q :
  updateCartItem u id q w
  = if q <=? 0 then (inl QuantityMustBePositive, w)
    else
      match find (fun r => String.eqb (ci_id r) id && String.eqb (ci_userId r) u)
                 (cartItems (db w)) with
      | None => (inl CartItemNotFound, w)
      | Some r =>
          match find_product (db w) (ci_productId r) with
          | None => (inl PrismaError, w)
          | Some p =>
              if q >? p_stock p then (inl (OnlyInStock (p_stock p)), w)
              else
                match set_quantity (cartItems (db w)) id q with
                | Some cs =>
                    (inr (mkCartItem (with_quantity r q) p),
                     mkWorld (set_cartItems (db w) cs) (fault w))
                | None => (inl PrismaError, w)
                end
          end
      end.
Proof.
  unfold updateCartItem. destruct (q <=? 0); [reflexivity|].
  unfold bind at 1. unfold query.
  destruct (find _ (cartItems (db w))) as [r|]; [|reflexivity].
  unfold bind at 1. unfold include_product at 1. unfold bind, query.
  destruct (find_product (db w) (ci_productId r)) as [p|] eqn:P; [|reflexivity].
  simpl. destruct (q >? p_stock p); [reflexivity|].
  unfold write. destruct (set_quantity _ _ _) as [cs|]; simpl; [|reflexivity].
  unfold include_product, bind, query, find_product in *. simpl.
  rewrite P. reflexivity.
Qed.

(** [updateCartItem] on a cart table with distinct row ids: it refuses a
    quantity that is not positive before it reads anything; it refuses a row
    that is not the caller's as 'Cart item not found'; it refuses a quantity
    above the stock; otherwise the row, and no other row, takes the quantity.
    Nothing is written when it throws. *)
Theorem updateCartItem_sets_quantity
    (w : World num) (u id : string) (q : Z)
    (Hids : NoDup (map ci_id (cartItems (db w)))) :
  (q <= 0 -> updateCartItem u id q w = (inl QuantityMustBePositive, w))
  /\ (0 < q ->
      (forall r, In r (cartItems (db w)) -> ci_id r = id -> ci_userId r <> u) ->
      updateCartItem u id q w = (inl CartItemNotFound, w))
  /\ (forall r p,
        0 < q -> In r (cartItems (db w)) -> ci_id r = id -> ci_userId r = u ->
        find_product (db w) (ci_productId r) = Some p ->
        (p_stock p < q ->
           updateCartItem u id q w = (inl (OnlyInStock (p_stock p)), w))
        /\ (q <= p_stock p ->
            updateCartItem u id q w
            = (inr (mkCartItem (with_quantity r q) p),
               mkWorld (set_cartItems (db w)
                          (map (fun x => if String.eqb (ci_id x) id
                                         then with_quantity x q else x)
                               (cartItems (db w))))
                       (fault w))))
  /\ (forall e w', updateCartItem u id q w = (inl e, w') -> w' = w).
Proof.
  split; [|split; [|split]].
  - intros L. rewrite updateCartItem_run.
    destruct (Z.leb_spec q 0); [reflexivity|lia].
  - intros L N. rewrite updateCartItem_run.
    destruct (Z.leb_spec q 0); [lia|].
    destruct (find _ (cartItems (db w))) as [r|] eqn:F; [|reflexivity].
    apply find_owned in F as (I & E1 & E2). destruct (N r I E1 E2).
  - intros r p L I E1 E2 P. rewrite updateCartItem_run.
    destruct (Z.leb_spec q 0); [lia|].
    assert (F : find (fun r => String.eqb (ci_id r) id
                               && String.eqb (ci_userId r) u)
                     (cartItems (db w)) = Some r).
    { destruct (find _ (cartItems (db w))) as [r'|] eqn:F.
      - apply find_owned in F as (I' & E1' & E2'). f_equal.
        apply (in_nodup_map_eq ci_id (cartItems (db w))); congruence.
      - exfalso. apply (find_none _ _ F) in I.
        rewrite E1, E2, !String.eqb_refl in I. discriminate. }
    rewrite F, P. split; intros S.
    + destruct (Z.gtb_spec q (p_stock p)); [reflexivity|lia].
    + destruct (Z.gtb_spec q (p_stock p)); [lia|].
      destruct (set_quantity_some (cartItems (db w)) id q) as (cs & S').
      { rewrite <- E1. now apply in_map. }
      rewrite S'. now rewrite (set_quantity_map _ _ _ _ Hids S').
  - intros e w'. rewrite updateCartItem_run.
    destruct (q <=? 0); [now intros [= _ <-]|].
    destruct (find _ (cartItems (db w))) as [r|]; [|now intros [= _ <-]].
    destruct (find_product _ _) as [p|]; [|now intros [= _ <-]].
    destruct (q >? p_stock p); [now intros [= _ <-]|].
    destruct (set_quantity _ _ _); [discriminate|now intros [= _ <-]].
Qed.

End CartRows.

Section CartRemoval.
Context {num : Type} `{JSNumber num} `{scan : ScanOrder}.
Import CartService.

Lemma removeFromCart_run (w : World num) u id :
  removeFromCart u id w
  = match find (fun r => String.eqb (ci_id r) id && String.eqb (ci_userId r) u)
               (cartItems (db w)) with
    | None => (inl CartItemNotFound, w)
    | Some r =>
        match find_product (db w) (ci_productId r) with
        | None => (inl PrismaError, w)
        | Some p =>
            match delete_row (cartItems (db w)) id with
            | Some cs => (inr tt, mkWorld (set_cartItems (db w) cs) (fault w))
            | None => (inl PrismaError, w)
            end
        end
    end.
Proof.
  unfold removeFromCart. unfold bind at 1. unfold query.
  destruct (find _ (cartItems (db w))) as [r|]; [|reflexivity].
  unfold bind at 1. unfold include_product. unfold bind, query.
  destruct (find_product (db w) (ci_productId r)) as [p|]; [|reflexivity].
  simpl. unfold write. destruct (delete_row _ _) as [cs|]; reflexivity.
Qed.

Lemma find_owned_none_after_delete (cs : list CartItemRow) id u :
  find (fun r => String.eqb (ci_id r) id && String.eqb (ci_userId r) u)
       (filter (fun r => negb (String.eqb (ci_id r) id)) cs) = None.
Proof.
  induction cs as [|x cs IH]; simpl; [reflexivity|].
  destruct (String.eqb (ci_id x) id) eqn:E; simpl; [exact IH|].
  now rewrite E.
Qed.

(** [removeFromCart] on a cart table with distinct row ids: a row that is
    not the caller's is 'Cart item not found' and nothing is written; the
    caller's row is deleted and every other row stays; removing it a second
    time is 'Cart item not found'. *)
Theorem removeFromCart_deletes_row
    (w : World num) (u id : string)
    (Hids : NoDup (map ci_id (cartItems (db w)))) :
  ((forall r, In r (cartItems (db w)) -> ci_id r = id -> ci_userId r <> u) ->
   removeFromCart u id w = (inl CartItemNotFound, w))
  /\ (forall r p,
        In r (cartItems (db w)) -> ci_id r = id -> ci_userId r = u ->
        find_product (db w) (ci_productId r) = Some p ->
        let w' := mkWorld (set_cartItems (db w)
                             (filter (fun x => negb (String.eqb (ci_id x) id))
                                     (cartItems (db w))))
                          (fault w) in
        removeFromCart u id w = (inr tt, w')
        /\ ~ In r (cartItems (db w'))
        /\ (forall x, In x (cartItems (db w)) -> x <> r -> In x (cartItems (db w')))
        /\ removeFromCart u id w' = (inl CartItemNotFound, w')).
Proof.
  split.
  - intros N. rewrite removeFromCart_run.
    destruct (find _ (cartItems (db w))) as [r|] eqn:F; [|reflexivity].
    apply find_owned in F as (I & E1 & E2). destruct (N r I E1 E2).
  - intros r p I E1 E2 P w'.
    assert (F : find (fun r => String.eqb (ci_id r) id
                               && String.eqb (ci_userId r) u)
                     (cartItems (db w)) = Some r).
    { destruct (find _ (cartItems (db w))) as [r'|] eqn:F.
      - apply find_owned in F as (I' & E1' & E2'). f_equal.
        apply (in_nodup_map_eq ci_id (cartItems (db w))); congruence.
      - exfalso. apply (find_none _ _ F) in I.
        rewrite E1, E2, !String.eqb_refl in I. discriminate. }
    split; [|split; [|split]].
    + rewrite removeFromCart_run, F, P.
      destruct (delete_row_some (cartItems (db w)) id) as (cs & S).
      { rewrite <- E1. now apply in_map. }
      rewrite S. now rewrite (delete_row_filter _ _ _ Hids S).
    + subst w'. cbn [db cartItems set_cartItems]. intros I'.
      apply filter_In in I' as [_ N]. rewrite E1, String.eqb_refl in N.
      discriminate.
    + intros x Ix Nx. subst w'. cbn [db cartItems set_cartItems].
      apply filter_In. split; [exact Ix|].
      destruct (String.eqb_spec (ci_id x) id) as [E|E]; [|reflexivity].
      exfalso. apply Nx.
      apply (in_nodup_map_eq ci_id (cartItems (db w))); congruence.
    + rewrite removeFromCart_run. subst w'. cbn [db cartItems set_cartItems].
      now rewrite find_owned_none_after_delete.
Qed.

Lemma sum_Z_app (a b : list Z) : sum_Z (a ++ b) = sum_Z a + sum_Z b.
Proof. induction a as [|x a IH]; simpl; [reflexivity|]. rewrite IH. lia. Qed.

Lemma sum_Z_rev (l : list Z) : sum_Z (rev l) = sum_Z l.
Proof.
  induction l as [|x l IH]; simpl; [reflexivity|].
  rewrite sum_Z_app, IH. simpl. lia.
Qed.

Lemma getCartItemCount_run (w : World num) u :
  getCartItemCount u w = (inr (sum_Z (map ci_quantity (cart_rows (db w) u))), w).
Proof.
  unfold getCartItemCount, bind, query, ret, sum_quantity.
  destruct (cart_rows (db w) u) as [|r rows]; [reflexivity|].
  change (fold_right Z.add 0 (map ci_quantity (r :: rows)))
    with (sum_Z (map ci_quantity (r :: rows))).
  destruct (Z.eqb_spec (sum_Z (map ci_quantity (r :: rows))) 0) as [E|E];
    [now rewrite E|reflexivity].
Qed.

(** The count of the cart badge is the [totalItems] of the cart summary:
    whenever [getCart] returns, [getCartItemCount] returns the same number of
    items, and neither writes. *)
Theorem getCartItemCount_matches_summary
    (w w' : World num) (u : string) (s : CartSummary num)
    (Hcart : getCart u w = (inr s, w')) :
  getCartItemCount u w = (inr (totalItems s), w) /\ w' = w.
Proof.
  rewrite getCart_run in Hcart.
  destruct (join_products _ _) as [l|] eqn:J; [|discriminate].
  injection Hcart as <- <-. split; [|reflexivity].
  rewrite getCartItemCount_run, calculateCartSummary_fields. cbn [totalItems].
  destruct (join_products_rows _ _ _ J) as [<- _].
  rewrite map_rev, sum_Z_rev, map_map. reflexivity.
Qed.

(** [clearCart] always succeeds: afterwards the user's cart is empty and
    counts zero items, every other user's cart is as before, and nothing
    but cart rows was written.  Clearing again changes nothing. *)
Theorem clearCart_empties
    (w : World num) (u : string) :
  let w' := mkWorld (set_cartItems (db w) (without_user u (cartItems (db w))))
                    (fault w) in
  clearCart u w = (inr tt, w')
  /\ cart_rows (db w') u = []
  /\ (forall u', u' <> u -> cart_rows (db w') u' = cart_rows (db w) u')
  /\ getCartItemCount u w' = (inr 0, w')
  /\ validateCart u w'
     = (inr {| isValid := false; errors := [VCartIsEmpty];
               cart := calculateCartSummary [] |}, w')
  /\ clearCart u w' = (inr tt, w').
Proof.
  intros w'. assert (E : cart_rows (db w') u = []).
  { apply (cart_rows_without_user (db w)). }
  split; [reflexivity|]. split; [exact E|]. split; [|split; [|split]].
  - intros u' N. apply (cart_rows_without_other (db w) u u' N).
  - now rewrite getCartItemCount_run, E.
  - now rewrite validateCart_run, E, unordered_nil.
  - unfold clearCart, write. subst w'. cbn [db fault cartItems set_cartItems].
    do 2 f_equal. unfold set_cartItems. cbn [products orders orderItems].
    f_equal. unfold without_user. apply filter_all, Forall_forall.
    intros r I. now apply filter_In in I as [_ N].
Qed.

End CartRemoval.

(* ------------------------------------------------------------------ *)
(** ** The cart invariant *)

Section CartInvariant.
Context {num : Type} `{JSNumber num} `{scan : ScanOrder}.

Lemma cuid_not_cart_id (d : DB num) : ~ In (cuid d) (map ci_id (cartItems d)).
Proof.
  intros I. apply (cuid_fresh d). unfold db_ids.
  apply in_or_app. right. apply in_or_app. left.
  apply in_map_iff in I as (r & E & I). apply in_flat_map.
  exists r. split; [exact I|]. simpl. tauto.
Qed.

Lemma invariant_filter (d : DB num) (g : CartItemRow -> bool) :
  cart_invariant d ->
  cart_invariant (set_cartItems d (filter g (cartItems d))).
Proof.
  intros (D1 & D2 & F). unfold cart_invariant. cbn [cartItems set_cartItems].
  split; [now apply nodup_map_filter|]. split; [now apply nodup_map_filter|].
  apply Forall_forall. intros r I. apply filter_In in I as [I _].
  exact (proj1 (Forall_forall _ _) F r I).
Qed.

Lemma invariant_update (d : DB num) r p q :
  cart_invariant d ->
  In r (cartItems d) ->
  find_product d (ci_productId r) = Some p ->
  1 <= q <= p_stock p ->
  cart_invariant
    (set_cartItems d
       (map (fun x => if String.eqb (ci_id x) (ci_id r)
                      then with_quantity x q else x) (cartItems d))).
Proof.
  intros (D1 & D2 & F) I P Q. unfold cart_invariant.
  cbn [cartItems set_cartItems].
  assert (Same : forall A (f : CartItemRow -> A),
            (forall x q, f (with_quantity x q) = f x) ->
            map f (map (fun x => if String.eqb (ci_id x) (ci_id r)
                                 then with_quantity x q else x) (cartItems d))
            = map f (cartItems d)).
  { intros A f Hf. rewrite map_map. apply map_ext. intros x.
    destruct (String.eqb (ci_id x) (ci_id r)); [apply Hf|reflexivity]. }
  split; [rewrite Same; [exact D1|reflexivity]|].
  split; [rewrite Same; [exact D2|reflexivity]|].
  apply Forall_forall. intros x' I'. apply in_map_iff in I' as (x & E & Ix).
  destruct (String.eqb_spec (ci_id x) (ci_id r)) as [Ei|Ei].
  - assert (x = r) by (apply (in_nodup_map_eq ci_id (cartItems d)); trivial).
    subst x x'. exists p. split; [exact P|exact Q].
  - subst x'. exact (proj1 (Forall_forall _ _) F x Ix).
Qed.

Lemma nodup_snoc {A} (l : list A) (a : A) :
  NoDup l -> ~ In a l -> NoDup (l ++ [a]).
Proof.
  induction 1 as [|x l Hx D IH]; simpl; intros N.
  - constructor; [tauto|constructor].
  - constructor; [|apply IH; tauto].
    rewrite in_app_iff. simpl. intros [I|[E|[]]]; [tauto|]. apply N. now left.
Qed.

Lemma invariant_insert (d : DB num) u p q prod :
  cart_invariant d ->
  find (CartService.userId_productId u p) (cartItems d) = None ->
  find_product d p = Some prod ->
  1 <= q <= p_stock prod ->
  cart_invariant
    (set_cartItems d (cartItems d ++ [mkCartItemRow (cuid d) u p q])).
Proof.
  intros (D1 & D2 & F) N P Q. unfold cart_invariant.
  cbn [cartItems set_cartItems]. rewrite !map_app. simpl.
  split; [|split].
  - apply nodup_snoc; [exact D1|apply cuid_not_cart_id].
  - apply nodup_snoc; [exact D2|]. intros I.
    apply in_map_iff in I as (r & E & I). injection E as E1 E2.
    apply (find_none _ _ N) in I. unfold CartService.userId_productId in I.
    rewrite E1, E2, !String.eqb_refl in I. discriminate.
  - apply Forall_app. split; [exact F|]. constructor; [|constructor].
    exists prod. split; [exact P|exact Q].
Qed.

Lemma within_stock_joined (d : DB num) (rows : list CartItemRow) :
  Forall (within_stock d) rows ->
  exists found,
    join_products d rows = Some found
    /\ Forall (fun c => p_stock (ci_product c) <> 0
                        /\ ci_quantity (ci_row c) <= p_stock (ci_product c))
              found.
Proof.
  induction 1 as [|r rows (p & P & Q) _ (found & J & F)]; simpl.
  - exists []. split; [reflexivity|constructor].
  - rewrite P, J. eexists. split; [reflexivity|].
    constructor; [simpl; lia|exact F].
Qed.

Lemma forall_filter {A} (P : A -> Prop) (g : A -> bool) (l : list A) :
  Forall P l -> Forall P (filter g l).
Proof.
  intros F. apply Forall_forall. intros x I. apply filter_In in I as [I _].
  exact (proj1 (Forall_forall _ _) F x I).
Qed.

(** A handler that only answers leaves the world to the handled
    computation. *)
Lemma try_catch_world {A} (m : M num A) (h : Error -> M num A) (w : World num) :
  (forall e w0, snd (h e w0) = w0) ->
  snd (try_catch m h w) = snd (m w).
Proof.
  intros Hh. unfold try_catch. destruct (m w) as [[e|a] w']; [apply Hh|reflexivity].
Qed.

(** The service calls behind the cart endpoints keep the invariant and write
    cart rows only. *)
Lemma addToCart_keeps (w : World num) u p q :
  1 <= q ->
  cart_invariant (db w) ->
  cart_invariant (db (snd (CartService.addToCart u p q w)))
  /\ products (db (snd (CartService.addToCart u p q w))) = products (db w).
Proof.
  intros Q Inv. rewrite addToCart_run.
  destruct (find_product (db w) p) as [prod|] eqn:P; [|now split].
  destruct (Z.ltb_spec (p_stock prod) q); [now split|].
  destruct (find _ (cartItems (db w))) as [existing|] eqn:F.
  - destruct (Z.gtb_spec (ci_quantity existing + q) (p_stock prod));
      [now split|].
    destruct (set_quantity _ _ _) as [cs|] eqn:S; [|now split].
    cbn [snd db products set_cartItems]. split; [|reflexivity].
    pose proof Inv as (D1 & _ & Fw).
    rewrite (set_quantity_map _ _ _ _ D1 S).
    pose proof (find_some _ _ F) as [I E].
    apply andb_true_iff in E as [_ E]. apply String.eqb_eq in E.
    apply (invariant_update (db w) existing prod); trivial; [congruence|].
    destruct (proj1 (Forall_forall _ _) Fw existing I) as (p0 & _ & Q0). lia.
  - cbn [snd db products set_cartItems]. split; [|reflexivity].
    apply (invariant_insert (db w) u p q prod); trivial. lia.
Qed.

Lemma updateCartItem_keeps (w : World num) u id q :
  cart_invariant (db w) ->
  cart_invariant (db (snd (CartService.updateCartItem u id q w)))
  /\ products (db (snd (CartService.updateCartItem u id q w))) = products (db w).
Proof.
  intros Inv. rewrite updateCartItem_run.
  destruct (Z.leb_spec q 0); [now split|].
  destruct (find _ (cartItems (db w))) as [r|] eqn:F; [|now split].
  destruct (find_product _ _) as [p|] eqn:P; [|now split].
  destruct (Z.gtb_spec q (p_stock p)); [now split|].
  destruct (set_quantity _ _ _) as [cs|] eqn:S; [|now split].
  cbn [snd db products set_cartItems]. split; [|reflexivity].
  pose proof Inv as (D1 & _ & _). rewrite (set_quantity_map _ _ _ _ D1 S).
  apply find_owned in F as (I & E & _). rewrite <- E.
  apply (invariant_update (db w) r p); trivial. lia.
Qed.

Lemma removeFromCart_keeps (w : World num) u id :
  cart_invariant (db w) ->
  cart_invariant (db (snd (CartService.removeFromCart u id w)))
  /\ products (db (snd (CartService.removeFromCart u id w))) = products (db w).
Proof.
  intros Inv. rewrite removeFromCart_run.
  destruct (find _ (cartItems (db w))) as [r|]; [|now split].
  destruct (find_product _ _) as [p|]; [|now split].
  destruct (delete_row _ _) as [cs|] eqn:S; [|now split].
  cbn [snd db products set_cartItems]. split; [|reflexivity].
  pose proof Inv as (D1 & _ & _). rewrite (delete_row_filter _ _ _ D1 S).
  now apply invariant_filter.
Qed.

Lemma syncCartWithStock_keeps (w : World num) u :
  cart_invariant (db w) ->
  exists found, CartService.syncCartWithStock u w
                = (inr (CartService.mkSyncResult [] []), w)
                /\ join_products (db w) (cart_rows (db w) u) = Some found.
Proof.
  intros (D1 & _ & F).
  destruct (within_stock_joined (db w) (cart_rows (db w) u)) as (found & J & S).
  { now apply forall_filter. }
  exists found. split; [|exact J].
  destruct (lines_scanned (db w) u (cartItems (db w)) found J)
    as (scanned & Js & Perm).
  rewrite (syncCartWithStock_run w u D1). unfold cart_rows. rewrite Js.
  rewrite (sync_report_clean scanned (Permutation_Forall Perm S)).
  rewrite (sync_rows_fixed (db w) u _ found J S), set_cartItems_same.
  now destruct w.
Qed.

End CartInvariant.

Section CartRequests.
Context {num : Type} `{JSNumber num} `{scan : ScanOrder}.

Lemma bind_ret_world {A B} (m : M num A) (f : A -> B) (w : World num) :
  snd ((x <- m ;; ret (f x)) w) = snd (m w).
Proof. unfold bind, ret. destruct (m w) as [[e|a] w']; reflexivity. Qed.

(** The world after a request depends on the service call only. *)
Ltac to_service :=
  rewrite try_catch_world by (intros e w0; destruct e; reflexivity).

Lemma serve_keeps (r : CartRequest) (w : World num) :
  cart_invariant (db w) ->
  cart_invariant (db (serve r w))
  /\ products (db (serve r w)) = products (db w).
Proof.
  intros Inv. destruct r as [user|user pid q|user id q|user id|user|user|user|user];
    unfold serve.
  - unfold CartController.getCart. to_service.
    destruct user as [[uid role]|]; simpl; [|now split].
    destruct (String.eqb uid ""); simpl; [now split|].
    rewrite (bind_ret_world (CartService.getCart uid) (Success 200)).
    rewrite getCart_run. destruct (join_products _ _); now split.
  - unfold CartController.addToCart. to_service.
    destruct (negb (truthy (option_map userId user))); [now split|].
    destruct (negb (truthy pid)); [now split|].
    destruct q as [|z|]; simpl.
    + destruct (option_map userId user) as [u|], pid as [p|]; try now split.
      rewrite (bind_ret_world (CartService.addToCart u p 1) (Success 201)).
      apply addToCart_keeps; [lia|exact Inv].
    + destruct (Z.leb_spec z 0); [now split|].
      destruct (option_map userId user) as [u|], pid as [p|]; try now split.
      rewrite (bind_ret_world (CartService.addToCart u p z) (Success 201)).
      apply addToCart_keeps; [lia|exact Inv].
    + now split.
  - unfold CartController.updateCartItem. to_service.
    destruct (negb (truthy (option_map userId user))); [now split|].
    destruct (CartController.bad_quantity q); [now split|].
    destruct (option_map userId user) as [u|], q as [|z|]; try now split.
    rewrite (bind_ret_world (CartService.updateCartItem u id z) (Success 200)).
    now apply updateCartItem_keeps.
  - unfold CartController.removeFromCart. to_service.
    destruct (negb (truthy (option_map userId user))); [now split|].
    destruct (option_map userId user) as [u|]; [|now split].
    rewrite (bind_ret_world (CartService.removeFromCart u id)
               (fun _ => Success 200 tt)).
    now apply removeFromCart_keeps.
  - unfold CartController.clearCart. to_service.
    destruct (negb (truthy (option_map userId user))); [now split|].
    destruct (option_map userId user) as [u|]; [|now split].
    rewrite (bind_ret_world (CartService.clearCart u) (fun _ => Success 200 tt)).
    simpl. split; [|reflexivity]. now apply invariant_filter.
  - unfold CartController.getCartCount. to_service.
    destruct (negb (truthy (option_map userId user))); [now split|].
    destruct (option_map userId user) as [u|]; [|now split].
    rewrite (bind_ret_world (CartService.getCartItemCount u) (Success 200)).
    rewrite getCartItemCount_run. now split.
  - unfold CartController.validateCart. to_service.
    destruct (negb (truthy (option_map userId user))); [now split|].
    destruct (option_map userId user) as [u|]; [|now split].
    rewrite (bind_ret_world (CartService.validateCart u) (Success 200)).
    rewrite validateCart_run. destruct (join_products _ _); now split.
  - unfold CartController.syncCart. to_service.
    destruct (negb (truthy (option_map userId user))); [now split|].
    destruct (option_map userId user) as [u|]; [|now split].
    destruct (syncCartWithStock_keeps w u Inv) as (found & S & J).
    match goal with
    | |- context [snd (?m w)] => assert (E : snd (m w) = w)
    end.
    { unfold bind at 1. rewrite S.
      rewrite (bind_ret_world (CartService.getCart u)
                 (fun cart => Success 200 (CartService.mkSyncResult [] [], cart))).
      now rewrite getCart_run, J. }
    rewrite E. now split.
Qed.

(** Whatever requests the cart endpoints serve, in whatever order and for
    whatever users and bodies, a cart table that has distinct row ids, at
    most one row per user and product, and every row between one and the
    stock of its product keeps all of that; the products are never
    written. *)
Theorem cart_requests_keep_invariant
    (rs : list CartRequest) (w : World num)
    (Hinv : cart_invariant (db w)) :
  cart_invariant (db (serve_all rs w))
  /\ products (db (serve_all rs w)) = products (db w).
Proof.
  revert w Hinv. induction rs as [|r rs IH]; intros w Inv; [now split|].
  unfold serve_all in *. simpl.
  destruct (serve_keeps r w Inv) as [Inv' P'].
  destruct (IH (serve r w) Inv') as [Inv'' P'']. split; [exact Inv''|congruence].
Qed.

End CartRequests.

(* ------------------------------------------------------------------ *)
(** ** One user's cart and another user's requests *)

Section CartIsolation.
Context {num : Type} `{JSNumber num} `{scan : ScanOrder}.

Lemma rows_update_other (cs : list CartItemRow) i q u' :
  (forall x, In x cs -> ci_id x = i -> ci_userId x <> u') ->
  filter (fun r => String.eqb (ci_userId r) u')
         (map (fun x => if String.eqb (ci_id x) i then with_quantity x q else x)
              cs)
  = filter (fun r => String.eqb (ci_userId r) u') cs.
Proof.
  induction cs as [|x cs IH]; simpl; intros N; [reflexivity|].
  rewrite IH by (intros y I; apply N; now right).
  destruct (String.eqb_spec (ci_id x) i) as [E|E]; [|reflexivity].
  simpl. destruct (String.eqb_spec (ci_userId x) u') as [U|U]; [|reflexivity].
  destruct (N x (or_introl eq_refl) E U).
Qed.

Lemma rows_delete_other (cs : list CartItemRow) i u' :
  (forall x, In x cs -> ci_id x = i -> ci_userId x <> u') ->
  filter (fun r => String.eqb (ci_userId r) u')
         (filter (fun r => negb (String.eqb (ci_id r) i)) cs)
  = filter (fun r => String.eqb (ci_userId r) u') cs.
Proof.
  induction cs as [|x cs IH]; simpl; intros N; [reflexivity|].
  specialize (IH (fun y I => N y (or_intror I))).
  destruct (String.eqb_spec (ci_id x) i) as [E|E]; simpl.
  - destruct (String.eqb_spec (ci_userId x) u') as [U|U]; [|exact IH].
    destruct (N x (or_introl eq_refl) E U).
  - now rewrite IH.
Qed.

Lemma rows_clear_other (cs : list CartItemRow) u u' :
  u <> u' ->
  filter (fun r => String.eqb (ci_userId r) u') (without_user u cs)
  = filter (fun r => String.eqb (ci_userId r) u') cs.
Proof.
  intros N. unfold without_user. induction cs as [|x cs IH]; simpl; [reflexivity|].
  destruct (String.eqb_spec (ci_userId x) u) as [E|E]; simpl.
  - destruct (String.eqb_spec (ci_userId x) u'); [congruence|exact IH].
  - now rewrite IH.
Qed.

Lemma only_row_with_id (cs : list CartItemRow) r u u' :
  NoDup (map ci_id cs) -> In r cs -> ci_userId r = u -> u <> u' ->
  forall x, In x cs -> ci_id x = ci_id r -> ci_userId x <> u'.
Proof.
  intros D I U N x Ix E.
  assert (x = r) by (apply (in_nodup_map_eq ci_id cs); trivial).
  congruence.
Qed.

Lemma addToCart_other (w : World num) u p q u' :
  NoDup (map ci_id (cartItems (db w))) -> u <> u' ->
  cart_rows (db (snd (CartService.addToCart u p q w))) u' = cart_rows (db w) u'.
Proof.
  intros D N. rewrite addToCart_run.
  destruct (find_product (db w) p) as [prod|]; [|reflexivity].
  destruct (p_stock prod <? q); [reflexivity|].
  destruct (find _ (cartItems (db w))) as [existing|] eqn:F.
  - destruct (ci_quantity existing + q >? p_stock prod); [reflexivity|].
    destruct (set_quantity _ _ _) as [cs|] eqn:S; [|reflexivity].
    unfold cart_rows. cbn [snd db cartItems set_cartItems].
    rewrite (set_quantity_map _ _ _ _ D S).
    apply find_some in F as [I E]. unfold CartService.userId_productId in E.
    apply andb_true_iff in E as [E _]. apply String.eqb_eq in E.
    apply rows_update_other. now apply (only_row_with_id _ existing u).
  - unfold cart_rows. cbn [snd db cartItems set_cartItems].
    rewrite filter_app. simpl.
    destruct (String.eqb_spec u u'); [contradiction|apply app_nil_r].
Qed.

Lemma updateCartItem_other (w : World num) u id q u' :
  NoDup (map ci_id (cartItems (db w))) -> u <> u' ->
  cart_rows (db (snd (CartService.updateCartItem u id q w))) u'
  = cart_rows (db w) u'.
Proof.
  intros D N. rewrite updateCartItem_run.
  destruct (q <=? 0); [reflexivity|].
  destruct (find _ (cartItems (db w))) as [r|] eqn:F; [|reflexivity].
  destruct (find_product _ _) as [p|]; [|reflexivity].
  destruct (q >? p_stock p); [reflexivity|].
  destruct (set_quantity _ _ _) as [cs|] eqn:S; [|reflexivity].
  unfold cart_rows. cbn [snd db cartItems set_cartItems].
  rewrite (set_quantity_map _ _ _ _ D S).
  apply find_owned in F as (I & E & U). rewrite <- E.
  apply rows_update_other. now apply (only_row_with_id _ r u).
Qed.

Lemma removeFromCart_other (w : World num) u id u' :
  NoDup (map ci_id (cartItems (db w))) -> u <> u' ->
  cart_rows (db (snd (CartService.removeFromCart u id w))) u'
  = cart_rows (db w) u'.
Proof.
  intros D N. rewrite removeFromCart_run.
  destruct (find _ (cartItems (db w))) as [r|] eqn:F; [|reflexivity].
  destruct (find_product _ _) as [p|]; [|reflexivity].
  destruct (delete_row _ _) as [cs|] eqn:S; [|reflexivity].
  unfold cart_rows. cbn [snd db cartItems set_cartItems].
  rewrite (delete_row_filter _ _ _ D S).
  apply find_owned in F as (I & E & U). rewrite <- E.
  apply rows_delete_other. now apply (only_row_with_id _ r u).
Qed.

Ltac to_service :=
  rewrite try_catch_world by (intros e w0; destruct e; reflexivity).

Ltac signed_in user u' :=
  let u := fresh "u" in
  let N := fresh "N" in
  destruct (negb (truthy (option_map userId user))); [reflexivity|];
  destruct (option_map userId user) as [u|]; [|reflexivity];
  assert (N : u <> u') by congruence.

Lemma serve_isolated (r : CartRequest) (w : World num) (u' : string) :
  cart_invariant (db w) ->
  option_map userId (request_user r) <> Some u' ->
  cart_rows (db (serve r w)) u' = cart_rows (db w) u'.
Proof.
  intros Inv O. pose proof Inv as (D & _ & _).
  destruct r as [user|user pid q|user id q|user id|user|user|user|user];
    unfold serve; cbn [request_user] in O.
  - unfold CartController.getCart. to_service.
    destruct user as [[uid role]|]; simpl; [|reflexivity].
    destruct (String.eqb uid ""); simpl; [reflexivity|].
    rewrite (bind_ret_world (CartService.getCart uid) (Success 200)).
    rewrite getCart_run. now destruct (join_products _ _).
  - unfold CartController.addToCart. to_service.
    destruct (negb (truthy (option_map userId user))); [reflexivity|].
    destruct (negb (truthy pid)); [reflexivity|].
    destruct q as [|z|]; simpl.
    + destruct (option_map userId user) as [u|], pid as [p|]; try reflexivity.
      assert (N : u <> u') by congruence.
      rewrite (bind_ret_world (CartService.addToCart u p 1) (Success 201)).
      now apply addToCart_other.
    + destruct (z <=? 0); [reflexivity|].
      destruct (option_map userId user) as [u|], pid as [p|]; try reflexivity.
      assert (N : u <> u') by congruence.
      rewrite (bind_ret_world (CartService.addToCart u p z) (Success 201)).
      now apply addToCart_other.
    + reflexivity.
  - unfold CartController.updateCartItem. to_service.
    destruct (negb (truthy (option_map userId user))); [reflexivity|].
    destruct (CartController.bad_quantity q); [reflexivity|].
    destruct (option_map userId user) as [u|], q as [|z|]; try reflexivity.
    assert (N : u <> u') by congruence.
    rewrite (bind_ret_world (CartService.updateCartItem u id z) (Success 200)).
    now apply updateCartItem_other.
  - unfold CartController.removeFromCart. to_service.
    signed_in user u'.
    rewrite (bind_ret_world (CartService.removeFromCart u id)
               (fun _ => Success 200 tt)).
    now apply removeFromCart_other.
  - unfold CartController.clearCart. to_service.
    signed_in user u'.
    rewrite (bind_ret_world (CartService.clearCart u) (fun _ => Success 200 tt)).
    simpl. now apply rows_clear_other.
  - unfold CartController.getCartCount. to_service.
    signed_in user u'.
    rewrite (bind_ret_world (CartService.getCartItemCount u) (Success 200)).
    now rewrite getCartItemCount_run.
  - unfold CartController.validateCart. to_service.
    signed_in user u'.
    rewrite (bind_ret_world (CartService.validateCart u) (Success 200)).
    rewrite validateCart_run. now destruct (join_products _ _).
  - unfold CartController.syncCart. to_service.
    signed_in user u'.
    destruct (syncCartWithStock_keeps w u Inv) as (found & S & J).
    match goal with
    | |- context [snd (?m w)] => assert (E : snd (m w) = w)
    end.
    { unfold bind at 1. rewrite S.
      rewrite (bind_ret_world (CartService.getCart u)
                 (fun cart => Success 200 (CartService.mkSyncResult [] [], cart))).
      now rewrite getCart_run, J. }
    now rewrite E.
Qed.

(** No request to the cart endpoints changes the cart of a user who did not
    send it: on a cart table that satisfies the invariant, after any requests
    of other users and of callers who are not signed in, the rows of [u] are
    the ones before. *)
Theorem cart_requests_isolated
    (rs : list CartRequest) (w : World num) (u : string)
    (Hinv : cart_invariant (db w))
    (Hothers : Forall (fun r => option_map userId (request_user r) <> Some u)
                      rs) :
  cart_rows (db (serve_all rs w)) u = cart_rows (db w) u.
Proof.
  revert w Hinv. induction Hothers as [|r rs O _ IH]; intros w Inv;
    [reflexivity|].
  unfold serve_all in *. simpl.
  rewrite (IH (serve r w) (proj1 (serve_keeps r w Inv))).
  now apply serve_isolated.
Qed.

End CartIsolation.

(* ------------------------------------------------------------------ *)
(** ** After checkout *)

Section AfterCheckout.
Context {num : Type} `{JSNumber num} `{scan : ScanOrder}.
Import CartService OrderService.

Lemma createOrder_order_id (w w' : World num) u data o :
  createOrder u data w = (inr o, w') -> o_id (order_row o) = cuid (db w).
Proof.
  intros R. pose proof R as R0. rewrite createOrder_run in R.
  destruct (join_products _ _) as [l|] eqn:J; [|discriminate].
  destruct (validation_errors l) eqn:V; [|discriminate]. clear R.
  destruct (after_writes (fault w) (2 * List.length l + 2)) as [k'|] eqn:W.
  - destruct (move_stock_total _ _ (joined_products_exist _ _ _ J)) as (ps' & S).
    rewrite createOrder_run, J, V in R0. unfold transaction in R0.
    destruct w as [d k]. simpl in *.
    rewrite (createOrder_tx_ok d k k' ps' u data _ l W S) in R0.
    injection R0 as <- _. reflexivity.
  - destruct (createOrder_rolls_back w u data l J V W) as (e & w1 & R1 & _).
    rewrite R1 in R0. discriminate.
Qed.

Lemma find_where_absent (os : list (OrderRow num)) id scope :
  find (fun o => String.eqb (o_id o) id) os = None ->
  find (whereClause id scope) os = None.
Proof.
  induction os as [|x os IH]; simpl; [reflexivity|].
  unfold whereClause at 1.
  destruct (String.eqb (o_id x) id); [discriminate|]. simpl. exact IH.
Qed.

Lemma find_app_skip {A} (f : A -> bool) (l l' : list A) :
  find f l = None -> find f (l ++ l') = find f l'.
Proof.
  induction l as [|x l IH]; simpl; [reflexivity|].
  destruct (f x); [discriminate|exact IH].
Qed.

(** What the database holds of the order that [createOrder] returned. *)
Lemma createOrder_stored (w w' : World num) u data o :
  createOrder u data w = (inr o, w') ->
  find (fun x => String.eqb (o_id x) (o_id (order_row o))) (orders (db w)) = None
  /\ orders (db w') = orders (db w) ++ [order_row o]
  /\ items_of_order (db w') (o_id (order_row o)) = order_items o
  /\ o_userId (order_row o) = u
  /\ o_status (order_row o) = PENDING.
Proof.
  intros R. pose proof (createOrder_order_id _ _ _ _ _ R) as Id.
  destruct (createOrder_returned _ _ _ _ _ R) as (l & _ & _ & C & _).
  destruct C as (Eu & Es & _ & Eo & Ei & L & _).
  split; [|split; [|split; [|split]]]; trivial.
  - rewrite Id. apply find_none_of_fresh_id, cuid_not_order_id.
  - unfold items_of_order. rewrite Ei, filter_app, Id.
    rewrite (filter_none _ _ (cuid_not_item_order (db w))). simpl.
    apply filter_all. rewrite <- Id. clear - L.
    induction L as [|c i l its (E & _) _ IH]; constructor; [|exact IH].
    rewrite E. apply String.eqb_refl.
Qed.

(** The order that [createOrder] returned is the one [getOrderById] finds
    under its id, without a scope and for its owner, and it is hidden from
    every other user. *)
Theorem createOrder_then_getOrderById
    (w w' : World num) (u : string) (data : CreateOrderData) (o : Order num)
    (Hcreated : createOrder u data w = (inr o, w')) :
  getOrderById (o_id (order_row o)) None w' = (inr (Some o), w')
  /\ getOrderById (o_id (order_row o)) (Some u) w' = (inr (Some o), w')
  /\ (forall other,
        other <> u -> other <> ""%string ->
        getOrderById (o_id (order_row o)) (Some other) w' = (inr None, w')).
Proof.
  destruct (createOrder_stored _ _ _ _ _ Hcreated) as (Fr & Eo & Ei & Eu & _).
  assert (Found : forall scope,
            whereClause (o_id (order_row o)) scope (order_row o) = true ->
            getOrderById (o_id (order_row o)) scope w' = (inr (Some o), w')).
  { intros scope T. rewrite getOrderById_run, Eo.
    rewrite (find_app_skip _ _ _ (find_where_absent _ _ scope Fr)).
    simpl. rewrite T. simpl. unfold with_items. rewrite Ei. now destruct o. }
  split; [|split].
  - apply Found. unfold whereClause. simpl. now rewrite String.eqb_refl.
  - apply Found. unfold whereClause. rewrite String.eqb_refl, Eu. simpl.
    destruct (negb (String.eqb u "")); [apply String.eqb_refl|reflexivity].
  - intros other N1 N2. rewrite getOrderById_run, Eo.
    rewrite (find_app_skip _ _ _ (find_where_absent _ _ _ Fr)). simpl.
    unfold whereClause. rewrite String.eqb_refl, Eu. simpl.
    destruct (String.eqb_spec other ""); [contradiction|]. simpl.
    destruct (String.eqb_spec u other); [congruence|reflexivity].
Qed.

Lemma moved_order_moves (l : list (CartItem num)) (its : list (OrderItemRow num)) id :
  Forall2 (fun c i => oi_orderId i = id
                      /\ oi_productId i = ci_productId (ci_row c)
                      /\ oi_quantity i = ci_quantity (ci_row c)
                      /\ oi_price i = snapshot_price c) l its ->
  forall p, moved (order_moves its) p = ordered l p.
Proof.
  intros L p. unfold moved, ordered, order_moves. f_equal.
  induction L as [|c i l its (_ & Ep & Eq & _) _ IH]; simpl; [reflexivity|].
  rewrite Ep. destruct (String.eqb (ci_productId (ci_row c)) p); simpl;
    [unfold quantity_of; now rewrite Eq, IH|exact IH].
Qed.

(** Cancelling the order that a checkout just created undoes the checkout's
    effect on the stock: every product is back at the stock it had before
    [createOrder].  The cart is not restored: it stays empty. *)
Theorem createOrder_then_cancelOrder
    (w w' : World num) (u : string) (data : CreateOrderData) (o : Order num)
    (Hcreated : createOrder u data w = (inr o, w'))
    (Hfault : fault w' = None) :
  exists r w'',
    cancelOrder (o_id (order_row o)) (Some u) w' = (inr r, w'')
    /\ o_status (order_row r) = CANCELLED
    /\ order_items r = order_items o
    /\ (forall id, stock_of (db w'') id = stock_of (db w) id)
    /\ cart_rows (db w'') u = [].
Proof.
  destruct (createOrder_stored _ _ _ _ _ Hcreated) as (Fr & Eo & Ei & Eu & Es).
  destruct (createOrder_returned _ _ _ _ _ Hcreated) as (l & J & _ & C & _).
  destruct C as (_ & _ & _ & _ & _ & L & Ids & St & Ca & _).
  assert (F : find_order (db w') (o_id (order_row o)) = Some (order_row o)).
  { unfold find_order. rewrite Eo, (find_app_skip _ _ _ Fr). simpl.
    now rewrite String.eqb_refl. }
  assert (O : passes_ownership (Some u) (order_row o)).
  { right. now rewrite Eu. }
  assert (P : Forall (fun m => In (fst m) (map p_id (products (db w'))))
                     (order_moves (items_of_order (db w') (o_id (order_row o))))).
  { rewrite Ei, Ids. pose proof (joined_products_exist _ _ _ J) as E.
    unfold cart_moves, order_moves in *. rewrite Forall_map in *. clear - L E.
    induction L as [|c i l its (_ & Ep & _) _ IH]; [constructor|].
    inversion E; subst. constructor; [simpl in *; now rewrite Ep|now apply IH]. }
  destruct (move_stock_total _ _ P) as (ps' & S).
  destruct (cancelOrder_commits w' (o_id (order_row o)) (Some u) (order_row o)
              None ps' F O (or_introl Es))
    as (r & d'' & R & Cd); [rewrite Hfault; apply after_writes_none|exact S|].
  destruct Cd as (Er & Eit & _ & _ & _ & St' & Ec & _).
  exists r, (mkWorld d'' None). split; [exact R|]. split; [now rewrite Er|].
  split; [now rewrite Eit, Ei|]. split.
  - intros id. cbn [db]. rewrite St', St, Ei, (moved_order_moves l _ _ L).
    destruct (stock_of (db w) id); simpl; [f_equal; lia|reflexivity].
  - cbn [db]. unfold cart_rows in *. now rewrite Ec.
Qed.

End AfterCheckout.

Section NoOversell.
Context {num : Type} `{JSNumber num} `{scan : ScanOrder}.
Import CartService OrderService.

Lemma stock_errors_nil (l : list (CartItem num)) :
  stock_errors l = [] ->
  Forall (fun c => ci_quantity (ci_row c) <= p_stock (ci_product c)) l.
Proof.
  unfold stock_errors. induction l as [|c l IH]; simpl; [constructor|].
  destruct (Z.ltb_spec (p_stock (ci_product c)) (ci_quantity (ci_row c)));
    [discriminate|].
  intros E. constructor; [assumption|now apply IH].
Qed.

(** A call of [createOrder] that runs alone, no other request being served
    between its validation and its transaction, leaves no stock negative
    when none was and the user's cart holds each product at most once. *)
Lemma createOrder_alone_keeps_stock_nonnegative
    (w w' : World num) (u : string) (data : CreateOrderData) (o : Order num)
    (Hcreated : createOrder u data w = (inr o, w'))
    (Hunique : NoDup (map ci_productId (cart_rows (db w) u)))
    (Hstock : Forall (fun p => 0 <= p_stock p) (products (db w))) :
  forall id s, stock_of (db w') id = Some s -> 0 <= s.
Proof.
  destruct (createOrder_returned _ _ _ _ _ Hcreated) as (l & J & V & C & _).
  destruct C as (_ & _ & _ & _ & _ & _ & _ & St & _).
  destruct (join_products_rows _ _ _ J) as [Rows Prods].
  destruct (validation_errors_nil l V) as [_ E].
  pose proof (stock_errors_nil l E) as Q.
  intros id s. rewrite St. unfold stock_of.
  destruct (find_product (db w) id) as [p|] eqn:P; [|discriminate].
  simpl. intros [= <-].
  assert (P0 : 0 <= p_stock p).
  { unfold find_product in P. apply find_some in P as [I _].
    exact (proj1 (Forall_forall _ _) Hstock p I). }
  destruct (in_dec string_dec id (map (fun c => ci_productId (ci_row c)) l))
    as [I|I].
  - apply in_map_iff in I as (c & Ec & Ic).
    rewrite <- Ec, ordered_unique; trivial.
    + pose proof (proj1 (Forall_forall _ _) Prods c Ic) as Pc. simpl in Pc.
      rewrite Ec, P in Pc. injection Pc as ->.
      pose proof (proj1 (Forall_forall _ _) Q c Ic) as Qc. simpl in Qc.
      unfold quantity_of. lia.
    + rewrite <- (map_map ci_row ci_productId), Rows.
      apply (Permutation_NoDup
               (Permutation_map ci_productId
                  (Permutation_sym (unordered_perm _))) Hunique).
  - rewrite (ordered_absent l id I). lia.
Qed.

Lemma createOrder_awaits (u : string) (data : CreateOrderData) (w : World num) :
  createOrder u data w
  = (v <- validateCart u ;; createOrder_resume u data v) w.
Proof. reflexivity. Qed.

(** The rest of [createOrder] commits whatever cart a validation accepted,
    whether or not that cart is still the one in the database. *)
Lemma createOrder_resume_commits (w : World num) u data
    (v : CartValidation num) (l : list (CartItem num)) k' :
  isValid v = true ->
  cart v = calculateCartSummary l ->
  l <> [] ->
  Forall (fun m => In (fst m) (map p_id (products (db w)))) (cart_moves l) ->
  after_writes (fault w) (2 * List.length l + 2) = Some k' ->
  exists o d',
    createOrder_resume u data v w = (inr o, mkWorld d' k')
    /\ checked_out (db w) d' u l o.
Proof.
  intros Ok Ec N Ps W.
  destruct (move_stock_total _ _ Ps) as (ps' & S).
  unfold createOrder_resume. rewrite Ok, Ec, items_calculateCartSummary.
  cbn [negb]. destruct l as [|c l]; [contradiction|].
  cbn [List.length Nat.eqb]. unfold bind, transaction.
  destruct w as [d k]. cbn [db fault] in *.
  rewrite (createOrder_tx_ok d k k' ps' u data _ (c :: l) W S).
  eexists _, _. split; [reflexivity|].
  destruct (move_stock_find _ _ _ S) as [Ids F].
  unfold checked_out. cbn [db order_row order_items o_userId o_status
                           o_paymentStatus o_id orders orderItems products].
  repeat split.
  - apply new_order_items_lines.
  - exact Ids.
  - intros id. unfold stock_of, find_product. cbn [products].
    rewrite F, moved_cart_moves.
    destruct (find _ (products d)); reflexivity.
  - apply (cart_rows_without_user d).
  - intros u' N'. apply (cart_rows_without_other d u u' N').
Qed.

(** [createOrder] oversells when two calls interleave.  The validation is
    awaited outside the transaction, and the transaction decrements the
    stock without looking at it.  So when two checkouts (of two users, or
    the same user twice) have both been validated against the same
    database, and the database fails no write, both transactions commit:
    there are two orders, and the stock of every product has dropped by
    what both carts hold of it, below zero when that is more than was
    there. *)
Theorem createOrder_interleaved_oversells
    (w : World num) (a b : string) (da db_ : CreateOrderData)
    (va vb : CartValidation num)
    (Hfault : fault w = None)
    (Hva : validateCart a w = (inr va, w)) (Hoka : isValid va = true)
    (Hvb : validateCart b w = (inr vb, w)) (Hokb : isValid vb = true) :
  createOrder a da w = (v <- validateCart a ;; createOrder_resume a da v) w
  /\ exists oa w1 ob w2,
       createOrder_resume a da va w = (inr oa, w1)
       /\ createOrder_resume b db_ vb w1 = (inr ob, w2)
       /\ o_userId (order_row oa) = a
       /\ o_userId (order_row ob) = b
       /\ orders (db w2) = orders (db w) ++ [order_row oa; order_row ob]
       /\ (forall id,
             stock_of (db w2) id
             = option_map (fun s => s - ordered (items (cart va)) id
                                      - ordered (items (cart vb)) id)
                          (stock_of (db w) id))
       /\ (forall id s,
             stock_of (db w) id = Some s ->
             s < ordered (items (cart va)) id + ordered (items (cart vb)) id ->
             exists s', stock_of (db w2) id = Some s' /\ s' < 0).
Proof.
  split; [reflexivity|].
  destruct (validated_cart w a va Hva Hoka) as (la & Ja & Va & Ea).
  destruct (validated_cart w b vb Hvb Hokb) as (lb & Jb & Vb & Eb).
  destruct (validation_errors_nil la Va) as [Na _].
  destruct (validation_errors_nil lb Vb) as [Nb _].
  destruct (createOrder_resume_commits w a da va la None Hoka Ea Na
              (joined_products_exist _ _ _ Ja))
    as (oa & d1 & Ra & Ca); [rewrite Hfault; apply after_writes_none|].
  destruct Ca as (Ua & _ & _ & Oa & _ & _ & Ids & Sa & _).
  destruct (createOrder_resume_commits (mkWorld d1 None) b db_ vb lb None
              Hokb Eb Nb)
    as (ob & d2 & Rb & Cb).
  { cbn [db]. rewrite Ids. exact (joined_products_exist _ _ _ Jb). }
  { apply after_writes_none. }
  destruct Cb as (Ub & _ & _ & Ob & _ & _ & _ & Sb & _).
  cbn [db] in Ob, Sb.
  assert (St : forall id,
            stock_of d2 id
            = option_map (fun s => s - ordered (items (cart va)) id
                                     - ordered (items (cart vb)) id)
                         (stock_of (db w) id)).
  { intros id. rewrite Sb, Sa, Ea, Eb, !items_calculateCartSummary.
    now destruct (stock_of (db w) id). }
  exists oa, (mkWorld d1 None), ob, (mkWorld d2 None).
  split; [exact Ra|]. split; [exact Rb|]. split; [exact Ua|].
  split; [exact Ub|]. cbn [db]. split; [|split].
  - rewrite Ob, Oa, <- app_assoc. reflexivity.
  - exact St.
  - intros id s E L. rewrite St, E. simpl. eexists. split; [reflexivity|lia].
Qed.

End NoOversell.

(* ------------------------------------------------------------------ *)
(** ** Status and payment status *)

Section StatusUpdates.
Context {num : Type} `{JSNumber num} `{scan : ScanOrder}.
Import OrderService.

Lemma validTransitions_rank (a b : OrderStatus) :
  includes (validTransitions a) b = true -> (rank a < rank b)%nat.
Proof. destruct a, b; simpl; intros E; (discriminate || lia). Qed.

Lemma set_status_other (os os' : list (OrderRow num)) id s id' :
  set_status os id s = Some os' ->
  id' <> id ->
  find (fun o => String.eqb (o_id o) id') os'
  = find (fun o => String.eqb (o_id o) id') os.
Proof.
  revert os'. induction os as [|x os IH]; simpl; intros os' S N; [discriminate|].
  destruct (String.eqb_spec (o_id x) id) as [E|E].
  - injection S as <-. simpl.
    destruct (String.eqb_spec (o_id x) id'); [congruence|reflexivity].
  - destruct (set_status os id s) as [os1|]; [|discriminate].
    injection S as <-. simpl. destruct (String.eqb (o_id x) id'); [reflexivity|].
    now apply IH.
Qed.

(** A status update that goes through moves the order forward in the
    lifecycle and changes nothing else: the other fields of the order, the
    other orders, the order items, the carts and the products are as before.
    In particular a cancellation through [updateOrderStatus] returns nothing
    to the stock. *)
Theorem updateOrderStatus_only_moves_forward
    (w w' : World num) (id : string) (s : OrderStatus) (admin : option string)
    (r : Order num)
    (Hupdated : updateOrderStatus id s admin w = (inr r, w')) :
  exists o,
    find_order (db w) id = Some o
    /\ (rank (o_status o) < rank s)%nat
    /\ order_row r = with_status o s
    /\ find_order (db w') id = Some (with_status o s)
    /\ (forall id', id' <> id -> find_order (db w') id' = find_order (db w) id')
    /\ products (db w') = products (db w)
    /\ cartItems (db w') = cartItems (db w)
    /\ orderItems (db w') = orderItems (db w).
Proof.
  destruct (find_order (db w) id) as [o|] eqn:F.
  2:{ rewrite (updateOrderStatus_missing w id s admin F) in Hupdated.
      discriminate. }
  exists o. split; [reflexivity|].
  destruct (includes (validTransitions (o_status o)) s) eqn:A.
  2:{ rewrite (updateOrderStatus_refused w id s admin o F A) in Hupdated.
      discriminate. }
  destruct (updateOrderStatus_allowed w id s admin o F A) as (os' & S & R & F').
  rewrite R in Hupdated. injection Hupdated as <- <-.
  split; [now apply validTransitions_rank|].
  split; [reflexivity|]. split; [exact F'|].
  split; [|repeat split].
  intros id' N. unfold find_order. cbn [db orders set_orders].
  now apply (set_status_other _ _ id s).
Qed.

Lemma set_payment_status_found (os : list (OrderRow num)) id s o :
  find (fun o => String.eqb (o_id o) id) os = Some o ->
  exists os',
    set_payment_status os id s = Some os'
    /\ find (fun o => String.eqb (o_id o) id) os'
       = Some (with_payment_status o s)
    /\ forall id', id' <> id ->
         find (fun o => String.eqb (o_id o) id') os'
         = find (fun o => String.eqb (o_id o) id') os.
Proof.
  induction os as [|x os IH]; simpl; [discriminate|].
  destruct (String.eqb_spec (o_id x) id) as [E|E].
  - intros [= ->]. eexists. split; [reflexivity|]. simpl.
    destruct (String.eqb_spec (o_id o) id); [|contradiction].
    split; [reflexivity|]. intros id' N.
    destruct (String.eqb_spec (o_id o) id'); [congruence|reflexivity].
  - intros F. destruct (IH F) as (os' & -> & F' & Fo). eexists.
    split; [reflexivity|]. simpl.
    destruct (String.eqb_spec (o_id x) id); [contradiction|].
    split; [exact F'|]. intros id' N.
    destruct (String.eqb (o_id x) id'); [reflexivity|now apply Fo].
Qed.

Lemma set_payment_status_missing (os : list (OrderRow num)) id s :
  find (fun o => String.eqb (o_id o) id) os = None ->
  set_payment_status os id s = None.
Proof.
  induction os as [|x os IH]; simpl; [reflexivity|].
  destruct (String.eqb (o_id x) id); [discriminate|].
  intros F. now rewrite (IH F).
Qed.

(** [updatePaymentStatus] checks nothing: on an order that exists every
    payment status is accepted, whatever the current one and whatever the
    order status, and only the payment status of that order changes; on an
    id that no order has it throws Prisma's error, not 'Order not found',
    and writes nothing. *)
Theorem updatePaymentStatus_unchecked
    (w : World num) (id : string) (s : PaymentStatus) :
  (find_order (db w) id = None ->
   updatePaymentStatus id s w = (inl PrismaError, w))
  /\ (forall o,
        find_order (db w) id = Some o ->
        exists r w',
          updatePaymentStatus id s w = (inr r, w')
          /\ order_row r = with_payment_status o s
          /\ o_status (order_row r) = o_status o
          /\ find_order (db w') id = Some (with_payment_status o s)
          /\ (forall id', id' <> id ->
                find_order (db w') id' = find_order (db w) id')
          /\ products (db w') = products (db w)
          /\ cartItems (db w') = cartItems (db w)
          /\ orderItems (db w') = orderItems (db w)).
Proof.
  split.
  - intros F. unfold updatePaymentStatus, write.
    now rewrite (set_payment_status_missing _ _ s F).
  - intros o F.
    destruct (set_payment_status_found (orders (db w)) id s o F)
      as (os' & S & F' & Fo).
    unfold updatePaymentStatus, write. rewrite S.
    unfold find_order at 1. cbn [orders set_orders]. rewrite F'. simpl.
    eexists _, _. split; [reflexivity|]. cbn [order_row db].
    repeat split; trivial.
Qed.

End StatusUpdates.

(* ------------------------------------------------------------------ *)
(** ** Pages of orders *)

Section Pages.
Context {num : Type} `{JSNumber num} `{scan : ScanOrder}.
Import OrderService.

Lemma totalPages_covers (total : nat) (limit : positive) :
  (total <= totalPages_of total limit * Pos.to_nat limit)%nat.
Proof.
  unfold totalPages_of. pose proof (Pos2Nat.is_pos limit) as P.
  set (n := Pos.to_nat limit) in *.
  pose proof (Nat.div_mod_eq (total + n - 1) n) as D.
  pose proof (Nat.mod_upper_bound (total + n - 1) n ltac:(lia)) as U.
  nia.
Qed.

Lemma totalPages_tight (total : nat) (limit : positive) :
  (0 < total)%nat ->
  (0 < totalPages_of total limit)%nat
  /\ ((totalPages_of total limit - 1) * Pos.to_nat limit < total)%nat.
Proof.
  intros T. unfold totalPages_of. pose proof (Pos2Nat.is_pos limit) as P.
  set (n := Pos.to_nat limit) in *.
  pose proof (Nat.div_mod_eq (total + n - 1) n) as D.
  pose proof (Nat.mod_upper_bound (total + n - 1) n ltac:(lia)) as U.
  assert (0 < (total + n - 1) / n)%nat.
  { apply Nat.div_str_pos. lia. }
  split; [assumption|]. nia.
Qed.

Lemma paginate_chunks {A} (n : nat) (l : list A) (m : nat) :
  (0 < n)%nat ->
  (List.length l <= m * n)%nat ->
  flat_map (fun k => paginate (k * n) n l) (seq 0 m) = l.
Proof.
  intros N. revert l. induction m as [|m IH]; intros l L.
  - destruct l; [reflexivity|simpl in L; lia].
  - rewrite <- cons_seq, <- seq_shift. cbn [flat_map].
    rewrite flat_map_concat_map, map_map, <- flat_map_concat_map.
    rewrite (flat_map_ext _ (fun k => paginate (k * n) n (skipn n l))).
    + rewrite IH.
      * unfold paginate. simpl. apply firstn_skipn.
      * rewrite length_skipn. simpl in L. lia.
    + intros k. unfold paginate. rewrite skipn_skipn.
      f_equal. f_equal. simpl. lia.
Qed.

Lemma find_page_run (where_ : OrderRow num -> bool) (page limit : positive)
    (w : World num) :
  find_page where_ page limit w
  = (inr {| page_orders :=
              map (with_items (db w))
                  (paginate ((Pos.to_nat page - 1) * Pos.to_nat limit)
                            (Pos.to_nat limit)
                            (rev (filter where_ (orders (db w)))));
            pagination :=
              {| pg_page := page;
                 pg_limit := limit;
                 pg_total := List.length (filter where_ (orders (db w)));
                 pg_totalPages :=
                   totalPages_of (List.length (filter where_ (orders (db w))))
                                 limit |} |}, w).
Proof. reflexivity. Qed.

Lemma paginate_incl {A} (skip take : nat) (l : list A) x :
  In x (paginate skip take l) -> In x l.
Proof.
  unfold paginate. intros I.
  rewrite <- (firstn_skipn skip l). apply in_or_app. right.
  rewrite <- (firstn_skipn take (skipn skip l)). apply in_or_app. now left.
Qed.

Lemma paginate_length {A} (skip take : nat) (l : list A) :
  List.length (paginate skip take l)
  = Nat.min take (List.length l - skip).
Proof. unfold paginate. now rewrite length_firstn, length_skipn. Qed.

(** What a page of a filtered, newest-first listing holds: only orders that
    pass the filter, [limit] of them on every page before the last, the rest
    on the last, none beyond it; the pages one after another are the whole
    listing, each order once; and nothing is written. *)
Lemma find_page_pages (where_ : OrderRow num -> bool) (limit : positive)
    (w : World num) :
  let listing := rev (filter where_ (orders (db w))) in
  let pages := totalPages_of (List.length listing) limit in
  (forall page, exists pg,
      find_page where_ page limit w = (inr pg, w)
      /\ Forall (fun o => where_ (order_row o) = true
                          /\ In (order_row o) (orders (db w))
                          /\ order_items o
                             = items_of_order (db w) (o_id (order_row o)))
                (page_orders pg)
      /\ List.length (page_orders pg)
         = Nat.min (Pos.to_nat limit)
                   (List.length listing
                    - (Pos.to_nat page - 1) * Pos.to_nat limit)
      /\ pg_total (pagination pg) = List.length listing
      /\ pg_totalPages (pagination pg) = pages
      /\ ((Pos.to_nat page <= pages)%nat <-> page_orders pg <> []))
  /\ flat_map (fun k =>
                 match find_page where_ (Pos.of_succ_nat k) limit w with
                 | (inr pg, _) => map order_row (page_orders pg)
                 | (inl _, _) => []
                 end) (seq 0 pages)
     = listing.
Proof.
  intros listing pages. pose proof (Pos2Nat.is_pos limit) as P.
  assert (Llen : List.length listing
                 = List.length (filter where_ (orders (db w)))).
  { unfold listing. apply length_rev. }
  split.
  - intros page. rewrite find_page_run. eexists. split; [reflexivity|].
    cbn [page_orders pagination pg_total pg_totalPages].
    fold listing. rewrite <- Llen. fold pages.
    split; [|split; [|split; [|split]]]; trivial.
    + apply Forall_forall. intros o I. apply in_map_iff in I.
      destruct I as (r & <- & I). apply paginate_incl in I.
      unfold listing in I. apply in_rev, filter_In in I.
      destruct I as [I W]. unfold with_items. cbn [order_row order_items].
      repeat split; assumption.
    + now rewrite length_map, paginate_length.
    + pose proof (Pos2Nat.is_pos page) as Pp.
      pose proof (totalPages_covers (List.length listing) limit) as C.
      fold pages in C.
      assert (E : List.length
                    (map (with_items (db w))
                       (paginate ((Pos.to_nat page - 1) * Pos.to_nat limit)
                                 (Pos.to_nat limit) listing))
                  = Nat.min (Pos.to_nat limit)
                      (List.length listing
                       - (Pos.to_nat page - 1) * Pos.to_nat limit)).
      { now rewrite length_map, paginate_length. }
      split.
      * intros Le Nil. rewrite Nil in E. simpl in E.
        destruct (Nat.eq_dec (List.length listing) 0) as [T|T].
        { assert (Z0 : pages = 0%nat).
          { unfold pages, totalPages_of. rewrite T, Nat.add_0_l.
            apply Nat.div_small. lia. }
          lia. }
        destruct (totalPages_tight (List.length listing) limit ltac:(lia))
          as [Q1 Q2].
        fold pages in Q1, Q2. nia.
      * intros NN. destruct (le_lt_dec (Pos.to_nat page) pages) as [|G];
          [assumption|]. exfalso. apply NN.
        apply length_zero_iff_nil. rewrite E. nia.
  - rewrite (flat_map_ext _
      (fun k => paginate (k * Pos.to_nat limit) (Pos.to_nat limit) listing)).
    + apply paginate_chunks; [assumption|]. apply totalPages_covers.
    + intros k. rewrite find_page_run. cbn [page_orders].
      rewrite map_map. cbn [with_items order_row]. rewrite map_id.
      fold listing. rewrite SuccNat2Pos.id_succ. f_equal. lia.
Qed.

End Pages.

Section Listings.
Context {num : Type} `{JSNumber num} `{scan : ScanOrder}.
Import OrderService.

Lemma PaymentStatus_eqb_eq (a b : PaymentStatus) :
  PaymentStatus_eqb a b = true <-> a = b.
Proof. destruct a, b; simpl; split; congruence. Qed.

(** The pages of [getUserOrders] hold orders of that user only, each with
    its own items, at most [limit] of them, and an empty page exactly beyond
    [totalPages]; read one after another, pages 1 to [totalPages] are the
    user's orders, newest first, each once.  Nothing is written. *)
Theorem getUserOrders_pages (w : World num) (u : string) (limit : positive) :
  let pages := totalPages_of (List.length (orders_of (db w) u)) limit in
  (forall page, exists pg,
      getUserOrders u page limit w = (inr pg, w)
      /\ Forall (fun o => o_userId (order_row o) = u
                          /\ In (order_row o) (orders (db w))
                          /\ order_items o
                             = items_of_order (db w) (o_id (order_row o)))
                (page_orders pg)
      /\ (List.length (page_orders pg) <= Pos.to_nat limit)%nat
      /\ pg_total (pagination pg) = List.length (orders_of (db w) u)
      /\ pg_totalPages (pagination pg) = pages
      /\ ((Pos.to_nat page <= pages)%nat <-> page_orders pg <> []))
  /\ flat_map (fun k =>
                 match getUserOrders u (Pos.of_succ_nat k) limit w with
                 | (inr pg, _) => map order_row (page_orders pg)
                 | (inl _, _) => []
                 end) (seq 0 pages)
     = orders_of (db w) u.
Proof.
  intros pages.
  destruct (find_page_pages (fun o => String.eqb (o_userId o) u) limit w)
    as [P C].
  split; [|exact C].
  intros page. destruct (P page) as (pg & R & F & L & T & TP & N).
  exists pg. split; [exact R|]. split; [|split; [|split; [|split]]]; trivial.
  - eapply Forall_impl; [|exact F]. intros o (W & I & It).
    apply String.eqb_eq in W. now repeat split.
  - rewrite L. apply Nat.le_min_l.
Qed.

(** [getAllOrders] filters by the order status and the payment status that
    are given and by nothing else: a page holds only orders that match, and
    pages 1 to [totalPages] hold every order that matches, newest first,
    each once; with neither filter these are all the orders of the shop. *)
Theorem getAllOrders_pages (w : World num) (limit : positive)
    (status : option OrderStatus) (paymentStatus : option PaymentStatus) :
  let matches o :=
    match status with Some s => o_status o = s | None => True end
    /\ match paymentStatus with
       | Some s => o_paymentStatus o = s
       | None => True
       end in
  (forall page, exists pg,
      getAllOrders page limit status paymentStatus w = (inr pg, w)
      /\ Forall (fun o => matches (order_row o)
                          /\ In (order_row o) (orders (db w)))
                (page_orders pg)
      /\ (List.length (page_orders pg) <= Pos.to_nat limit)%nat)
  /\ (forall o,
        In o (orders (db w)) -> matches o ->
        exists page pg,
          getAllOrders page limit status paymentStatus w = (inr pg, w)
          /\ In o (map order_row (page_orders pg)))
  /\ (status = None -> paymentStatus = None ->
      flat_map (fun k =>
                  match getAllOrders (Pos.of_succ_nat k) limit None None w with
                  | (inr pg, _) => map order_row (page_orders pg)
                  | (inl _, _) => []
                  end)
               (seq 0 (totalPages_of (List.length (orders (db w))) limit))
      = rev (orders (db w))).
Proof.
  intros matches.
  set (where_ := fun o : OrderRow num =>
         match status with
         | Some s => OrderStatus_eqb (o_status o) s
         | None => true
         end
         && match paymentStatus with
            | Some s => PaymentStatus_eqb (o_paymentStatus o) s
            | None => true
            end).
  assert (W : forall o, where_ o = true <-> matches o).
  { intros o. unfold where_, matches. rewrite andb_true_iff.
    destruct status, paymentStatus;
      rewrite ?OrderStatus_eqb_eq, ?PaymentStatus_eqb_eq; tauto. }
  destruct (find_page_pages where_ limit w) as [P C].
  split; [|split].
  - intros page. destruct (P page) as (pg & R & F & L & _).
    exists pg. split; [exact R|]. split.
    + eapply Forall_impl; [|exact F]. intros o (Wo & I & _).
      split; [now apply W|assumption].
    + rewrite L. apply Nat.le_min_l.
  - intros o I Mo.
    assert (J : In o (rev (filter where_ (orders (db w))))).
    { apply -> in_rev. apply filter_In. split; [assumption|now apply W]. }
    rewrite <- C in J. apply in_flat_map in J. destruct J as (k & _ & J).
    destruct (P (Pos.of_succ_nat k)) as (pg & R & _).
    rewrite R in J. exists (Pos.of_succ_nat k), pg. split; assumption.
  - intros -> ->.
    destruct (find_page_pages (fun _ : OrderRow num => true && true) limit w)
      as [_ C'].
    assert (E : filter (fun _ : OrderRow num => true && true) (orders (db w))
                = orders (db w)).
    { clear. induction (orders (db w)) as [|x l IH]; simpl;
        [reflexivity|now f_equal]. }
    rewrite E, length_rev in C'. exact C'.
Qed.

(** [OrderController.getUserOrders], the handler of GET /api/orders, checks
    in this order.  A request without a user id is answered 401, whatever
    its query.  Then [page] and [limit] are read, 1 and 10 standing in for
    what is missing, unparsable or zero: a [page] below 1 or a [limit]
    outside 1..100 is answered 400.  Every other request is answered 200
    with the page that [OrderService.getUserOrders] returns for the caller:
    at most 100 orders, all of them the caller's.  Nothing is written. *)
Theorem getUserOrders_request
    (w : World num) (user : option AuthUser) (queryPage queryLimit : option Z) :
  let page := OrderController.or_default queryPage 1 in
  let limit := OrderController.or_default queryLimit 10 in
  (truthy (option_map userId user) = false ->
   OrderController.getUserOrders user queryPage queryLimit w
   = (inr (Failure 401 (Text "Authentication required")), w))
  /\ (truthy (option_map userId user) = true ->
      page < 1 \/ limit < 1 \/ 100 < limit ->
      OrderController.getUserOrders user queryPage queryLimit w
      = (inr (Failure 400 (Text "Invalid pagination parameters")), w))
  /\ (forall u,
        option_map userId user = Some u -> u <> ""%string ->
        1 <= page -> 1 <= limit <= 100 ->
        exists pg,
          getUserOrders u (Z.to_pos page) (Z.to_pos limit) w = (inr pg, w)
          /\ OrderController.getUserOrders user queryPage queryLimit w
             = (inr (Success 200 pg), w)
          /\ Forall (fun o => o_userId (order_row o) = u) (page_orders pg)
          /\ (List.length (page_orders pg) <= 100)%nat)
  /\ OrderController.or_default None 1 = 1
  /\ OrderController.or_default (Some 0) 1 = 1
  /\ (forall n d, n <> 0 -> OrderController.or_default (Some n) d = n).
Proof.
  intros page limit. split; [|split; [|split; [|split; [|split]]]].
  - intros T. unfold OrderController.getUserOrders, try_catch.
    now rewrite T.
  - intros T G. unfold OrderController.getUserOrders, try_catch.
    rewrite T. cbn [negb]. fold page limit.
    assert (B : (page <? 1) || (limit <? 1) || (limit >? 100) = true).
    { rewrite !orb_true_iff, !Z.ltb_lt, Z.gtb_lt. lia. }
    now rewrite B.
  - intros u U N G1 G2. unfold OrderController.getUserOrders, try_catch.
    rewrite U. cbn [truthy]. rewrite (proj2 (String.eqb_neq _ _) N).
    cbn [negb]. fold page limit.
    assert (B : (page <? 1) || (limit <? 1) || (limit >? 100) = false).
    { rewrite !orb_false_iff, !Z.ltb_ge, Z.gtb_ltb, Z.ltb_ge. lia. }
    rewrite B.
    destruct (find_page_pages (fun o => String.eqb (o_userId o) u)
                (Z.to_pos limit) w) as [P _].
    destruct (P (Z.to_pos page)) as (pg & R & F & L & _).
    exists pg. split; [exact R|]. unfold getUserOrders, bind. rewrite R.
    split; [reflexivity|]. split.
    + eapply Forall_impl; [|exact F]. intros o (E & _).
      now apply String.eqb_eq in E.
    + rewrite L.
      assert (Pos.to_nat (Z.to_pos limit) <= 100)%nat; [|lia].
      rewrite <- Z2Nat.inj_pos. rewrite Z2Pos.id by lia.
      change 100%nat with (Z.to_nat 100). apply Z2Nat.inj_le; lia.
  - reflexivity.
  - reflexivity.
  - intros n d N. unfold OrderController.or_default.
    now rewrite (proj2 (Z.eqb_neq _ _) N).
Qed.

End Listings.

(* ------------------------------------------------------------------ *)
(** ** The order endpoints *)

Section OrderRequests.
Context {num : Type} `{JSNumber num} `{scan : ScanOrder}.

(** [OrderController.updateOrderStatus], the handler of PUT
    /api/orders/:id/status (the route runs the token check and a validator
    of the status in front of it), checks in this order, and the first
    check that fails gives the answer: no user id, 401; no ADMIN role, 403,
    whatever the status asked for; a status that is missing or no
    [OrderStatus], 400; no order of that id, 404; a transition that the
    table does not have, 400 with the message of the service.  None of
    these writes.  Otherwise the answer is 200 with the order in the
    requested status, and only that order's status has changed. *)
Theorem updateOrderStatus_request
    (w : World num) (user : option AuthUser) (id : string)
    (status : option OrderStatus) :
  let signed_in := truthy (option_map userId user) in
  let admin := OrderController.is_admin user in
  let answer := OrderController.updateOrderStatus user id status w in
  (signed_in = false ->
   answer = (inr (Failure 401 (Text "Authentication required")), w))
  /\ (signed_in = true -> admin = false ->
      answer = (inr (Failure 403 (Text "Admin access required")), w))
  /\ (signed_in = true -> admin = true -> status = None ->
      answer = (inr (Failure 400 (Text "Invalid order status")), w))
  /\ (forall s,
        signed_in = true -> admin = true -> status = Some s ->
        find_order (db w) id = None ->
        answer = (inr (Failure 404 (Text "Order not found")), w))
  /\ (forall s cur,
        signed_in = true -> admin = true -> status = Some s ->
        find_order (db w) id = Some cur ->
        includes (OrderService.validTransitions (o_status cur)) s = false ->
        answer
        = (inr (Failure 400 (MessageOf (InvalidTransition (o_status cur) s))),
           w))
  /\ (forall s cur,
        signed_in = true -> admin = true -> status = Some s ->
        find_order (db w) id = Some cur ->
        includes (OrderService.validTransitions (o_status cur)) s = true ->
        exists o w',
          answer = (inr (Success 200 o), w')
          /\ order_row o = with_status cur s
          /\ find_order (db w') id = Some (with_status cur s)
          /\ (forall id', id' <> id ->
                find_order (db w') id' = find_order (db w) id')
          /\ products (db w') = products (db w)
          /\ cartItems (db w') = cartItems (db w)
          /\ orderItems (db w') = orderItems (db w)).
Proof.
  intros signed_in admin answer. subst signed_in admin answer.
  unfold OrderController.updateOrderStatus, try_catch.
  split; [|split; [|split; [|split; [|split]]]].
  - intros T. now rewrite T.
  - intros T A. now rewrite T, A.
  - intros T A ->. now rewrite T, A.
  - intros s T A -> F. rewrite T, A. cbn [negb]. unfold bind.
    now rewrite (updateOrderStatus_missing w id s _ F).
  - intros s cur T A -> F I. rewrite T, A. cbn [negb]. unfold bind.
    now rewrite (updateOrderStatus_refused w id s _ cur F I).
  - intros s cur T A -> F I. rewrite T, A. cbn [negb]. unfold bind.
    destruct (updateOrderStatus_allowed w id s (option_map userId user) cur F I)
      as (os' & S & R & F').
    rewrite R. eexists _, _. split; [reflexivity|].
    split; [reflexivity|]. split; [exact F'|]. split; [|repeat split].
    intros id' N. unfold find_order. cbn [db orders set_orders].
    now apply (set_status_other _ _ id s).
Qed.

(** PUT /api/orders/:id/cancel refuses without writing: an id that no order
    has is answered 404; an order of another user is answered 403 to a
    caller who is no administrator, whatever its status, so the answer
    tells such an order from an id that no order has; an order that the
    caller may cancel but that is neither [PENDING] nor [CONFIRMED] is
    answered 400 with the message of the service. *)
Theorem cancelOrder_request_refusals
    (w : World num) (u callerRole id : string)
    (Hsigned : u <> ""%string) :
  let user := Some (mkAuthUser u callerRole) in
  (find_order (db w) id = None ->
   OrderController.cancelOrder user id w
   = (inr (Failure 404 (Text "Order not found")), w))
  /\ (forall o,
        find_order (db w) id = Some o ->
        callerRole <> "ADMIN"%string -> o_userId o <> u ->
        OrderController.cancelOrder user id w
        = (inr (Failure 403 (Text "You can only cancel your own orders")), w))
  /\ (forall o,
        find_order (db w) id = Some o ->
        callerRole = "ADMIN"%string \/ o_userId o = u ->
        o_status o <> PENDING -> o_status o <> CONFIRMED ->
        OrderController.cancelOrder user id w
        = (inr (Failure 400 (MessageOf (CannotCancel (o_status o)))), w)).
Proof.
  intros user.
  assert (T : truthy (option_map userId user) = true).
  { simpl. now destruct (String.eqb_spec u ""). }
  unfold OrderController.cancelOrder, try_catch. rewrite T. cbn [negb].
  unfold bind. split; [|split].
  - intros F. now rewrite cancelOrder_run, F.
  - intros o F R O. rewrite cancelOrder_run, F.
    unfold OrderController.is_admin, user. cbn [role option_map userId].
    rewrite (proj2 (String.eqb_neq _ _) R). cbn [truthy].
    rewrite (proj2 (String.eqb_neq _ _) Hsigned), (proj2 (String.eqb_neq _ _) O).
    reflexivity.
  - intros o F O N1 N2. rewrite cancelOrder_run, F.
    assert (P : passes_ownership
                  (if OrderController.is_admin user then None
                   else option_map userId user) o).
    { unfold OrderController.is_admin, user.
      cbn [role option_map userId].
      destruct (String.eqb_spec callerRole "ADMIN") as [E|E].
      - now left.
      - right. destruct O as [O|O]; [contradiction|now rewrite O]. }
    rewrite (proj2 (passes_ownership_check _ o) P).
    assert (C : negb (includes [PENDING; CONFIRMED] (o_status o)) = true).
    { destruct (o_status o); try reflexivity; congruence. }
    now rewrite C.
Qed.

End OrderRequests.

(* ------------------------------------------------------------------ *)
(** ** The total shown and the total charged *)

Section ChargedTotal.
Import CartService OrderService.
Local Open Scope Q_scope.

Lemma sum_from {A} (f : A -> Q) (l : list A) (a : Q) :
  fold_left (fun acc x => (acc + f x)%js) l a == a + sum_over f l.
Proof.
  unfold sum_over. cbn [num_add num_of_Z JSNumber_Q].
  change (inject_Z 0) with 0.
  revert a. induction l as [|x l IH]; intros a; simpl.
  - ring.
  - rewrite (IH (a + f x)), (IH (0 + f x)). ring.
Qed.

Lemma sum_over_cons {A} (f : A -> Q) (x : A) (l : list A) :
  sum_over f (x :: l) == f x + sum_over f l.
Proof.
  unfold sum_over at 1. simpl. rewrite sum_from.
  cbn [num_add num_of_Z JSNumber_Q]. change (inject_Z 0) with 0. ring.
Qed.

(** An exact sum does not depend on the order of its terms. *)
Lemma sum_over_perm {A} (f : A -> Q) (l l' : list A) :
  Permutation l l' -> sum_over f l == sum_over f l'.
Proof.
  induction 1 as [|x l l' _ IH|x y l|l l1 l2 _ IH1 _ IH2].
  - reflexivity.
  - now rewrite !sum_over_cons, IH.
  - rewrite !sum_over_cons. ring.
  - now rewrite IH1.
Qed.

Lemma sum_Z_perm (l l' : list Z) : Permutation l l' -> sum_Z l = sum_Z l'.
Proof.
  induction 1 as [|x l l' _ IH|x y l|l l1 l2 _ IH1 _ IH2]; simpl; lia.
Qed.

Lemma sum_Z_quantities {num} `{JSNumber num} (l : list (CartItem num))
    (its : list (OrderItemRow num)) :
  Forall2 (fun c i => oi_quantity i = ci_quantity (ci_row c)) l its ->
  sum_Z (map oi_quantity its) = sum_Z (map quantity_of l).
Proof.
  induction 1 as [|c i l its E _ IH]; simpl; [reflexivity|].
  unfold quantity_of at 1. now rewrite E, IH.
Qed.

(** The amount charged is the total of the summary that [validateCart]
    computed, in every number model, and the order holds as many lines and
    pieces as that summary.  In exact arithmetic it is also the total that
    [getCart] shows for the same cart; on doubles it need not be, because
    [getCart] sums the lines newest first and [validateCart] in the order
    in which the database returns them. *)
Theorem createOrder_charges_validated_total :
  (forall num (J : JSNumber num) (scan : ScanOrder) (w w' : World num)
          (u : string) (data : CreateOrderData) (v : CartValidation num)
          (o : Order num),
     validateCart u w = (inr v, w) ->
     createOrder u data w = (inr o, w') ->
     o_totalAmount (order_row o) = total (cart v)
     /\ List.length (order_items o) = List.length (items (cart v))
     /\ sum_Z (map oi_quantity (order_items o)) = totalItems (cart v))
  /\ (forall (scan : ScanOrder) (w w1 w' : World Q) (u : string)
             (data : CreateOrderData) (s : CartSummary Q) (o : Order Q),
        getCart u w = (inr s, w1) ->
        createOrder u data w = (inr o, w') ->
        o_totalAmount (order_row o) == total s
        /\ List.length (order_items o) = List.length (items s)
        /\ sum_Z (map oi_quantity (order_items o)) = totalItems s).
Proof.
  split.
  - intros num J scan w w' u data v o Hvalid Hcreated.
    destruct (createOrder_returned w w' u data o Hcreated)
      as (l & Jl & _ & C & T).
    rewrite validateCart_run, Jl in Hvalid. injection Hvalid as <-.
    destruct C as (_ & _ & _ & _ & _ & L & _).
    cbn [cart]. rewrite T, !calculateCartSummary_fields.
    cbn [total items totalItems]. split; [reflexivity|]. split.
    + symmetry. exact (Forall2_length L).
    + apply sum_Z_quantities.
      revert L. apply Forall2_impl. now intros c i (_ & _ & E & _).
  - intros scan w w1 w' u data s o Hcart Hcreated.
    destruct (createOrder_returned w w' u data o Hcreated)
      as (l & Jl & _ & C & T).
    destruct (join_products_perm _ _ _ (unordered_perm _) _ Jl)
      as (shown & Js & Perm).
    rewrite getCart_run, Js in Hcart. injection Hcart as <- _.
    destruct C as (_ & _ & _ & _ & _ & L & _).
    assert (Perm' : Permutation l (rev shown)).
    { transitivity shown; [exact Perm|apply Permutation_rev]. }
    rewrite T, !calculateCartSummary_fields.
    cbn [total items totalItems]. split; [|split].
    + apply round2_comp. cbn [num_sub JSNumber_Q].
      now rewrite (sum_over_perm line_subtotal _ _ Perm'),
                  (sum_over_perm line_discount _ _ Perm').
    + rewrite <- (Permutation_length Perm'). symmetry.
      exact (Forall2_length L).
    + rewrite <- (sum_Z_perm _ _ (Permutation_map quantity_of Perm')).
      apply sum_Z_quantities.
      revert L. apply Forall2_impl. now intros c i (_ & _ & E & _).
Qed.

End ChargedTotal.

(* ------------------------------------------------------------------ *)
(** ** The properties on the small shop *)

Lemma mixed_world_ids :
  NoDup (map ci_id (cartItems (db (@mixed_world float _)))).
Proof.
  simpl. repeat constructor; simpl; intuition discriminate.
Qed.

Lemma shop_world_ids :
  NoDup (map ci_id (cartItems (db (@shop_world float _)))).
Proof.
  simpl. repeat constructor; simpl; intuition discriminate.
Qed.

Lemma syncCartWithStock_clamps_witness :
  exists w',
    CartService.syncCartWithStock (scan:=creation_order) "dave"
      (@mixed_world float _)
    = (inr (CartService.mkSyncResult ["Lamp"%string] [("Gadget"%string, 3)]), w')
    /\ cartItems (db w')
       = [mkCartItemRow "c6" "dave" "A" 2; mkCartItemRow "c7" "dave" "B" 3;
          mkCartItemRow "c9" "erin" "B" 4].
Proof.
  destruct (syncCartWithStock_clamps (scan:=creation_order)
              (@mixed_world float _) "dave" _ mixed_world_ids eq_refl)
    as (w' & R & T & _).
  exists w'. split; [exact R|]. rewrite T. reflexivity.
Defined.

Lemma syncCartWithStock_idempotent_witness :
  exists w',
    CartService.syncCartWithStock (scan:=creation_order) "dave"
      (@mixed_world float _)
    = (inr (CartService.mkSyncResult ["Lamp"%string] [("Gadget"%string, 3)]), w')
    /\ CartService.syncCartWithStock (scan:=creation_order) "dave" w'
       = (inr (CartService.mkSyncResult [] []), w').
Proof.
  exact (syncCartWithStock_idempotent (scan:=creation_order)
           (@mixed_world float _) "dave" _ mixed_world_ids eq_refl).
Defined.

Lemma sync_then_validate_witness :
  exists w' found' checked,
    CartService.syncCartWithStock (scan:=creation_order) "dave"
      (@mixed_world float _)
    = (inr (CartService.mkSyncResult ["Lamp"%string] [("Gadget"%string, 3)]), w')
    /\ CartService.getCartForCheckout (scan:=creation_order) "dave"
         (@mixed_world float _)
       = (inr (CartService.calculateCartSummary (rev found')), w')
    /\ Permutation found' checked
    /\ CartService.validateCart (scan:=creation_order) "dave" w'
       = (inr (CartService.mkCartValidation
                 (negb (List.length checked =? 0)%nat)
                 (if (List.length checked =? 0)%nat then [VCartIsEmpty] else [])
                 (CartService.calculateCartSummary checked)), w').
Proof.
  exact (sync_then_validate (scan:=creation_order) (@mixed_world float _)
           "dave" _ mixed_world_ids eq_refl).
Defined.

Lemma updateCartItem_sets_quantity_witness :
  CartService.updateCartItem "alice" "c1" 4 (@shop_world float _)
  = (inr (mkCartItem (mkCartItemRow "c1" "alice" "A" 4) widget),
     mkWorld (set_cartItems shop [mkCartItemRow "c1" "alice" "A" 4]) None)
  /\ CartService.updateCartItem "bob" "c1" 4 (@shop_world float _)
     = (inl CartItemNotFound, shop_world).
Proof.
  destruct (updateCartItem_sets_quantity (@shop_world float _) "alice" "c1" 4
              shop_world_ids) as (_ & _ & Own & _).
  destruct (updateCartItem_sets_quantity (@shop_world float _) "bob" "c1" 4
              shop_world_ids) as (_ & Foreign & _).
  split.
  - apply (Own (mkCartItemRow "c1" "alice" "A" 3) widget);
      simpl; try reflexivity; try lia. now left.
  - apply Foreign; [lia|]. simpl. intros r [<-|[]] _. simpl. discriminate.
Defined.

Lemma removeFromCart_deletes_row_witness :
  CartService.removeFromCart "alice" "c1" (@shop_world float _)
  = (inr tt, mkWorld (set_cartItems shop []) None)
  /\ CartService.removeFromCart "bob" "c1" (@shop_world float _)
     = (inl CartItemNotFound, shop_world).
Proof.
  destruct (removeFromCart_deletes_row (@shop_world float _) "alice" "c1"
              shop_world_ids) as (_ & Own).
  destruct (removeFromCart_deletes_row (@shop_world float _) "bob" "c1"
              shop_world_ids) as (Foreign & _).
  split.
  - apply (Own (mkCartItemRow "c1" "alice" "A" 3) widget);
      simpl; try reflexivity. now left.
  - apply Foreign. simpl. intros r [<-|[]] _. simpl. discriminate.
Defined.

Lemma getCartItemCount_matches_summary_witness :
  CartService.getCartItemCount "dave" (@mixed_world float _)
  = (inr 8, mixed_world).
Proof.
  assert (R : exists s w',
            CartService.getCart "dave" (@mixed_world float _) = (inr s, w')
            /\ CartService.totalItems s = 8).
  { eexists _, _. split; vm_compute; reflexivity. }
  destruct R as (s & w' & R & T).
  destruct (getCartItemCount_matches_summary _ _ _ _ R) as [C _].
  now rewrite <- T.
Defined.

Lemma cart_requests_keep_invariant_witness :
  cart_invariant
    (db (serve_all
           [AddItem (Some (mkAuthUser "alice" "USER")) (Some "B"%string)
                    (JSInteger 2);
            AddItem (Some (mkAuthUser "bob" "USER")) (Some "A"%string)
                    (JSInteger 9);
            UpdateItem (Some (mkAuthUser "alice" "USER")) "c1" (JSInteger 5);
            AddItem (Some (mkAuthUser "alice" "USER")) (Some "A"%string)
                    JSUndefined;
            RemoveItem (Some (mkAuthUser "bob" "USER")) "c1";
            SyncCart (Some (mkAuthUser "alice" "USER"));
            ClearCart None]
           (@shop_world float _))).
Proof.
  apply cart_requests_keep_invariant.
  split; [exact shop_world_ids|]. split.
  - simpl. repeat constructor; simpl; intuition discriminate.
  - simpl. repeat constructor. exists widget. simpl. split; [reflexivity|lia].
Defined.

Lemma createOrder_then_getOrderById_witness :
  exists o w',
    OrderService.createOrder "alice" alice_data (@shop_world float _)
    = (inr o, w')
    /\ OrderService.getOrderById (o_id (order_row o)) (Some "alice"%string) w'
       = (inr (Some o), w')
    /\ OrderService.getOrderById (o_id (order_row o)) (Some "bob"%string) w'
       = (inr None, w').
Proof.
  assert (R : exists o w',
            OrderService.createOrder "alice" alice_data (@shop_world float _)
            = (inr o, w')).
  { eexists _, _. vm_compute. reflexivity. }
  destruct R as (o & w' & R). exists o, w'. split; [exact R|].
  destruct (createOrder_then_getOrderById _ _ _ _ _ R) as (_ & Own & Other).
  split; [exact Own|]. apply Other; discriminate.
Defined.

Lemma createOrder_then_cancelOrder_witness :
  exists o w' r w'',
    OrderService.createOrder "alice" alice_data (@shop_world float _)
    = (inr o, w')
    /\ OrderService.cancelOrder (o_id (order_row o)) (Some "alice"%string) w'
       = (inr r, w'')
    /\ stock_of (db w'') "A" = Some 5.
Proof.
  assert (R : exists o w',
            OrderService.createOrder "alice" alice_data (@shop_world float _)
            = (inr o, w')
            /\ fault w' = None).
  { eexists _, _. split; vm_compute; reflexivity. }
  destruct R as (o & w' & R & F).
  destruct (createOrder_then_cancelOrder _ _ _ _ _ R F)
    as (r & w'' & C & _ & _ & St & _).
  exists o, w', r, w''. split; [exact R|]. split; [exact C|].
  rewrite St. reflexivity.
Defined.

Lemma updateOrderStatus_only_moves_forward_witness :
  exists r w',
    OrderService.updateOrderStatus "o1" CANCELLED (Some "root"%string)
      (@shop_world float _) = (inr r, w')
    /\ o_status (order_row r) = CANCELLED
    /\ products (db w') = products (db (@shop_world float _)).
Proof.
  assert (R : exists r w',
            OrderService.updateOrderStatus "o1" CANCELLED (Some "root"%string)
              (@shop_world float _) = (inr r, w')).
  { eexists _, _. vm_compute. reflexivity. }
  destruct R as (r & w' & R). exists r, w'. split; [exact R|].
  destruct (updateOrderStatus_only_moves_forward _ _ _ _ _ _ R)
    as (o & F & _ & E & _ & _ & P & _).
  split; [|exact P]. now rewrite E.
Defined.

Lemma updatePaymentStatus_unchecked_witness :
  (exists r w',
     OrderService.updatePaymentStatus "o1" REFUNDED (@shop_world float _)
     = (inr r, w')
     /\ o_paymentStatus (order_row r) = REFUNDED
     /\ o_status (order_row r) = CONFIRMED)
  /\ OrderService.updatePaymentStatus "o9" PAID (@shop_world float _)
     = (inl PrismaError, shop_world).
Proof.
  split.
  - destruct (updatePaymentStatus_unchecked (@shop_world float _) "o1" REFUNDED)
      as (_ & Found).
    destruct (Found _ eq_refl) as (r & w' & R & E & S & _).
    exists r, w'. split; [exact R|]. split; [now rewrite E|exact S].
  - destruct (updatePaymentStatus_unchecked (@shop_world float _) "o9" PAID)
      as (Missing & _).
    apply Missing. reflexivity.
Defined.

Lemma cancelOrder_request_refusals_witness :
  OrderController.cancelOrder (Some (mkAuthUser "bob" "USER")) "o1"
    (@shop_world float _)
  = (inr (Failure 403 (Text "You can only cancel your own orders")), shop_world)
  /\ OrderController.cancelOrder (Some (mkAuthUser "bob" "USER")) "o9"
       (@shop_world float _)
     = (inr (Failure 404 (Text "Order not found")), shop_world).
Proof.
  destruct (cancelOrder_request_refusals (@shop_world float _) "bob" "USER" "o1"
              ltac:(discriminate)) as (_ & Foreign & _).
  destruct (cancelOrder_request_refusals (@shop_world float _) "bob" "USER" "o9"
              ltac:(discriminate)) as (Missing & _).
  split.
  - apply (Foreign _ eq_refl); simpl; discriminate.
  - apply Missing. reflexivity.
Defined.

Lemma getAllOrders_pages_witness :
  exists page pg,
    OrderService.getAllOrders page 20 (Some CONFIRMED) None (@shop_world float _)
    = (inr pg, shop_world)
    /\ In (mkOrderRow "o1" "alice" CONFIRMED (cents 30000) alice_address cash
                      PAY_PENDING)
          (map order_row (OrderService.page_orders pg)).
Proof.
  destruct (getAllOrders_pages (@shop_world float _) 20 (Some CONFIRMED) None)
    as (_ & All & _).
  apply All.
  - simpl. now left.
  - split; [reflexivity|exact I].
Defined.

Lemma cart_requests_isolated_witness :
  cart_rows
    (db (serve_all
           [AddItem (Some (mkAuthUser "bob" "USER")) (Some "A"%string)
                    (JSInteger 2);
            UpdateItem (Some (mkAuthUser "bob" "USER")) "c1" (JSInteger 1);
            RemoveItem (Some (mkAuthUser "bob" "USER")) "c1";
            RemoveItem None "c1";
            ClearCart (Some (mkAuthUser "carol" "ADMIN"))]
           (@shop_world float _))) "alice"
  = [mkCartItemRow "c1" "alice" "A" 3].
Proof.
  rewrite cart_requests_isolated; [reflexivity| |].
  - split; [exact shop_world_ids|]. split.
    + simpl. repeat constructor; simpl; intuition discriminate.
    + simpl. repeat constructor. exists widget. simpl. split; [reflexivity|lia].
  - repeat constructor; simpl; discriminate.
Defined.

Lemma createOrder_charges_validated_total_witness :
  exists s v o w',
    CartService.getCart "frank" (@basket_world float _) = (inr s, basket_world)
    /\ CartService.validateCart (scan:=creation_order) "frank"
         (@basket_world float _) = (inr v, basket_world)
    /\ OrderService.createOrder (scan:=creation_order) "frank" alice_data
         (@basket_world float _) = (inr o, w')
    /\ o_totalAmount (order_row o) = CartService.total (CartService.cart v)
    /\ CartService.total (CartService.cart v) = cents 42010
    /\ CartService.total s = cents 42011.
Proof.
  assert (R : exists s v o w',
            CartService.getCart "frank" (@basket_world float _)
            = (inr s, basket_world)
            /\ CartService.validateCart (scan:=creation_order) "frank"
                 (@basket_world float _) = (inr v, basket_world)
            /\ OrderService.createOrder (scan:=creation_order) "frank"
                 alice_data (@basket_world float _) = (inr o, w')
            /\ CartService.total (CartService.cart v) = cents 42010
            /\ CartService.total s = cents 42011).
  { eexists _, _, _, _. repeat split; vm_compute; reflexivity. }
  destruct R as (s & v & o & w' & G & V & R & Tv & Ts).
  exists s, v, o, w'. repeat split; trivial.
  exact (proj1 (proj1 createOrder_charges_validated_total _ _ _ _ _ _ _ _ _
                  V R)).
Defined.

Lemma createOrder_interleaved_oversells_witness :
  exists va vb oa w1 ob w2,
    CartService.validateCart (scan:=creation_order) "alice"
      (@rush_world float _) = (inr va, rush_world)
    /\ CartService.validateCart (scan:=creation_order) "bob"
         (@rush_world float _) = (inr vb, rush_world)
    /\ OrderService.createOrder_resume "alice" alice_data va rush_world
       = (inr oa, w1)
    /\ OrderService.createOrder_resume "bob" alice_data vb w1 = (inr ob, w2)
    /\ stock_of (db (@rush_world float _)) "A" = Some 5
    /\ stock_of (db w2) "A" = Some (-1).
Proof.
  assert (V : exists va vb,
            CartService.validateCart (scan:=creation_order) "alice"
              (@rush_world float _) = (inr va, rush_world)
            /\ CartService.validateCart (scan:=creation_order) "bob"
                 (@rush_world float _) = (inr vb, rush_world)
            /\ CartService.isValid va = true
            /\ CartService.isValid vb = true
            /\ ordered (CartService.items (CartService.cart va)) "A" = 3
            /\ ordered (CartService.items (CartService.cart vb)) "A" = 3).
  { eexists _, _. repeat split; vm_compute; reflexivity. }
  destruct V as (va & vb & Va & Vb & Oa & Ob & Qa & Qb).
  destruct (createOrder_interleaved_oversells (scan:=creation_order)
              (@rush_world float _) "alice" "bob" alice_data alice_data
              va vb eq_refl Va Oa Vb Ob)
    as (_ & oa & w1 & ob & w2 & Ra & Rb & _ & _ & _ & St & _).
  exists va, vb, oa, w1, ob, w2. repeat split; trivial.
  rewrite St, Qa, Qb. reflexivity.
Defined.

Lemma getUserOrders_request_witness :
  OrderController.getUserOrders None (Some 0) (Some 500) (@shop_world float _)
  = (inr (Failure 401 (Text "Authentication required")), shop_world)
  /\ OrderController.getUserOrders (Some (mkAuthUser "alice" "USER"))
       (Some 0) (Some 500) (@shop_world float _)
     = (inr (Failure 400 (Text "Invalid pagination parameters")), shop_world)
  /\ exists pg,
       OrderController.getUserOrders (Some (mkAuthUser "alice" "USER"))
         (Some 0) None (@shop_world float _)
       = (inr (Success 200 pg), shop_world)
       /\ List.length (OrderService.page_orders pg) = 1%nat.
Proof.
  destruct (getUserOrders_request (@shop_world float _) None (Some 0)
              (Some 500)) as (Anon & _).
  destruct (getUserOrders_request (@shop_world float _)
              (Some (mkAuthUser "alice" "USER")) (Some 0) (Some 500))
    as (_ & Bad & _).
  destruct (getUserOrders_request (@shop_world float _)
              (Some (mkAuthUser "alice" "USER")) (Some 0) None)
    as (_ & _ & Good & _).
  split; [apply Anon; reflexivity|].
  split; [apply Bad; [reflexivity|simpl; lia]|].
  destruct (Good "alice"%string eq_refl ltac:(discriminate)
              ltac:(simpl; lia) ltac:(simpl; lia)) as (pg & S & R & _).
  exists pg. split; [exact R|]. injection S as <-. reflexivity.
Defined.

Lemma updateOrderStatus_request_witness :
  OrderController.updateOrderStatus (Some (mkAuthUser "alice" "USER")) "o1"
    None (@shop_world float _)
  = (inr (Failure 403 (Text "Admin access required")), shop_world)
  /\ OrderController.updateOrderStatus (Some (mkAuthUser "root" "ADMIN")) "o1"
       (Some DELIVERED) (@shop_world float _)
     = (inr (Failure 400 (MessageOf (InvalidTransition CONFIRMED DELIVERED))),
        shop_world)
  /\ exists o w',
       OrderController.updateOrderStatus (Some (mkAuthUser "root" "ADMIN"))
         "o1" (Some PROCESSING) (@shop_world float _)
       = (inr (Success 200 o), w')
       /\ o_status (order_row o) = PROCESSING.
Proof.
  destruct (updateOrderStatus_request (@shop_world float _)
              (Some (mkAuthUser "alice" "USER")) "o1" None)
    as (_ & User & _).
  destruct (updateOrderStatus_request (@shop_world float _)
              (Some (mkAuthUser "root" "ADMIN")) "o1" (Some DELIVERED))
    as (_ & _ & _ & _ & Refused & _).
  destruct (updateOrderStatus_request (@shop_world float _)
              (Some (mkAuthUser "root" "ADMIN")) "o1" (Some PROCESSING))
    as (_ & _ & _ & _ & _ & Allowed).
  split; [apply User; reflexivity|].
  split; [apply (Refused DELIVERED _ eq_refl eq_refl eq_refl eq_refl);
          reflexivity|].
  destruct (Allowed PROCESSING _ eq_refl eq_refl eq_refl eq_refl eq_refl)
    as (o & w' & R & E & _).
  exists o, w'. split; [exact R|]. now rewrite E.
Defined.
